(** * A verification development for the reading-analysis batch job

    The job (run_task.py) reads reading activity from a warehouse
    (libs/data_source.py), asks a hosted assistant for recommendations
    (libs/openai_assistant.py) and tears the assistant down afterwards.

    The Python code is embedded shallowly:
    - a [str] is a list of Unicode code points;
    - a call that may raise returns an [outcome];
    - the warehouse tables are lists of records and each SQL query is
      the list program its clauses describe;
    - the assistant service is a script of responses and a log of the
      calls made to it. *)

From Stdlib Require Import NArith ZArith Lia String Ascii.
From stdpp Require Import base option list numbers sorting.

Set Warnings "-register-all".
Open Scope N_scope.

(** * Python-level prelude *)
Module Py.

(** A Python [str]: a sequence of code points. *)
Definition char := N.
Definition str := list char.

(** An ASCII literal as a [str]. *)
Definition lit (s : string) : str := map N_of_ascii (list_ascii_of_string s).

(** The outcome of a call: a value, a raised exception, or no return at
    all (a call that blocks for ever). *)
Inductive exn :=
| ValueError | TypeError | KeyError | AttributeError
| ServiceError        (* an error of the assistant service client *)
| DatabaseError       (* an error of the warehouse client *)
| OSError
| KeyboardInterrupt.  (* a BaseException that is not an Exception *)

Inductive outcome (A : Type) :=
| Return (a : A)
| Raise (e : exn)
| Hang.
Arguments Return {A} a.
Arguments Raise {A} e.
Arguments Hang {A}.

(** [except Exception] catches every exception but the BaseException-only ones. *)
Definition is_Exception (e : exn) : bool :=
  match e with KeyboardInterrupt => false | _ => true end.

(** A computation that performs events of type [E] (calls to a
    service, printed lines): the events performed, in order, and the
    outcome. *)
Definition M (E A : Type) : Type := list E * outcome A.

#[global] Instance M_ret {E} : MRet (M E) := fun A a => ([], Return a).

#[global] Instance M_bind {E} : MBind (M E) := fun A B f m =>
  match m.2 with
  | Return a => (m.1 ++ (f a).1, (f a).2)
  | Raise e => (m.1, Raise e)
  | Hang => (m.1, Hang)
  end.

Definition raise {E A} (e : exn) : M E A := ([], Raise e).
Definition hang {E A} : M E A := ([], Hang).
Definition emit {E} (ev : E) : M E unit := ([ev], Return tt).
Definition lift {E A} (o : outcome A) : M E A := ([], o).

(** [try: m  except Exception as e: h e] *)
Definition try_except {E A} (m : M E A) (h : exn -> M E A) : M E A :=
  match m.2 with
  | Raise e => if is_Exception e then (m.1 ++ (h e).1, (h e).2) else m
  | _ => m
  end.

(** [try: m  finally: fin].  The [finally] block runs when [m] returns
    and when it raises; an exception of the block replaces the one of
    [m]. *)
Definition try_finally {E A} (m : M E A) (fin : M E unit) : M E A :=
  match m.2 with
  | Return a => (m.1, Return tt) ≫= (fun _ => fin ≫= (fun _ => mret a))
  | Raise e => (m.1, Return tt) ≫= (fun _ => fin ≫= (fun _ => raise e))
  | Hang => m
  end.

(** [for x in l: body x] *)
Fixpoint for_each {E A} (l : list A) (body : A -> M E unit) : M E unit :=
  match l with
  | [] => mret tt
  | x :: t => body x ≫= (fun _ => for_each t body)
  end.

(** [for x in l: acc = body x acc] *)
Fixpoint for_fold {E A S} (l : list A) (body : A -> S -> M E S) (acc : S) : M E S :=
  match l with
  | [] => mret acc
  | x :: t => body x acc ≫= for_fold t body
  end.

(** The values of Python that JSON text decodes to. *)
Inductive pyval :=
| PNone
| PBool (b : bool)
| PInt (z : Z)
| PFloat (repr : str)
| PStr (s : str)
| PList (l : list pyval)
| PDict (d : list (str * pyval)).

(** A [dict] keeps its keys in insertion order. *)
Fixpoint dict_lookup (k : str) (d : list (str * pyval)) : option pyval :=
  match d with
  | [] => None
  | (k', v) :: t => if decide (k' = k) then Some v else dict_lookup k t
  end.

(** [d[k] = v]: the value of an existing key is replaced where it
    stands, a new key goes last. *)
Fixpoint dict_store (k : str) (v : pyval) (d : list (str * pyval)) : list (str * pyval) :=
  match d with
  | [] => [(k, v)]
  | (k', v') :: t =>
      if decide (k' = k) then (k', v) :: t else (k', v') :: dict_store k v t
  end.

(** [x.get(k, dflt)]: only a [dict] has the method. *)
Definition py_get (x : pyval) (k : str) (dflt : pyval) : outcome pyval :=
  match x with
  | PDict d => Return (default dflt (dict_lookup k d))
  | _ => Raise AttributeError
  end.

(** [x[k]] for a [str] key. *)
Definition py_getitem (x : pyval) (k : str) : outcome pyval :=
  match x with
  | PDict d =>
      match dict_lookup k d with
      | Some v => Return v
      | None => Raise KeyError
      end
  | _ => Raise TypeError
  end.

(** [x[k] = v] for a [str] key: the object after the assignment. *)
Definition py_setitem (x : pyval) (k : str) (v : pyval) : outcome pyval :=
  match x with
  | PDict d => Return (PDict (dict_store k v d))
  | _ => Raise TypeError
  end.

(** [iter(x)]: the objects a [for] loop over [x] visits. *)
Definition py_iter (x : pyval) : outcome (list pyval) :=
  match x with
  | PList l => Return l
  | PDict d => Return (map (fun kv => PStr kv.1) d)
  | PStr s => Return (map (fun c => PStr [c]) s)
  | _ => Raise TypeError
  end.

(** General category Nd of the Unicode database (version 14.0, the one
    of CPython 3.11): runs [(first, length)] of decimal digits.  In each
    run the digit value of [c] is [(c - first) mod 10]. *)
Definition Nd_runs : list (N * N) :=
  [ (0x30, 10); (0x660, 10); (0x6f0, 10); (0x7c0, 10); (0x966, 10);
    (0x9e6, 10); (0xa66, 10); (0xae6, 10); (0xb66, 10); (0xbe6, 10);
    (0xc66, 10); (0xce6, 10); (0xd66, 10); (0xde6, 10); (0xe50, 10);
    (0xed0, 10); (0xf20, 10); (0x1040, 10); (0x1090, 10); (0x17e0, 10);
    (0x1810, 10); (0x1946, 10); (0x19d0, 10); (0x1a80, 10); (0x1a90, 10);
    (0x1b50, 10); (0x1bb0, 10); (0x1c40, 10); (0x1c50, 10); (0xa620, 10);
    (0xa8d0, 10); (0xa900, 10); (0xa9d0, 10); (0xa9f0, 10); (0xaa50, 10);
    (0xabf0, 10); (0xff10, 10); (0x104a0, 10); (0x10d30, 10); (0x11066, 10);
    (0x110f0, 10); (0x11136, 10); (0x111d0, 10); (0x112f0, 10); (0x11450, 10);
    (0x114d0, 10); (0x11650, 10); (0x116c0, 10); (0x11730, 10); (0x118e0, 10);
    (0x11950, 10); (0x11c50, 10); (0x11d50, 10); (0x11da0, 10); (0x16a60, 10);
    (0x16ac0, 10); (0x16b50, 10); (0x1d7ce, 50); (0x1e140, 10); (0x1e2f0, 10);
    (0x1e950, 10); (0x1fbf0, 10) ].

Definition in_run (c : char) (r : N * N) : bool :=
  (fst r <=? c) && (c <? fst r + snd r).

(** [\d] of the [re] module on a [str] pattern, and [str.isdecimal]. *)
Definition isdecimal (c : char) : bool := existsb (in_run c) Nd_runs.

(** The value of a decimal digit ([unicodedata.decimal]). *)
Definition decimal_value (c : char) : option N :=
  match List.find (in_run c) Nd_runs with
  | Some r => Some ((c - fst r) mod 10)
  | None => None
  end.

(** [str.isspace] on one code point. *)
Definition space_chars : list N :=
  [ 0x9; 0xa; 0xb; 0xc; 0xd; 0x1c; 0x1d; 0x1e; 0x1f; 0x20; 0x85; 0xa0;
    0x1680; 0x2000; 0x2001; 0x2002; 0x2003; 0x2004; 0x2005; 0x2006;
    0x2007; 0x2008; 0x2009; 0x200a; 0x2028; 0x2029; 0x202f; 0x205f;
    0x3000 ].

Definition isspace (c : char) : bool := existsb (N.eqb c) space_chars.

(** [str.lstrip()], [str.rstrip()] and [str.strip()] without argument. *)
Fixpoint lstrip (s : str) : str :=
  match s with
  | [] => []
  | c :: t => if isspace c then lstrip t else s
  end.

Fixpoint rstrip (s : str) : str :=
  match s with
  | [] => []
  | c :: t =>
      match rstrip t with
      | [] => if isspace c then [] else [c]
      | r => c :: r
      end
  end.

Definition strip (s : str) : str := rstrip (lstrip s).

(** ** The fragment of [re] the code uses

    A pattern is a sequence of items: a literal code point, or [\d+]. *)
Inductive item :=
| Lit (c : char)
| Digits1.

(** [\d+] followed by the rest [k] of the pattern, as the backtracking
    matcher runs it: greedy, it first tries to take one more digit and
    gives digits back when the rest of the pattern fails. *)
Fixpoint plus_digits (k : str -> option str) (s : str) : option str :=
  match s with
  | x :: t =>
      if isdecimal x then
        match plus_digits k t with
        | Some r => Some r
        | None => k t
        end
      else None
  | [] => None
  end.

(** Matching a pattern at the head of [s]; the result is the text after
    the match. *)
Fixpoint match_here (p : list item) (s : str) {struct p} : option str :=
  match p with
  | [] => Some s
  | Lit c :: p' =>
      match s with
      | x :: t => if x =? c then match_here p' t else None
      | [] => None
      end
  | Digits1 :: p' => plus_digits (match_here p') s
  end.

(** [re.sub(p, "", s)] for a pattern that matches no empty text: the
    leftmost match is deleted and the scan resumes after it.  The
    recursion is on a bound of the length of the text left. *)
Fixpoint sub_from (fuel : nat) (p : list item) (s : str) : str :=
  match fuel with
  | O => []
  | S fuel' =>
      match s with
      | [] => []
      | c :: t =>
          match match_here p s with
          | Some r => sub_from fuel' p r
          | None => c :: sub_from fuel' p t
          end
      end
  end.

Definition re_sub_empty (p : list item) (s : str) : str :=
  sub_from (length s) p s.

(** [re.search(p, s) is not None]. *)
Fixpoint re_search (p : list item) (s : str) : bool :=
  match s with
  | [] => false
  | _ :: t =>
      match match_here p s with
      | Some _ => true
      | None => re_search p t
      end
  end.

End Py.

(** * libs/openai_assistant.py: [clean_text] *)
Module CleanText.
Import Py.

Definition LENTICULAR_L : char := 0x3010.  (* 【 *)
Definition DAGGER : char := 0x2020.        (* † *)
Definition LENTICULAR_R : char := 0x3011.  (* 】 *)

(** The pattern [【\d+:\d+†source】]. *)
Definition citation : list item :=
  [Lit LENTICULAR_L; Digits1; Lit 0x3a; Digits1; Lit DAGGER]
  ++ map Lit (lit "source") ++ [Lit LENTICULAR_R].

(** [def clean_text(text): return re.sub(r"【\d+:\d+†source】", "", text).strip()] *)
Definition clean_text (text : str) : str :=
  strip (re_sub_empty citation text).

(** "Great book 【3:1†source】 for kids" *)
Definition great_book : str :=
  lit "Great book " ++ [LENTICULAR_L] ++ lit "3:1" ++ [DAGGER]
  ++ lit "source" ++ [LENTICULAR_R] ++ lit " for kids".

(** "【1【2:3†source】:4†source】": a citation inside the digits of another. *)
Definition nested : str :=
  [LENTICULAR_L] ++ lit "1" ++ [LENTICULAR_L] ++ lit "2:3" ++ [DAGGER]
  ++ lit "source" ++ [LENTICULAR_R] ++ lit ":4" ++ [DAGGER]
  ++ lit "source" ++ [LENTICULAR_R].

(** Every 【 of [s] starts a citation: at each position a citation
    matches, or the code point there is not 【. *)
Fixpoint well_cited (s : str) : bool :=
  match s with
  | [] => true
  | c :: t =>
      match match_here citation s with
      | Some _ => true
      | None => negb (c =? LENTICULAR_L)
      end && well_cited t
  end.

End CleanText.

(** * libs/openai_assistant.py: the assistant service *)
Module Assistant.
Import Py CleanText.

(** Identifiers of the service's objects. *)
Definition id := str.

(** ** What the client of the service returns *)

(** [assistant.tool_resources.file_search.vector_store_ids]; each level
    is optional in the client's types. *)
Record file_search_resource := { vector_store_ids : option (list id) }.
Record tool_resources_t := { file_search : option file_search_resource }.
Record assistant := { tool_resources : option tool_resources_t }.

(** A tool call of a run that waits for tool outputs.  [None] stands for
    an attribute the object does not have ([hasattr], [getattr] with a
    default). *)
Record function_call := { fn_name : option str; fn_arguments : option str }.
Record tool_call := { tc_id : id; tc_function : option function_call }.

(** [run_status.status] and, when [run_status.required_action] has
    [submit_tool_outputs], its [tool_calls]. *)
Record run_status := { status : str; required_action : option (list tool_call) }.

(** ** Calls, printed lines and events *)
Inductive call :=
| AssistantsRetrieve (assistant_id : id)
| AssistantsDelete (assistant_id : id)
| VectorStoreFilesList (vector_store_id : id)
| VectorStoreFilesDelete (vector_store_id file_id : id)
| VectorStoresDelete (vector_store_id : id)
| ThreadsCreate
| MessagesCreate (thread_id : id) (content : str)
| RunsCreate (thread_id assistant_id : id) (file_search_choice : bool)
| RunsRetrieve (thread_id run_id : id)
| SubmitToolOutputs (thread_id run_id tool_call_id : id) (output : pyval).

Inductive message :=
| MsgFoundStores (n : nat) (assistant_id : id) (ids : list id)
| MsgAssistantDeleted (assistant_id : id)
| MsgFileDeleted (file_id vector_store_id : id)
| MsgStoreDeleted (vector_store_id : id)
| MsgStoreFailed (vector_store_id : id) (e : exn)
| MsgDeleteError (assistant_id : id) (e : exn)
| MsgThread (thread_id : id)
| MsgPrompt (prompt : str)
| MsgRunningAnalysis
| MsgSearching
| MsgStatus (st : str)
| MsgAnalysisComplete
| MsgRecommendationComplete
| MsgRunFailed.

Inductive event :=
| Call (c : call)
| Print (m : message)
| Sleep (seconds : N).

(** The service: what it answers to each call.  A run is polled many
    times, so [runs_retrieve] is the list of its successive answers. *)
Record service := {
  assistants_retrieve : id -> outcome assistant;
  assistants_delete : id -> outcome unit;
  vector_store_files_list : id -> outcome (list id);
  vector_store_files_delete : id -> id -> outcome unit;
  vector_stores_delete : id -> outcome unit;
  threads_create : outcome id;
  messages_create : id -> str -> outcome unit;
  runs_create : id -> id -> bool -> outcome id;
  runs_retrieve : id -> id -> list (outcome run_status);
  submit_tool_outputs : id -> id -> id -> pyval -> outcome unit
}.

Definition request {A} (c : call) (answer : outcome A) : M event A :=
  emit (Call c);; lift answer.

Definition print (m : message) : M event unit := emit (Print m).

(** ** [delete_assistant] *)

(** [assistant.tool_resources.file_search.vector_store_ids if
    assistant.tool_resources.file_search else []] *)
Definition linked_vector_stores (a : assistant) : outcome (option (list id)) :=
  match tool_resources a with
  | None => Raise AttributeError
  | Some tr =>
      match file_search tr with
      | Some fs => Return (vector_store_ids fs)
      | None => Return (Some [])
      end
  end.

(** [len(x)] and [for _ in x] on an optional list: [None] has neither. *)
Definition py_len {A} (x : option (list A)) : outcome (list A) :=
  match x with
  | Some l => Return l
  | None => Raise TypeError
  end.

(** The [try] block of the loop over the vector stores, once the files
    are listed: delete each file, then the store. *)
Definition delete_store_files (svc : service) (vector_store_id : id)
    (vector_store_files : list id) : M event unit :=
  for_each vector_store_files (fun file =>
    request (VectorStoreFilesDelete vector_store_id file)
            (vector_store_files_delete svc vector_store_id file);;
    print (MsgFileDeleted file vector_store_id));;
  request (VectorStoresDelete vector_store_id)
          (vector_stores_delete svc vector_store_id);;
  print (MsgStoreDeleted vector_store_id).

(** The body of the loop over the vector stores, with its own
    [try]/[except]. *)
Definition delete_vector_store (svc : service) (vector_store_id : id) : M event unit :=
  try_except
    (vector_store_files ←
       request (VectorStoreFilesList vector_store_id)
               (vector_store_files_list svc vector_store_id);
     delete_store_files svc vector_store_id vector_store_files)
    (fun e => print (MsgStoreFailed vector_store_id e)).

Definition delete_assistant (svc : service) (assistant_id : id) : M event unit :=
  try_except
    (assistant ← request (AssistantsRetrieve assistant_id)
                         (assistants_retrieve svc assistant_id);
     vector_store_ids ← lift (linked_vector_stores assistant);
     ids ← lift (py_len vector_store_ids);
     print (MsgFoundStores (length ids) assistant_id ids);;
     request (AssistantsDelete assistant_id) (assistants_delete svc assistant_id);;
     print (MsgAssistantDeleted assistant_id);;
     for_each ids (delete_vector_store svc))
    (fun e => print (MsgDeleteError assistant_id e)).

(** The calls among the events. *)
Definition calls_of (l : list event) : list call :=
  omap (fun ev => match ev with Call c => Some c | _ => None end) l.

(** The printed lines among the events. *)
Definition printed (l : list event) : list message :=
  omap (fun ev => match ev with Print m => Some m | _ => None end) l.

(** An answer that is a value or an [Exception]: the service neither
    blocks nor is interrupted. *)
Definition ordinary {A} (o : outcome A) : Prop :=
  match o with
  | Return _ => True
  | Raise e => is_Exception e = true
  | Hang => False
  end.

(** The calls the clean-up of one vector store is expected to make: the
    listing; then, when it succeeded, the deletion of the files up to
    the first that fails; then, when none failed, the deletion of the
    store. *)
Fixpoint file_calls (svc : service) (vs : id) (files : list id) : list call :=
  match files with
  | [] => [VectorStoresDelete vs]
  | f :: rest =>
      VectorStoreFilesDelete vs f ::
      match vector_store_files_delete svc vs f with
      | Return _ => file_calls svc vs rest
      | _ => []
      end
  end.

Definition store_calls (svc : service) (vs : id) : list call :=
  VectorStoreFilesList vs ::
  match vector_store_files_list svc vs with
  | Return files => file_calls svc vs files
  | _ => []
  end.

(** The failure that ends the clean-up of one vector store, if any: the
    exception of the first of its calls that raises. *)
Fixpoint files_failure (svc : service) (vs : id) (files : list id) : option exn :=
  match files with
  | [] =>
      match vector_stores_delete svc vs with
      | Raise e => Some e
      | _ => None
      end
  | f :: rest =>
      match vector_store_files_delete svc vs f with
      | Return _ => files_failure svc vs rest
      | Raise e => Some e
      | Hang => None
      end
  end.

Definition store_failure (svc : service) (vs : id) : option exn :=
  match vector_store_files_list svc vs with
  | Return files => files_failure svc vs files
  | Raise e => Some e
  | Hang => None
  end.

(** The lines the clean-up of one vector store is expected to print:
    one for each file deleted, one for the store when it is deleted,
    and, when a call failed, the line that reports the failure. *)
Fixpoint file_lines (svc : service) (vs : id) (files : list id) : list message :=
  match files with
  | [] =>
      match vector_stores_delete svc vs with
      | Return _ => [MsgStoreDeleted vs]
      | _ => []
      end
  | f :: rest =>
      match vector_store_files_delete svc vs f with
      | Return _ => MsgFileDeleted f vs :: file_lines svc vs rest
      | _ => []
      end
  end.

Definition store_lines (svc : service) (vs : id) : list message :=
  match vector_store_files_list svc vs with
  | Return files => file_lines svc vs files
  | _ => []
  end
  ++ match store_failure svc vs with
     | Some e => [MsgStoreFailed vs e]
     | None => []
     end.

(** A call about a vector store or its files. *)
Definition is_store_call (c : call) : Prop :=
  match c with
  | VectorStoreFilesList _ | VectorStoreFilesDelete _ _ | VectorStoresDelete _ => True
  | _ => False
  end.

(** The order of a teardown that deletes the assistant last: every
    deletion of a vector store comes before the one of the assistant. *)
Definition stores_before_assistant (calls : list call) : Prop :=
  forall (i j : nat) (a vs : id),
    calls !! i = Some (AssistantsDelete a) ->
    calls !! j = Some (VectorStoresDelete vs) ->
    (j < i)%nat.

(** Services to run the teardown on.  The assistant is bound to the
    stores [stores]; each store holds one file named after it;
    [broken_store] is a store whose files cannot be deleted, and
    [delete_answer] is what the deletion of the assistant answers. *)
Definition sample_service (stores : list id) (broken_store : id)
    (delete_answer : outcome unit) : service :=
  {| assistants_retrieve := fun _ =>
       Return {| tool_resources :=
                   Some {| file_search := Some {| vector_store_ids := Some stores |} |} |};
     assistants_delete := fun _ => delete_answer;
     vector_store_files_list := fun vs => Return [lit "file_of_" ++ vs];
     vector_store_files_delete := fun vs _ =>
       if decide (vs = broken_store) then Raise ServiceError else Return tt;
     vector_stores_delete := fun _ => Return tt;
     threads_create := Return (lit "thread_1");
     messages_create := fun _ _ => Return tt;
     runs_create := fun _ _ _ => Return (lit "run_1");
     runs_retrieve := fun _ _ => [];
     submit_tool_outputs := fun _ _ _ _ => Return tt |}.

(** ** The two runs *)
Section Driver.

(** [json.loads] of the standard library. *)
Variable json_loads : str -> outcome pyval.

(** [pt.OPENAI_USER_INTEREST_ANALYSIS_PROMPT.format(reading_hisory=_)]
    and [pt.OPENAI_USER_RECOOMMANDATION_PROMPT.format(reading_hisory=_)];
    the templates are constants of libs/prompt_templates.py. *)
Variable format_analysis_prompt : str -> outcome str.
Variable format_recommendation_prompt : str -> outcome str.

Variable svc : service.

Definition terminal (st : str) : bool :=
  bool_decide (st ∈ [lit "completed"; lit "failed"; lit "cancelled"]).

(** The [while True] loop both functions share: poll the run, leave on
    a terminal status, answer the tool calls of a run that requires
    action, sleep, poll again.  [script] holds the answers still to
    come; when it is over with no terminal status seen the loop polls
    for ever. *)
Fixpoint poll {S} (thread run : id) (on_tool_call : tool_call -> S -> M event S)
    (script : list (outcome run_status)) (acc : S) : M event (run_status * S) :=
  match script with
  | [] => hang
  | answer :: script' =>
      run_status ← request (RunsRetrieve thread run) answer;
      print (MsgStatus (status run_status));;
      if terminal (status run_status) then mret (run_status, acc)
      else
        acc' ← (if decide (status run_status = lit "requires_action") then
                  match required_action run_status with
                  | Some tool_calls => for_fold tool_calls on_tool_call acc
                  | None => mret acc
                  end
                else mret acc);
        emit (Sleep 2);;
        poll thread run on_tool_call script' acc'
  end.

(** [json.loads(getattr(tool_call.function, "arguments", "{}"))] *)
Definition function_args_of (f : function_call) : outcome pyval :=
  json_loads (default (lit "{}") (fn_arguments f)).

(** The body of [for tool_call in tool_calls] in [analyze_user_interest]. *)
Definition analysis_tool_call (thread run : id) (tool_call : tool_call)
    (recommendation_summary : pyval) : M event pyval :=
  match tc_function tool_call with
  | None => mret recommendation_summary
  | Some f =>
      let function_name := default [] (fn_name f) in
      function_args ← lift (function_args_of f);
      if decide (function_name = lit "recommend_books") then
        recommendation_summary ←
          lift (py_get function_args (lit "recommendation_summary") (PStr []));
        request
          (SubmitToolOutputs thread run (tc_id tool_call)
             (PDict [(lit "recommendation_summary", recommendation_summary)]))
          (submit_tool_outputs svc thread run (tc_id tool_call)
             (PDict [(lit "recommendation_summary", recommendation_summary)]));;
        print MsgAnalysisComplete;;
        mret recommendation_summary
      else mret recommendation_summary
  end.

Definition analyze_user_interest (assistant_id : id) (user_data : str) : M event pyval :=
  thread ← request ThreadsCreate (threads_create svc);
  print (MsgThread thread);;
  user_prompt ← lift (format_analysis_prompt user_data);
  print (MsgPrompt user_prompt);;
  request (MessagesCreate thread user_prompt) (messages_create svc thread user_prompt);;
  run ← request (RunsCreate thread assistant_id false)
                (runs_create svc thread assistant_id false);
  print MsgRunningAnalysis;;
  last ← poll thread run (analysis_tool_call thread run)
               (runs_retrieve svc thread run) (PStr []);
  if decide (status last.1 = lit "completed") then mret last.2
  else print MsgRunFailed;; mret (PStr []).

(** [clean_text(x)]: [re.sub] takes a [str]. *)
Definition py_clean_text (x : pyval) : outcome pyval :=
  match x with
  | PStr s => Return (PStr (clean_text s))
  | _ => Raise TypeError
  end.

(** The body of [for book in recommended_books]: the object [book]
    after the two assignments. *)
Definition clean_book (book : pyval) : outcome pyval :=
  match py_getitem book (lit "reason") with
  | Return reason =>
      match py_clean_text reason with
      | Return reason' =>
          match py_setitem book (lit "reason") reason' with
          | Return book1 =>
              match py_getitem book1 (lit "book_title") with
              | Return title =>
                  match py_clean_text title with
                  | Return title' => py_setitem book1 (lit "book_title") title'
                  | Raise e => Raise e
                  | Hang => Hang
                  end
              | Raise e => Raise e
              | Hang => Hang
              end
          | Raise e => Raise e
          | Hang => Hang
          end
      | Raise e => Raise e
      | Hang => Hang
      end
  | Raise e => Raise e
  | Hang => Hang
  end.

Fixpoint clean_each (books : list pyval) : outcome (list pyval) :=
  match books with
  | [] => Return []
  | book :: rest =>
      match clean_book book with
      | Return book' =>
          match clean_each rest with
          | Return rest' => Return (book' :: rest')
          | Raise e => Raise e
          | Hang => Hang
          end
      | Raise e => Raise e
      | Hang => Hang
      end
  end.

(** The loop [for book in recommended_books] as a whole: the books of a
    list are rewritten in place; the objects any other value yields are
    not dictionaries, so the first of them makes the loop raise. *)
Definition clean_books (recommended_books : pyval) : outcome pyval :=
  match py_iter recommended_books with
  | Return books =>
      match clean_each books with
      | Return books' =>
          Return match recommended_books with
                 | PList _ => PList books'
                 | other => other
                 end
      | Raise e => Raise e
      | Hang => Hang
      end
  | Raise e => Raise e
  | Hang => Hang
  end.

(** The body of [for tool_call in tool_calls] in [search_books_by_interest]. *)
Definition search_tool_call (thread run : id) (tool_call : tool_call)
    (recommended_books : pyval) : M event pyval :=
  match tc_function tool_call with
  | None => mret recommended_books
  | Some f =>
      let function_name := default [] (fn_name f) in
      function_args ← lift (function_args_of f);
      if decide (function_name = lit "recommend_books") then
        recommended_books ←
          lift (py_get function_args (lit "recommended_books") (PList []));
        recommended_books ← lift (clean_books recommended_books);
        request
          (SubmitToolOutputs thread run (tc_id tool_call)
             (PDict [(lit "recommended_books", recommended_books)]))
          (submit_tool_outputs svc thread run (tc_id tool_call)
             (PDict [(lit "recommended_books", recommended_books)]));;
        print MsgRecommendationComplete;;
        mret recommended_books
      else mret recommended_books
  end.

Definition search_books_by_interest (assistant_id : id) (user_data : str) : M event pyval :=
  thread ← request ThreadsCreate (threads_create svc);
  print (MsgThread thread);;
  print MsgSearching;;
  user_prompt ← lift (format_recommendation_prompt user_data);
  request (MessagesCreate thread user_prompt) (messages_create svc thread user_prompt);;
  run ← request (RunsCreate thread assistant_id true)
                (runs_create svc thread assistant_id true);
  last ← poll thread run (search_tool_call thread run)
               (runs_retrieve svc thread run) (PList []);
  if decide (status last.1 = lit "completed") then mret last.2
  else print MsgRunFailed;; mret (PList []).

End Driver.

(** ** What the claims about the runs speak of *)

(** A poll answer on which the loop only sleeps: a status that is not
    terminal and requires no action ([queued], [in_progress]). *)
Definition waiting (answer : outcome run_status) : Prop :=
  exists rs, answer = Return rs
             /\ terminal (status rs) = false
             /\ status rs <> lit "requires_action".

(** [book'] is [book] with [reason] and [book_title] cleaned and every
    other field as it was: same keys in the same order, same values. *)
Definition book_rewritten (book book' : pyval) : Prop :=
  exists d d' reason title,
    book = PDict d /\ book' = PDict d'
    /\ d'.*1 = d.*1
    /\ dict_lookup (lit "reason") d = Some (PStr reason)
    /\ dict_lookup (lit "reason") d' = Some (PStr (clean_text reason))
    /\ dict_lookup (lit "book_title") d = Some (PStr title)
    /\ dict_lookup (lit "book_title") d' = Some (PStr (clean_text title))
    /\ dict_lookup (lit "book_id") d' = dict_lookup (lit "book_id") d
    /\ forall k, k <> lit "reason" -> k <> lit "book_title" ->
                 dict_lookup k d' = dict_lookup k d.

(** [returned] is the recommendation list [supplied] by a tool call
    with its books rewritten. *)
Definition books_rewritten (supplied returned : pyval) : Prop :=
  match supplied with
  | PList books =>
      exists books', returned = PList books' /\ Forall2 book_rewritten books books'
  | _ => returned = supplied
  end.

(** A service whose run answers the polls with [script]. *)
Definition scripted_service (script : list (outcome run_status)) : service :=
  {| assistants_retrieve := fun _ => Raise ServiceError;
     assistants_delete := fun _ => Raise ServiceError;
     vector_store_files_list := fun _ => Raise ServiceError;
     vector_store_files_delete := fun _ _ => Raise ServiceError;
     vector_stores_delete := fun _ => Raise ServiceError;
     threads_create := Return (lit "thread_1");
     messages_create := fun _ _ => Return tt;
     runs_create := fun _ _ _ => Return (lit "run_1");
     runs_retrieve := fun _ _ => script;
     submit_tool_outputs := fun _ _ _ _ => Return tt |}.

(** The arguments of a sample [recommend_books] call, and a
    [json_loads] that reads them from the text "ARGS". *)
Definition sample_book : pyval :=
  PDict [ (lit "book_id", PStr (lit "b-42"));
          (lit "book_title", PStr great_book);
          (lit "reason", PStr (lit " about space ")) ].

Definition sample_arguments : pyval :=
  PDict [ (lit "recommendation_summary", PStr (lit "likes space"));
          (lit "recommended_books", PList [sample_book]) ].

Definition sample_json_loads (text : str) : outcome pyval :=
  if decide (text = lit "ARGS") then Return sample_arguments
  else if decide (text = lit "{}") then Return (PDict [])
  else Raise ValueError.

Definition sample_tool_call : tool_call :=
  {| tc_id := lit "call_1";
     tc_function := Some {| fn_name := Some (lit "recommend_books");
                            fn_arguments := Some (lit "ARGS") |} |}.

Definition status_only (st : string) : outcome run_status :=
  Return {| status := lit st; required_action := None |}.

(** A run that asks for the tool and then fails, and one that completes. *)
Definition failing_script : list (outcome run_status) :=
  [ status_only "queued";
    Return {| status := lit "requires_action";
              required_action := Some [sample_tool_call] |};
    status_only "in_progress";
    status_only "failed" ].

Definition completing_script : list (outcome run_status) :=
  [ status_only "queued";
    Return {| status := lit "requires_action";
              required_action := Some [sample_tool_call] |};
    status_only "completed" ].

(** An assistant whose vector stores cannot be looked up: it has no
    [tool_resources], or its [file_search] has no [vector_store_ids]. *)
Definition unbound (asst : assistant) : Prop :=
  tool_resources asst = None
  \/ exists tr fs, tool_resources asst = Some tr /\ file_search tr = Some fs
                   /\ vector_store_ids fs = None.

End Assistant.

(** * libs/data_source.py: the warehouse *)
Module DataSource.
Import Py.

(** A nullable column is an [option]; [None] is NULL, which the Python
    connector returns as [None]. *)

(** [=] of SQL in a WHERE or ON clause: a comparison with NULL is not
    true. *)
Definition sql_eq {A} `{EqDecision A} (x y : option A) : bool :=
  match x, y with
  | Some a, Some b => bool_decide (a = b)
  | _, _ => false
  end.

(** The tables, with the columns the queries name.  Times are seconds;
    [EVENT_TIME] is the time stamp of an event and is never NULL.  The
    queries do not qualify PERMANENT_ID, TITLE and DESCRIPTION of the
    catalog: they are taken to be columns of REGULAR_BOOK. *)
Record reading_session := {
  s_USER_ID : option str;
  s_EVENT_TIME : Z;
  s_BOOK_PERMANENT_ID : option str
}.

Record books_list_row := {
  b_TITLE : option str;
  b_AUTHOR : option str;
  b_ISBN : option str;
  b_LANGUAGE_CODE : option str;
  b_GENRE : option str;
  b_PUBLISHER : option str;
  b_WORD_COUNT : option Z;
  b_DEFAULT_CATEGORIES : option str;
  b_PERMANENT_ID : option str
}.

Record regular_book := {
  rb_ID : option Z;
  rb_PERMANENT_ID : option str;
  rb_TITLE : option str;
  rb_DESCRIPTION : option str
}.

Record published_book := {
  pb_ID : option Z;
  pb_PUBLISHED_BOOK_ID : option Z
}.

Record published_book_environments := {
  pbe_PUBLISHED_BOOK_ID : option Z;
  pbe_ENVIRONMENTS_ID : option Z
}.

Record environment := {
  e_ID : option Z;
  e_NAME : option str
}.

Record book_extended_info := {
  bei_BOOK_ID : option Z;
  bei_EXTENDED_BOOK_INFO : option str
}.

Record warehouse := {
  STUDENTS_READING_SESSIONS : list reading_session;
  BOOKS_LIST : list books_list_row;
  REGULAR_BOOK : list regular_book;
  PUBLISHED_BOOK : list published_book;
  PUBLISHED_BOOK_ENVIRONMENTS : list published_book_environments;
  ENVIRONMENT : list environment;
  BOOK_EXTENDED_INFO : list book_extended_info;
  CURRENT_TIMESTAMP : Z
}.

#[global] Instance reading_session_eq_dec : EqDecision reading_session.
Proof. solve_decision. Defined.
#[global] Instance books_list_row_eq_dec : EqDecision books_list_row.
Proof. solve_decision. Defined.

(** An identifier as an f-string puts it between the quotes of a SQL
    literal: [str(x)], which is "None" for [None].  The queries below
    are the meaning of the SQL text when the identifier holds no quote
    and no backslash, so that the literal denotes the identifier. *)
Definition py_str (x : option str) : str :=
  match x with
  | Some s => s
  | None => lit "None"
  end.

Definition plain_literal (x : option str) : bool :=
  forallb (fun c => negb ((c =? 0x27) || (c =? 0x5c))) (py_str x).

(** [DATEADD(DAY, n, t)] *)
Definition DATEADD_DAY (n t : Z) : Z := (t + n * 86400)%Z.

(** ** [get_active_users] *)

(** [WHERE EVENT_TIME >= DATEADD(DAY, -{days}, CURRENT_TIMESTAMP())] for
    a number of days that is not negative: its text has no sign, and
    [-{days}] is its opposite. *)
Definition recent_sessions (w : warehouse) (days : N) : list reading_session :=
  filter (fun s => (DATEADD_DAY (- Z.of_N days) (CURRENT_TIMESTAMP w) <= s_EVENT_TIME s)%Z)
         (STUDENTS_READING_SESSIONS w).

(** The row count [COUNT] of the group of [u] under [GROUP BY USER_ID] (NULLs
    make one group). *)
Definition ACTIVITY_COUNT (sessions : list reading_session) (u : option str) : nat :=
  length (filter (fun s => s_USER_ID s = u) sessions).

(** [ORDER BY ACTIVITY_COUNT DESC] *)
Definition count_desc (r1 r2 : option str * nat) : Prop := (r2.2 <= r1.2)%nat.

#[global] Instance count_desc_dec : RelDecision count_desc.
Proof. intros r1 r2. unfold count_desc. apply _. Defined.

(** The rows of the query: [(USER_ID, ACTIVITY_COUNT)]. *)
Definition active_user_rows (w : warehouse) (days : N) (min_activity_count : Z)
    : list (option str * nat) :=
  let sessions := recent_sessions w days in
  let groups := remove_dups (s_USER_ID <$> sessions) in
  let counted := (fun u => (u, ACTIVITY_COUNT sessions u)) <$> groups in
  let having := filter (fun r => (min_activity_count <= Z.of_nat r.2)%Z) counted in
  merge_sort count_desc having.

(** [cursor.execute(sql); rows = cursor.fetchall();
     user_ids = [row[0] for row in rows]].  For a negative [days] the
    text [-{days}] starts with [--], which opens a comment that runs to
    the end of the line: the statement is cut short inside [DATEADD(]
    and the warehouse refuses it (a ProgrammingError, which is a
    DatabaseError). *)
Definition get_active_users (w : warehouse) (days min_activity_count : Z)
    : outcome (list (option str)) :=
  match days with
  | Z.neg _ => Raise DatabaseError
  | _ => Return (active_user_rows w (Z.to_N days) min_activity_count).*1
  end.

(** The activity of [u] in the trailing [days] days: the number of its
    events from [days] days before the time of the query on. *)
Definition activity_in_window (w : warehouse) (days : Z) (u : option str) : nat :=
  length (filter (fun s => s_USER_ID s = u
                           /\ (CURRENT_TIMESTAMP w - days * 86400 <= s_EVENT_TIME s)%Z)
                 (STUDENTS_READING_SESSIONS w)).

(** The same with the window closed at the time of the query. *)
Definition activity_between (w : warehouse) (days : Z) (u : option str) : nat :=
  length (filter (fun s => s_USER_ID s = u
                           /\ (CURRENT_TIMESTAMP w - days * 86400 <= s_EVENT_TIME s
                               <= CURRENT_TIMESTAMP w)%Z)
                 (STUDENTS_READING_SESSIONS w)).

(** ** [get_user_read_books] *)

(** A row of the JOIN: a session and the book it names. *)
Definition joined_row : Type := reading_session * books_list_row.

(** [FROM s JOIN b ON s.BOOK_PERMANENT_ID = b.PERMANENT_ID
     WHERE s.USER_ID = '{user_id}'] *)
Definition user_sessions (w : warehouse) (user_id : option str) : list joined_row :=
  s ← STUDENTS_READING_SESSIONS w;
  b ← BOOKS_LIST w;
  if sql_eq (s_BOOK_PERMANENT_ID s) (b_PERMANENT_ID b)
     && sql_eq (s_USER_ID s) (Some (py_str user_id))
  then [(s, b)] else [].

(** [ORDER BY s.EVENT_TIME DESC] *)
Definition time_desc (r1 r2 : joined_row) : Prop :=
  (s_EVENT_TIME r2.1 <= s_EVENT_TIME r1.1)%Z.

#[global] Instance time_desc_dec : RelDecision time_desc.
Proof. intros r1 r2. unfold time_desc. apply _. Defined.

(** [ROW_NUMBER() OVER (PARTITION BY b.PERMANENT_ID ORDER BY ...)] on
    rows already in the order of the window: the number of a row is
    one more than the count of the rows of its partition before it. *)
Fixpoint row_numbers (before rows : list joined_row) : list (joined_row * nat) :=
  match rows with
  | [] => []
  | r :: rest =>
      (r, S (length (filter (fun r' => b_PERMANENT_ID r'.2 = b_PERMANENT_ID r.2)
                            before)))
      :: row_numbers (r :: before) rest
  end.

(** The CTE [RankedBooks]. *)
Definition RankedBooks (w : warehouse) (user_id : option str) : list (joined_row * nat) :=
  row_numbers [] (merge_sort time_desc (user_sessions w user_id)).

(** [SELECT * FROM RankedBooks WHERE rn = 1 ORDER BY EVENT_TIME DESC
     LIMIT {LIMIT}] *)
Definition read_book_rows (w : warehouse) (user_id : option str) (LIMIT : nat)
    : list joined_row :=
  take LIMIT
    (merge_sort time_desc
       (filter (fun rn => rn.2 = 1%nat) (RankedBooks w user_id)).*1).

(** The dictionary built for a row. *)
Record read_book := {
  event_time : Z;
  title : option str;
  author : option str;
  isbn : option str;
  language_code : option str;
  genre : option str;
  publisher : option str;
  word_count : option Z;
  categories : pyval;
  book_id : option str
}.

Section ReadBooks.

(** [json.loads] of the standard library. *)
Variable json_loads : str -> outcome pyval.

(** [json.loads(row[9])]: the argument must be a [str]. *)
Definition loads_categories (x : option str) : outcome pyval :=
  match x with
  | Some text => json_loads text
  | None => Raise TypeError
  end.

(** The loop [for row in rows: ... books.append(book)]. *)
Fixpoint books_of_rows (rows : list joined_row) : outcome (list read_book) :=
  match rows with
  | [] => Return []
  | row :: rest =>
      match loads_categories (b_DEFAULT_CATEGORIES row.2) with
      | Return cats =>
          match books_of_rows rest with
          | Return books =>
              Return ({| event_time := s_EVENT_TIME row.1;
                         title := b_TITLE row.2;
                         author := b_AUTHOR row.2;
                         isbn := b_ISBN row.2;
                         language_code := b_LANGUAGE_CODE row.2;
                         genre := b_GENRE row.2;
                         publisher := b_PUBLISHER row.2;
                         word_count := b_WORD_COUNT row.2;
                         categories := cats;
                         book_id := b_PERMANENT_ID row.2 |} :: books)
          | Raise e => Raise e
          | Hang => Hang
          end
      | Raise e => Raise e
      | Hang => Hang
      end
  end.

Definition get_user_read_books (w : warehouse) (user_id : option str) (LIMIT : nat)
    : outcome (list read_book) :=
  books_of_rows (read_book_rows w user_id LIMIT).

End ReadBooks.

(** ** The production catalog *)

(** [FROM REGULAR_BOOK RB
     INNER JOIN PUBLISHED_BOOK PB ON PB.PUBLISHED_BOOK_ID = RB.ID
     INNER JOIN PUBLISHED_BOOK_ENVIRONMENTS PBE ON PBE.PUBLISHED_BOOK_ID = PB.ID
     INNER JOIN ENVIRONMENT E ON E.ID = PBE.ENVIRONMENTS_ID
       AND E.NAME = 'production'] *)
Definition production_books (w : warehouse) : list regular_book :=
  rb ← REGULAR_BOOK w;
  pb ← PUBLISHED_BOOK w;
  if sql_eq (pb_PUBLISHED_BOOK_ID pb) (rb_ID rb) then
    pbe ← PUBLISHED_BOOK_ENVIRONMENTS w;
    if sql_eq (pbe_PUBLISHED_BOOK_ID pbe) (pb_ID pb) then
      e ← ENVIRONMENT w;
      if sql_eq (e_ID e) (pbe_ENVIRONMENTS_ID pbe)
         && sql_eq (e_NAME e) (Some (lit "production"))
      then [rb] else []
    else []
  else [].

(** ** [get_book_info] *)

(** The rows of the query: [(PERMANENT_ID, DESCRIPTION,
    EXTENDED_BOOK_INFO)], DISTINCT.  The condition on the name of the
    environment stands in the ON clause of the last join. *)
Definition book_info_rows (w : warehouse) (book_id : option str)
    : list (option str * option str * option str) :=
  remove_dups
    (rb ← REGULAR_BOOK w;
     pb ← PUBLISHED_BOOK w;
     if sql_eq (pb_PUBLISHED_BOOK_ID pb) (rb_ID rb) then
       pbe ← PUBLISHED_BOOK_ENVIRONMENTS w;
       if sql_eq (pbe_PUBLISHED_BOOK_ID pbe) (pb_ID pb) then
         e ← ENVIRONMENT w;
         if sql_eq (e_ID e) (pbe_ENVIRONMENTS_ID pbe) then
           bei ← BOOK_EXTENDED_INFO w;
           if sql_eq (bei_BOOK_ID bei) (rb_ID rb)
              && sql_eq (e_NAME e) (Some (lit "production"))
              && sql_eq (rb_PERMANENT_ID rb) (Some (py_str book_id))
           then [(rb_PERMANENT_ID rb, rb_DESCRIPTION rb, bei_EXTENDED_BOOK_INFO bei)]
           else []
         else []
       else []
     else []).

(** [if len(rows) == 0: return ""] and [return rows[0][1]]: a [str], or
    [None] for a NULL description. *)
Definition get_book_info (w : warehouse) (book_id : option str) : option str :=
  match book_info_rows w book_id with
  | [] => Some []
  | row :: _ => row.1.2
  end.

(** The catalog entries [get_book_info] can see for [book_id]: the
    production books that have extended information. *)
Definition catalog_entry (w : warehouse) (book_id : option str) (rb : regular_book) : Prop :=
  rb ∈ production_books w
  /\ rb_PERMANENT_ID rb = Some (py_str book_id)
  /\ exists bei, bei ∈ BOOK_EXTENDED_INFO w /\ sql_eq (bei_BOOK_ID bei) (rb_ID rb) = true.

(** ** A small warehouse to run the queries on *)

Definition sample_book_row (permanent_id title : string) : books_list_row :=
  {| b_TITLE := Some (lit title); b_AUTHOR := None; b_ISBN := None;
     b_LANGUAGE_CODE := Some (lit "en"); b_GENRE := None; b_PUBLISHER := None;
     b_WORD_COUNT := Some 120%Z; b_DEFAULT_CATEGORIES := Some (lit "[]");
     b_PERMANENT_ID := Some (lit permanent_id) |}.

Definition sample_session (user book : string) (time : Z) : reading_session :=
  {| s_USER_ID := Some (lit user); s_EVENT_TIME := time;
     s_BOOK_PERMANENT_ID := Some (lit book) |}.

(** Times are seconds; the query is made at day 20. *)
Definition sample_warehouse : warehouse :=
  {| STUDENTS_READING_SESSIONS :=
       [ sample_session "u1" "b1" (19 * 86400);
         sample_session "u1" "b2" (18 * 86400);
         sample_session "u2" "b1" (17 * 86400);
         sample_session "u1" "b1" (16 * 86400);
         sample_session "u1" "b3" (2 * 86400);
         sample_session "u1" "b2" (19 * 86400 + 60) ];
     BOOKS_LIST := [ sample_book_row "b1" "Space"; sample_book_row "b2" "Seas";
                     sample_book_row "b3" "Sand" ];
     REGULAR_BOOK :=
       [ {| rb_ID := Some 1%Z; rb_PERMANENT_ID := Some (lit "b1");
            rb_TITLE := Some (lit "Space");
            rb_DESCRIPTION := Some (lit "About the planets.") |};
         {| rb_ID := Some 2%Z; rb_PERMANENT_ID := Some (lit "b2");
            rb_TITLE := Some (lit "Seas"); rb_DESCRIPTION := None |};
         {| rb_ID := Some 3%Z; rb_PERMANENT_ID := Some (lit "b3");
            rb_TITLE := Some (lit "Sand");
            rb_DESCRIPTION := Some (lit "A draft.") |} ];
     PUBLISHED_BOOK :=
       [ {| pb_ID := Some 10%Z; pb_PUBLISHED_BOOK_ID := Some 1%Z |};
         {| pb_ID := Some 20%Z; pb_PUBLISHED_BOOK_ID := Some 2%Z |};
         {| pb_ID := Some 30%Z; pb_PUBLISHED_BOOK_ID := Some 3%Z |} ];
     PUBLISHED_BOOK_ENVIRONMENTS :=
       [ {| pbe_PUBLISHED_BOOK_ID := Some 10%Z; pbe_ENVIRONMENTS_ID := Some 7%Z |};
         {| pbe_PUBLISHED_BOOK_ID := Some 20%Z; pbe_ENVIRONMENTS_ID := Some 7%Z |};
         {| pbe_PUBLISHED_BOOK_ID := Some 30%Z; pbe_ENVIRONMENTS_ID := Some 8%Z |} ];
     ENVIRONMENT :=
       [ {| e_ID := Some 7%Z; e_NAME := Some (lit "production") |};
         {| e_ID := Some 8%Z; e_NAME := Some (lit "staging") |} ];
     BOOK_EXTENDED_INFO :=
       [ {| bei_BOOK_ID := Some 1%Z; bei_EXTENDED_BOOK_INFO := Some (lit "{}") |};
         {| bei_BOOK_ID := Some 2%Z; bei_EXTENDED_BOOK_INFO := None |};
         {| bei_BOOK_ID := Some 3%Z; bei_EXTENDED_BOOK_INFO := None |} ];
     CURRENT_TIMESTAMP := (20 * 86400)%Z |}.

(** A warehouse queried at day 20 whose only sessions, five of one
    user, are dated day 21. *)
Definition postdated_warehouse : warehouse :=
  {| STUDENTS_READING_SESSIONS := replicate 5 (sample_session "u3" "b1" (21 * 86400));
     BOOKS_LIST := [ sample_book_row "b1" "Space" ];
     REGULAR_BOOK := []; PUBLISHED_BOOK := []; PUBLISHED_BOOK_ENVIRONMENTS := [];
     ENVIRONMENT := []; BOOK_EXTENDED_INFO := [];
     CURRENT_TIMESTAMP := (20 * 86400)%Z |}.

(** A [json_loads] that knows the text "[]". *)
Definition loads_empty_list (text : str) : outcome pyval :=
  if decide (text = lit "[]") then Return (PList []) else Raise ValueError.

End DataSource.

(** * libs/data_source.py: the connection *)
Module Connection.
Import Py.

(** A connection object of the warehouse client. *)
Definition handle := nat.

(** The calls to the client, each with what it answers. *)
Inductive event :=
| Connect (answer : outcome handle)
| Close (h : handle) (answer : outcome unit).

(** The module-level [conn]. *)
Definition state := option handle.

(** [def get_db_connection(): global conn; if conn is None: conn =
    snowflake.connector.connect(...); return conn], where the client
    answers [connect]: the value of [conn] afterwards, the calls made
    and the outcome. *)
Definition get_db_connection (connect : outcome handle) (conn : state)
    : state * M event handle :=
  match conn with
  | None =>
      match connect with
      | Return h => (Some h, ([Connect connect], Return h))
      | _ => (None, ([Connect connect], connect))
      end
  | Some h => (conn, ([], Return h))
  end.

(** [def close_db_connection(): global conn; if conn is not None:
    conn.close(); conn = None; return], where the client answers
    [close]. *)
Definition close_db_connection (close : outcome unit) (conn : state)
    : state * M event unit :=
  match conn with
  | Some h =>
      match close with
      | Return _ => (None, ([Close h close], Return tt))
      | _ => (conn, ([Close h close], close))
      end
  | None => (None, ([], Return tt))
  end.

(** A use of the module: a call of one of the two functions, with what
    the client would answer to it. *)
Inductive op :=
| GetConnection (connect : outcome handle)
| CloseConnection (close : outcome unit).

(** A sequence of uses, from the value [conn] of the global: its value
    afterwards and the calls made to the client. *)
Fixpoint uses (ops : list op) (conn : state) : state * list event :=
  match ops with
  | [] => (conn, [])
  | GetConnection connect :: rest =>
      let r := get_db_connection connect conn in
      let r' := uses rest r.1 in
      (r'.1, r.2.1 ++ r'.2)
  | CloseConnection close :: rest =>
      let r := close_db_connection close conn in
      let r' := uses rest r.1 in
      (r'.1, r.2.1 ++ r'.2)
  end.

(** The connection the client holds open after the calls [calls], when
    it held [held] before: the last one made and not closed since
    (a [close] that raises closes nothing). *)
Fixpoint held_after (calls : list event) (held : option handle) : option handle :=
  match calls with
  | [] => held
  | Connect (Return h) :: rest => held_after rest (Some h)
  | Close _ (Return _) :: rest => held_after rest None
  | _ :: rest => held_after rest held
  end.

(** No connection is made while one is held. *)
Fixpoint no_second_connection (calls : list event) (held : option handle) : Prop :=
  match calls with
  | [] => True
  | Connect answer :: rest =>
      held = None
      /\ no_second_connection rest (match answer with Return h => Some h | _ => None end)
  | Close h answer :: rest =>
      held = Some h
      /\ no_second_connection rest (match answer with Return _ => None | _ => held end)
  end.

End Connection.

(** * The [json] module, as far as the catalog file needs it *)
Module Json.
Import Py.

(** ** [json.dumps] with [ensure_ascii] *)

(** A digit of ['{0:04x}']. *)
Definition hex_digit (d : N) : char :=
  if d <? 10 then 0x30 + d else 0x61 + (d - 10).

Definition hex4 (n : N) : str :=
  [ hex_digit (n / 4096 mod 16); hex_digit (n / 256 mod 16);
    hex_digit (n / 16 mod 16); hex_digit (n mod 16) ].

(** [\uXXXX] *)
Definition u_escape (n : N) : str := 0x5c :: 0x75 :: hex4 n.

(** What [py_encode_basestring_ascii] puts for one code point. *)
Definition escape_char (c : char) : str :=
  if c =? 0x22 then [0x5c; 0x22]
  else if c =? 0x5c then [0x5c; 0x5c]
  else if c =? 0x0a then [0x5c; 0x6e]
  else if c =? 0x0d then [0x5c; 0x72]
  else if c =? 0x09 then [0x5c; 0x74]
  else if c =? 0x08 then [0x5c; 0x62]
  else if c =? 0x0c then [0x5c; 0x66]
  else if (0x20 <=? c) && (c <=? 0x7e) then [c]
  else if c <? 0x10000 then u_escape c
  else
    let n := c - 0x10000 in
    u_escape (N.lor 0xd800 (N.land (N.shiftr n 10) 0x3ff))
    ++ u_escape (N.lor 0xdc00 (N.land n 0x3ff)).

Definition escape (s : str) : str := flat_map escape_char s.

Definition dumps_str (s : str) : str := 0x22 :: escape s ++ [0x22].

(** A value of a row: [None] or a [str]. *)
Definition dumps_value (v : option str) : str :=
  match v with
  | None => lit "null"
  | Some s => dumps_str s
  end.

Definition dumps_member (kv : str * option str) : str :=
  dumps_str kv.1 ++ lit ": " ++ dumps_value kv.2.

Fixpoint dumps_members (fields : list (str * option str)) : str :=
  match fields with
  | [] => []
  | [kv] => dumps_member kv
  | kv :: rest => dumps_member kv ++ lit ", " ++ dumps_members rest
  end.

(** [json.dumps(d)] for a [dict] with [str] keys, in the order of
    insertion, and values that are [None] or [str]. *)
Definition dumps (fields : list (str * option str)) : str :=
  lit "{" ++ dumps_members fields ++ lit "}".

(** ** [json.loads] on an object with string and null values *)

Definition hex_value (c : char) : option N :=
  if (0x30 <=? c) && (c <=? 0x39) then Some (c - 0x30)
  else if (0x61 <=? c) && (c <=? 0x66) then Some (c - 0x61 + 10)
  else if (0x41 <=? c) && (c <=? 0x46) then Some (c - 0x41 + 10)
  else None.

Definition hex4_value (a b c d : char) : option N :=
  match hex_value a, hex_value b, hex_value c, hex_value d with
  | Some x3, Some x2, Some x1, Some x0 => Some (x3 * 4096 + x2 * 256 + x1 * 16 + x0)
  | _, _, _, _ => None
  end.

Definition is_high_surrogate (n : N) : bool := (0xd800 <=? n) && (n <=? 0xdbff).
Definition is_low_surrogate (n : N) : bool := (0xdc00 <=? n) && (n <=? 0xdfff).

Definition join_surrogates (hi lo : N) : N :=
  0x10000 + N.lor (N.shiftl (hi - 0xd800) 10) (lo - 0xdc00).

(** The character of a simple escape. *)
Definition simple_escape (e : char) : option char :=
  if e =? 0x22 then Some 0x22
  else if e =? 0x5c then Some 0x5c
  else if e =? 0x2f then Some 0x2f
  else if e =? 0x62 then Some 0x08
  else if e =? 0x66 then Some 0x0c
  else if e =? 0x6e then Some 0x0a
  else if e =? 0x72 then Some 0x0d
  else if e =? 0x74 then Some 0x09
  else None.

Definition prepend (c : char) (r : option (str * str)) : option (str * str) :=
  match r with
  | Some (s, rest) => Some (c :: s, rest)
  | None => None
  end.

(** The scanner of a string, from after its opening quote (strict: no
    control character): the string and the text after its closing
    quote.  A high surrogate escape followed by a low one makes one
    code point. *)
Fixpoint scan_string (s : str) : option (str * str) :=
  match s with
  | [] => None
  | c :: t =>
      if c =? 0x22 then Some ([], t)
      else if c =? 0x5c then
        match t with
        | [] => None
        | e :: t1 =>
            if e =? 0x75 then
              match t1 with
              | a :: b :: c' :: d :: t2 =>
                  match hex4_value a b c' d with
                  | None => None
                  | Some n =>
                      match t2 with
                      | x1 :: x2 :: a2 :: b2 :: c2 :: d2 :: t3 =>
                          if is_high_surrogate n && (x1 =? 0x5c) && (x2 =? 0x75) then
                            match hex4_value a2 b2 c2 d2 with
                            | None => None
                            | Some n2 =>
                                if is_low_surrogate n2
                                then prepend (join_surrogates n n2) (scan_string t3)
                                else prepend n (scan_string t2)
                            end
                          else prepend n (scan_string t2)
                      | _ => prepend n (scan_string t2)
                      end
                  end
              | _ => None
              end
            else
              match simple_escape e with
              | Some ch => prepend ch (scan_string t1)
              | None => None
              end
        end
      else if c <? 0x20 then None
      else prepend c (scan_string t)
  end.

Definition json_ws (c : char) : bool :=
  (c =? 0x20) || (c =? 0x09) || (c =? 0x0a) || (c =? 0x0d).

Fixpoint skip_ws (s : str) : str :=
  match s with
  | c :: t => if json_ws c then skip_ws t else s
  | [] => []
  end.

Definition expect (c : char) (s : str) : option str :=
  match s with
  | x :: t => if x =? c then Some t else None
  | [] => None
  end.

Fixpoint starts_with (p s : str) : option str :=
  match p with
  | [] => Some s
  | c :: p' =>
      match s with
      | x :: t => if x =? c then starts_with p' t else None
      | [] => None
      end
  end.

(** A value: a string or [null] (anything else is outside the
    fragment and is refused). *)
Definition parse_value (s : str) : option (option str * str) :=
  match s with
  | c :: t =>
      if c =? 0x22 then
        match scan_string t with
        | Some (v, rest) => Some (Some v, rest)
        | None => None
        end
      else
        match starts_with (lit "null") s with
        | Some rest => Some (None, rest)
        | None => None
        end
  | [] => None
  end.

(** The members of an object, from the opening quote of a key up to and
    with the closing brace. *)
Fixpoint parse_members (fuel : nat) (s : str) : option (list (str * option str) * str) :=
  match fuel with
  | O => None
  | S fuel' =>
      match expect 0x22 s with
      | None => None
      | Some s1 =>
          match scan_string s1 with
          | None => None
          | Some (key, s2) =>
              match expect 0x3a (skip_ws s2) with
              | None => None
              | Some s3 =>
                  match parse_value (skip_ws s3) with
                  | None => None
                  | Some (v, s4) =>
                      match skip_ws s4 with
                      | c :: s5 =>
                          if c =? 0x7d then Some ([(key, v)], s5)
                          else if c =? 0x2c then
                            match parse_members fuel' (skip_ws s5) with
                            | Some (rest, s6) => Some ((key, v) :: rest, s6)
                            | None => None
                            end
                          else None
                      | [] => None
                      end
                  end
              end
          end
      end
  end.

(** [json.loads(text, object_pairs_hook=list)] on such an object:
    [None] stands for a text that is refused. *)
Definition loads_pairs (text : str) : option (list (str * option str)) :=
  match expect 0x7b (skip_ws text) with
  | None => None
  | Some s1 =>
      match skip_ws s1 with
      | c :: s2 =>
          if c =? 0x7d then
            match skip_ws s2 with [] => Some [] | _ => None end
          else
            match parse_members (length text) (c :: s2) with
            | Some (fields, rest) =>
                match skip_ws rest with [] => Some fields | _ => None end
            | None => None
            end
      | [] => None
      end
  end.

(** A code point that text can hold: below 0x110000 and no surrogate. *)
Definition scalar (c : char) : Prop :=
  c < 0xd800 \/ (0xe000 <= c /\ c < 0x110000).

(** A code point of a Python [str]; a surrogate is one. *)
Definition code_point (c : char) : Prop := c < 0x110000.

(** The lines of a text: the pieces that end in a line feed, and what
    follows the last line feed when it is not empty. *)
Fixpoint lines_from (current : str) (s : str) : list str :=
  match s with
  | [] => match current with [] => [] | _ => [current] end
  | c :: t =>
      if c =? 0x0a then current :: lines_from [] t
      else lines_from (current ++ [c]) t
  end.

Definition lines (s : str) : list str := lines_from [] s.

End Json.

(** * libs/data_source.py: the export of the catalog *)
Module Catalog.
Import Py DataSource Json.

(** A row of the query: [(PERMANENT_ID, TITLE, DESCRIPTION)]. *)
Definition catalog_row : Type := option str * option str * option str.

(** [SELECT distinct PERMANENT_ID, TITLE, DESCRIPTION, FROM ...]: the
    select list ends with a comma, which Snowflake's dialect allows; the
    three columns are those of REGULAR_BOOK, read as text or NULL. *)
Definition catalog_rows (w : warehouse) : list catalog_row :=
  remove_dups
    ((fun rb => (rb_PERMANENT_ID rb, rb_TITLE rb, rb_DESCRIPTION rb))
       <$> production_books w).

(** [json_data = {"book_id": row[0], "book_title": row[1],
                  "book_Description": row[2]}] *)
Definition json_data (row : catalog_row) : list (str * option str) :=
  [ (lit "book_id", row.1.1);
    (lit "book_title", row.1.2);
    (lit "book_Description", row.2) ].

(** The same dictionary for a book of the catalog. *)
Definition book_fields (rb : regular_book) : list (str * option str) :=
  [ (lit "book_id", rb_PERMANENT_ID rb);
    (lit "book_title", rb_TITLE rb);
    (lit "book_Description", rb_DESCRIPTION rb) ].

(** [for row in rows: library_data += json.dumps(json_data) + "\n"] *)
Fixpoint library_data (rows : list catalog_row) : str :=
  match rows with
  | [] => []
  | row :: rest => dumps (json_data row) ++ [0x0a] ++ library_data rest
  end.

(** The text [fetch_all_production_books] writes to the temporary file
    whose path it returns. *)
Definition fetch_all_production_books (w : warehouse) : str :=
  library_data (catalog_rows w).

Definition well_formed_cell (x : option str) : Prop :=
  match x with
  | Some s => Forall scalar s
  | None => True
  end.

Definition well_formed_row (row : catalog_row) : Prop :=
  well_formed_cell row.1.1 /\ well_formed_cell row.1.2 /\ well_formed_cell row.2.

(** A value of a row whose text, if any, is a Python [str], and a row
    of such values. *)
Definition python_cell (x : option str) : Prop :=
  match x with
  | Some s => Forall code_point s
  | None => True
  end.

Definition python_row (row : catalog_row) : Prop :=
  python_cell row.1.1 /\ python_cell row.1.2 /\ python_cell row.2.

(** A line that is a JSON object with the keys [keys], in this order. *)
Definition object_with_keys (keys : list str) (line : str) : Prop :=
  exists fields, loads_pairs line = Some fields /\ fields.*1 = keys.

(** A row with a quote, a line feed, a letter beyond ASCII and one
    beyond the basic plane, and a NULL title. *)
Definition tricky_row : catalog_row :=
  (Some (lit "b-1"), None,
   Some (lit "say " ++ [0x22] ++ lit "hi" ++ [0x22; 0x0a; 0xe9; 0x1f600])).

End Catalog.

(** * run_task.py: the job *)
Module RunTask.
Import Py.

(** ** [int(s)] on a [str], base 10, as CPython 3.11 reads it *)

(** The text is first brought to ASCII: a space becomes " ", a decimal
    digit its ASCII digit, any other code point from 127 on "?". *)
Definition to_ascii (c : char) : char :=
  if c <? 127 then c
  else if isspace c then 0x20
  else match decimal_value c with
       | Some d => 0x30 + d
       | None => 0x3f
       end.

Definition ascii_space (c : char) : bool :=
  (c =? 0x20) || ((0x09 <=? c) && (c <=? 0x0d)).

Definition ascii_digit (c : char) : bool := (0x30 <=? c) && (c <=? 0x39).

Fixpoint skip_spaces (s : str) : str :=
  match s with
  | c :: t => if ascii_space c then skip_spaces t else s
  | [] => []
  end.

(** The digits, with single underscores between them: the value, the
    number of digits and the text left; [None] for two underscores in a
    row or one at the end. *)
Fixpoint scan_digits (s : str) (after_underscore : bool) (acc : Z) (digits : nat)
    : option (Z * nat * str) :=
  match s with
  | c :: t =>
      if ascii_digit c then
        scan_digits t false (10 * acc + Z.of_N (c - 0x30))%Z (S digits)
      else if c =? 0x5f then
        if after_underscore then None else scan_digits t true acc digits
      else if after_underscore then None else Some (acc, digits, s)
  | [] => if after_underscore then None else Some (acc, digits, [])
  end.

(** [sys.int_info.default_max_str_digits] *)
Definition max_str_digits : nat := 4300.

Definition py_int (s : str) : outcome Z :=
  let text := skip_spaces (to_ascii <$> s) in
  let signed :=
    match text with
    | c :: t => if c =? 0x2b then (1%Z, t)
                else if c =? 0x2d then ((-1)%Z, t)
                else (1%Z, text)
    | [] => (1%Z, [])
    end in
  match signed.2 with
  | c :: _ =>
      if c =? 0x5f then Raise ValueError
      else
        match scan_digits signed.2 false 0 0 with
        | Some (v, digits, rest) =>
            if decide (digits = 0%nat) then Raise ValueError
            else if decide (max_str_digits < digits)%nat then Raise ValueError
            else match skip_spaces rest with
                 | [] => Return (signed.1 * v)%Z
                 | _ => Raise ValueError
                 end
        | None => Raise ValueError
        end
  | [] => Raise ValueError
  end.

(** ** The functions the job calls *)

Definition id := str.

(** What each function of [libs] answers.  The three [format_...] are
    [str.format] on constants of libs/prompt_templates.py. *)
Record callees := {
  fetch_all_production_books : outcome str;
  ensure_assistant : str -> outcome id;
  unlink : str -> outcome unit;
  get_active_users : Z -> Z -> outcome (list (option str));
  get_user_read_books : option str -> outcome (list DataSource.read_book);
  get_book_info : option str -> outcome (option str);
  analyze_user_interest : id -> str -> outcome pyval;
  search_books_by_interest : id -> str -> outcome pyval;
  delete_assistant : id -> outcome unit;
  format_reading_history_record : Z -> option str -> option str -> outcome str;
  format_debug_output : option str -> pyval -> outcome str
}.

Inductive call :=
| FetchAllProductionBooks
| EnsureAssistant (library_data_file : str)
| Unlink (library_data_file : str)
| GetActiveUsers (days min_activity_count : Z)
| GetUserReadBooks (user_id : option str)
| GetBookInfo (book_id : option str)
| AnalyzeUserInterest (assistant_id : id) (history : str)
| SearchBooksByInterest (assistant_id : id) (history : str)
| DeleteAssistant (assistant_id : id).

Inductive line :=
| LineLibraryFile (path : str)
| LineProcessing (number_of_users : Z)
| LineUserBooks (user_id : option str) (n : nat)
| LineDebug (text : str)
| LineMayLike
| LineRecommendation (book_id book_title reason : pyval)
| LineCleaningUp.

Inductive event :=
| Call (c : call)
| Print (l : line).

Definition request {A} (c : call) (answer : outcome A) : M event A :=
  emit (Call c);; lift answer.

Definition print (l : line) : M event unit := emit (Print l).

Section Job.
Variable env : callees.

(** [if len(sys.argv) > 1: number_of_users = int(sys.argv[1])
     else: number_of_users = 1] *)
Definition number_of_users_of (argv : list str) : outcome Z :=
  match argv with
  | _ :: arg :: _ => py_int arg
  | _ => Return 1%Z
  end.

(** [for book in books: ... prompt_reading_history += ...] *)
Fixpoint reading_history (books : list DataSource.read_book)
    (prompt_reading_history : str) : M event str :=
  match books with
  | [] => mret prompt_reading_history
  | book :: rest =>
      book_desc ← request (GetBookInfo (DataSource.book_id book))
                          (get_book_info env (DataSource.book_id book));
      record ← lift (format_reading_history_record env
                       (DataSource.event_time book) (DataSource.title book) book_desc);
      reading_history rest (prompt_reading_history ++ record)
  end.

(** [for book in recommendations: print(f"... {book['book_id']} ...
     {book['book_title']} ... {book['reason']}")] *)
Definition print_recommendation (book : pyval) : M event unit :=
  book_id ← lift (py_getitem book (lit "book_id"));
  book_title ← lift (py_getitem book (lit "book_title"));
  reason ← lift (py_getitem book (lit "reason"));
  print (LineRecommendation book_id book_title reason).

(** The body of [for user_id in users], up to the test of
    [number_of_users]. *)
Definition process_user (assistant_id : id) (user_id : option str) : M event unit :=
  books ← request (GetUserReadBooks user_id) (get_user_read_books env user_id);
  print (LineUserBooks user_id (length books));;
  prompt_reading_history ← reading_history books [];
  book_creation_instruction ←
    request (AnalyzeUserInterest assistant_id prompt_reading_history)
            (analyze_user_interest env assistant_id prompt_reading_history);
  debug ← lift (format_debug_output env user_id book_creation_instruction);
  print (LineDebug debug);;
  recommendations ←
    request (SearchBooksByInterest assistant_id prompt_reading_history)
            (search_books_by_interest env assistant_id prompt_reading_history);
  print LineMayLike;;
  books ← lift (py_iter recommendations);
  for_each books print_recommendation.

(** [for user_id in users: ...; if number_of_users == 1: break;
     number_of_users -= 1] *)
Fixpoint users_loop (assistant_id : id) (users : list (option str))
    (number_of_users : Z) : M event unit :=
  match users with
  | [] => mret tt
  | user_id :: rest =>
      process_user assistant_id user_id;;
      if decide (number_of_users = 1%Z) then mret tt
      else users_loop assistant_id rest (number_of_users - 1)%Z
  end.

(** The [try] block and the [finally] block. *)
Definition per_user_processing (assistant_id : id) (number_of_users : Z) : M event unit :=
  users ← request (GetActiveUsers 14 5) (get_active_users env 14 5);
  users_loop assistant_id users number_of_users.

Definition cleaning_up (assistant_id : id) : M event unit :=
  print LineCleaningUp;;
  request (DeleteAssistant assistant_id) (delete_assistant env assistant_id).

(** The module, run as a script with [sys.argv = argv]. *)
Definition run_task (argv : list str) : M event unit :=
  library_data_file ← request FetchAllProductionBooks (fetch_all_production_books env);
  print (LineLibraryFile library_data_file);;
  assistant_id ← request (EnsureAssistant library_data_file)
                         (ensure_assistant env library_data_file);
  request (Unlink library_data_file) (unlink env library_data_file);;
  number_of_users ← lift (number_of_users_of argv);
  print (LineProcessing number_of_users);;
  try_finally (per_user_processing assistant_id number_of_users)
              (cleaning_up assistant_id).

End Job.

(** ** What the claims about the job speak of *)

(** The number of times the teardown is invoked. *)
Definition is_teardown (ev : event) : bool :=
  match ev with Call (DeleteAssistant _) => true | _ => false end.

Definition teardowns (l : list event) : nat :=
  length (filter (fun ev => is_teardown ev = true) l).

(** The number of users processed: a user is processed from the moment
    its books are asked for. *)
Definition is_user_start (ev : event) : bool :=
  match ev with Call (GetUserReadBooks _) => true | _ => false end.

Definition users_processed (l : list event) : nat :=
  length (filter (fun ev => is_user_start ev = true) l).

(** An assistant was provisioned. *)
Definition provisioned (env : callees) (l : list event) : Prop :=
  exists f a, Call (EnsureAssistant f) ∈ l /\ ensure_assistant env f = Return a.

(** Callees that all answer: [users] are the active users, each has
    read no book and gets no recommendation. *)
Definition quiet_callees (users : list (option str)) : callees :=
  {| fetch_all_production_books := Return (lit "/tmp/library.json");
     ensure_assistant := fun _ => Return (lit "asst_1");
     unlink := fun _ => Return tt;
     get_active_users := fun _ _ => Return users;
     get_user_read_books := fun _ => Return [];
     get_book_info := fun _ => Return (Some []);
     analyze_user_interest := fun _ _ => Return (PStr []);
     search_books_by_interest := fun _ _ => Return (PList []);
     delete_assistant := fun _ => Return tt;
     format_reading_history_record := fun _ _ _ => Return [];
     format_debug_output := fun _ _ => Return [] |}.

(** The warehouse refuses the catalog query. *)
Definition no_warehouse : callees :=
  {| fetch_all_production_books := Raise DatabaseError;
     ensure_assistant := fun _ => Return (lit "asst_1");
     unlink := fun _ => Return tt;
     get_active_users := fun _ _ => Return [];
     get_user_read_books := fun _ => Return [];
     get_book_info := fun _ => Return (Some []);
     analyze_user_interest := fun _ _ => Return (PStr []);
     search_books_by_interest := fun _ _ => Return (PList []);
     delete_assistant := fun _ => Return tt;
     format_reading_history_record := fun _ _ _ => Return [];
     format_debug_output := fun _ _ => Return [] |}.

(** The analysis of the second user raises. *)
Definition failing_analysis (users : list (option str)) : callees :=
  {| fetch_all_production_books := Return (lit "/tmp/library.json");
     ensure_assistant := fun _ => Return (lit "asst_1");
     unlink := fun _ => Return tt;
     get_active_users := fun _ _ => Return users;
     get_user_read_books := fun _ => Return [];
     get_book_info := fun _ => Return (Some []);
     analyze_user_interest := fun _ _ => Raise ServiceError;
     search_books_by_interest := fun _ _ => Return (PList []);
     delete_assistant := fun _ => Return tt;
     format_reading_history_record := fun _ _ _ => Return [];
     format_debug_output := fun _ _ => Return [] |}.

Definition three_users : list (option str) :=
  [Some (lit "u1"); Some (lit "u2"); Some (lit "u3")].

(** A book of a reading history whose title is its identifier, and
    callees that answer the identifier for the description of a book
    and the title followed by ";" for its record. *)
Definition sample_read_book (id : string) : DataSource.read_book :=
  {| DataSource.event_time := 0; DataSource.title := Some (lit id);
     DataSource.author := None; DataSource.isbn := None;
     DataSource.language_code := None; DataSource.genre := None;
     DataSource.publisher := None; DataSource.word_count := None;
     DataSource.categories := PList []; DataSource.book_id := Some (lit id) |}.

Definition echo_callees : callees :=
  {| fetch_all_production_books := Return (lit "/tmp/library.json");
     ensure_assistant := fun _ => Return (lit "asst_1");
     unlink := fun _ => Return tt;
     get_active_users := fun _ _ => Return [];
     get_user_read_books := fun _ => Return [];
     get_book_info := fun book_id => Return book_id;
     analyze_user_interest := fun _ _ => Return (PStr []);
     search_books_by_interest := fun _ _ => Return (PList []);
     delete_assistant := fun _ => Return tt;
     format_reading_history_record := fun _ title _ => Return (default [] title ++ lit ";");
     format_debug_output := fun _ _ => Return [] |}.

End RunTask.

(* ===================================================================== *)
(** * Properties *)
(* ===================================================================== *)

(** ** Facts about the prelude *)
Module PyFacts.
Import Py.

Lemma elem_of_concat {A} (x : A) (ls : list (list A)) :
  x ∈ concat ls <-> exists l, x ∈ l /\ l ∈ ls.
Proof.
  induction ls as [|l ls IH]; simpl.
  - split; [by intros ?%elem_of_nil|by intros (l & _ & ?%elem_of_nil)].
  - rewrite elem_of_app, IH. split.
    + intros [H|(l' & H1 & H2)]; [exists l; split; [done|left]|].
      exists l'. split; [done|by right].
    + intros (l' & H1 & [->|H2]%elem_of_cons); [by left|right; by exists l'].
Qed.

(** *** Dictionaries *)

Lemma dict_lookup_store_eq (k : str) (v : pyval) (d : list (str * pyval)) :
  dict_lookup k (dict_store k v d) = Some v.
Proof.
  induction d as [|[k' v'] d IH]; simpl.
  - by rewrite decide_True.
  - destruct (decide (k' = k)) as [->|Hne]; simpl.
    + by rewrite decide_True.
    + by rewrite decide_False.
Qed.

Lemma dict_lookup_store_ne (k k0 : str) (v : pyval) (d : list (str * pyval)) :
  k0 <> k -> dict_lookup k0 (dict_store k v d) = dict_lookup k0 d.
Proof.
  intros Hne. induction d as [|[k' v'] d IH]; simpl.
  - by rewrite decide_False.
  - destruct (decide (k' = k)) as [->|Hk]; simpl.
    + by rewrite !decide_False.
    + destruct (decide (k' = k0)); [done|exact IH].
Qed.

(** Assigning to a key the dictionary has keeps the keys as they are. *)
Lemma dict_store_keys (k : str) (v v0 : pyval) (d : list (str * pyval)) :
  dict_lookup k d = Some v0 -> (dict_store k v d).*1 = d.*1.
Proof.
  induction d as [|[k' v'] d IH]; simpl; [done|].
  destruct (decide (k' = k)) as [->|Hk]; simpl; [done|].
  intros H. f_equal. by apply IH.
Qed.

(** *** The monad of events *)
Section Monad.
Context {E : Type}.

Lemma bind_unfold {A B} (m : M E A) (f : A -> M E B) :
  m ≫= f = match m.2 with
           | Return a => (m.1 ++ (f a).1, (f a).2)
           | Raise e => (m.1, Raise e)
           | Hang => (m.1, Hang)
           end.
Proof. reflexivity. Qed.

Lemma bind_Return {A B} (m : M E A) (f : A -> M E B) (a : A) :
  m.2 = Return a -> m ≫= f = (m.1 ++ (f a).1, (f a).2).
Proof. rewrite bind_unfold. by intros ->. Qed.

Lemma bind_Raise {A B} (m : M E A) (f : A -> M E B) (e : exn) :
  m.2 = Raise e -> m ≫= f = (m.1, Raise e).
Proof. rewrite bind_unfold. by intros ->. Qed.

Lemma bind_Hang {A B} (m : M E A) (f : A -> M E B) :
  m.2 = Hang -> m ≫= f = (m.1, Hang).
Proof. rewrite bind_unfold. by intros ->. Qed.

Lemma bind_assoc {A B C} (m : M E A) (f : A -> M E B) (g : B -> M E C) :
  (m ≫= f) ≫= g = m ≫= (fun x => f x ≫= g).
Proof.
  rewrite !bind_unfold. destruct m as [l [a|e|]]; simpl; try done.
  rewrite bind_unfold. destruct (f a) as [l' [b|e|]]; simpl; try done.
  by rewrite app_assoc.
Qed.

Lemma ret_bind {A B} (a : A) (f : A -> M E B) : mret a ≫= f = f a.
Proof. rewrite bind_unfold. simpl. by destruct (f a). Qed.

Lemma emit_bind {B} (ev : E) (f : unit -> M E B) :
  emit ev ≫= f = (ev :: (f tt).1, (f tt).2).
Proof. reflexivity. Qed.

Lemma lift_bind {A B} (o : outcome A) (f : A -> M E B) :
  lift o ≫= f = match o with
                | Return a => f a
                | Raise e => ([], Raise e)
                | Hang => ([], Hang)
                end.
Proof. destruct o; try done. apply (ret_bind a f). Qed.

Lemma try_except_Return {A} (m : M E A) (h : exn -> M E A) (a : A) :
  m.2 = Return a -> try_except m h = m.
Proof. unfold try_except. by intros ->. Qed.

Lemma try_except_caught {A} (m : M E A) (h : exn -> M E A) (e : exn) :
  m.2 = Raise e -> is_Exception e = true ->
  try_except m h = (m.1 ++ (h e).1, (h e).2).
Proof. unfold try_except. by intros -> ->. Qed.

Lemma try_except_passed {A} (m : M E A) (h : exn -> M E A) (e : exn) :
  m.2 = Raise e -> is_Exception e = false -> try_except m h = m.
Proof. unfold try_except. by intros -> ->. Qed.

Lemma try_except_Hang {A} (m : M E A) (h : exn -> M E A) :
  m.2 = Hang -> try_except m h = m.
Proof. unfold try_except. by intros ->. Qed.

Lemma try_finally_events {A} (m : M E A) (fin : M E unit) :
  m.2 <> Hang -> (try_finally m fin).1 = m.1 ++ fin.1.
Proof.
  unfold try_finally. destruct m as [l [a|e|]]; simpl; [| |done]; intros _.
  - rewrite !bind_unfold. simpl. destruct fin as [l' [[]|e|]]; simpl;
      by rewrite ?app_nil_r.
  - rewrite !bind_unfold. simpl. destruct fin as [l' [[]|e'|]]; simpl;
      by rewrite ?app_nil_r.
Qed.

Lemma try_finally_Hang {A} (m : M E A) (fin : M E unit) :
  m.2 = Hang -> try_finally m fin = m.
Proof. unfold try_finally. by intros ->. Qed.

Lemma try_finally_outcome {A} (m : M E A) (fin : M E unit) :
  (try_finally m fin).2
  = match m.2 with
    | Hang => Hang
    | o => match fin.2 with
           | Return _ => o
           | Raise e' => Raise e'
           | Hang => Hang
           end
    end.
Proof.
  unfold try_finally. destruct m as [l [x|e|]]; simpl; [| |done].
  - rewrite !bind_unfold. simpl. by destruct fin as [l' [[]|e'|]].
  - rewrite !bind_unfold. simpl. by destruct fin as [l' [[]|e'|]].
Qed.

(** A property of all events passes through [≫=] and the loops. *)
Lemma Forall_bind {A B} (P : E -> Prop) (m : M E A) (f : A -> M E B) :
  Forall P m.1 -> (forall a, Forall P (f a).1) -> Forall P (m ≫= f).1.
Proof.
  intros Hm Hf. rewrite bind_unfold. destruct m as [l [a|e|]]; simpl in *; try done.
  apply Forall_app. split; [done|apply Hf].
Qed.

Lemma Forall_for_each {A} (P : E -> Prop) (l : list A) (body : A -> M E unit) :
  (forall x, Forall P (body x).1) -> Forall P (for_each l body).1.
Proof.
  intros Hb. induction l as [|x l IH]; simpl; [constructor|].
  apply Forall_bind; [apply Hb|done].
Qed.

Lemma for_each_cons {A} (x : A) (l : list A) (body : A -> M E unit) :
  for_each (x :: l) body = body x ≫= (fun _ => for_each l body).
Proof. reflexivity. Qed.

End Monad.

Lemma plus_digits_suffix (k : str -> option str) (s r : str) :
  (forall u v, k u = Some v -> exists m, u = m ++ v) ->
  plus_digits k s = Some r -> exists m, m <> [] /\ s = m ++ r.
Proof.
  intros Hk. induction s as [|x t IH]; simpl; [discriminate|].
  destruct (isdecimal x); [|discriminate].
  destruct (plus_digits k t) as [r'|] eqn:E.
  - intros [= <-]. destruct IH as (m & _ & ->); [reflexivity|].
    exists (x :: m). split; [discriminate|reflexivity].
  - intros Hkt. apply Hk in Hkt as [m ->].
    exists (x :: m). split; [discriminate|reflexivity].
Qed.

Lemma match_here_suffix (p : list item) (s r : str) :
  match_here p s = Some r -> exists m, s = m ++ r.
Proof.
  revert s r. induction p as [|[c|] p IH]; intros s r; simpl.
  - intros [= <-]. by exists [].
  - destruct s as [|x t]; [discriminate|].
    destruct (x =? c); [|discriminate].
    intros H. apply IH in H as [m ->]. by exists (x :: m).
  - intros H. apply plus_digits_suffix in H as (m & _ & ->); [by exists m|].
    intros u v. apply IH.
Qed.

(** A pattern that starts with a literal matches no empty text. *)
Lemma match_here_Lit_shorter (c : char) (p : list item) (s r : str) :
  match_here (Lit c :: p) s = Some r -> (length r < length s)%nat.
Proof.
  simpl. destruct s as [|x t]; [discriminate|].
  destruct (x =? c); [|discriminate].
  intros H. apply match_here_suffix in H as [m ->].
  simpl. rewrite length_app. lia.
Qed.

Lemma match_here_Lit_head (c : char) (p : list item) (s r : str) :
  match_here (Lit c :: p) s = Some r -> exists t, s = c :: t.
Proof.
  simpl. destruct s as [|x t]; [discriminate|].
  destruct (N.eqb_spec x c) as [->|]; [|discriminate]. by exists t.
Qed.

(** The scan, for a pattern [p] that matches no empty text. *)
Section Sub.
Variable p : list item.
Hypothesis consuming :
  forall s r, match_here p s = Some r -> (length r < length s)%nat.

Lemma sub_from_length (n : nat) (s : str) :
  (length (sub_from n p s) <= length s)%nat.
Proof.
  revert s. induction n as [|n IH]; intros s; simpl; [lia|].
  destruct s as [|c t]; [simpl; lia|].
  destruct (match_here p (c :: t)) as [r|] eqn:E.
  - apply consuming in E. specialize (IH r). lia.
  - specialize (IH t). simpl. lia.
Qed.

(** More fuel than the length of the text changes nothing. *)
Lemma sub_from_enough (n : nat) (s : str) :
  (length s <= n)%nat -> sub_from n p s = re_sub_empty p s.
Proof.
  unfold re_sub_empty.
  remember (length s) as k eqn:Hk. revert n s Hk.
  induction k as [k IH] using lt_wf_ind. intros n s -> Hn.
  destruct s as [|c t]; [by destruct n|].
  destruct n as [|n]; [simpl in Hn; lia|]. simpl in *.
  destruct (match_here p (c :: t)) as [r|] eqn:E.
  - pose proof (consuming _ _ E) as Hr. simpl in Hr.
    rewrite (IH (length r)) by lia.
    symmetry. apply (IH (length r)); lia.
  - f_equal. rewrite (IH (length t)) by lia. reflexivity.
Qed.

Lemma re_sub_empty_nil : re_sub_empty p [] = [].
Proof. reflexivity. Qed.

(** The two equations of the scan. *)
Lemma re_sub_empty_match (s r : str) :
  match_here p s = Some r -> re_sub_empty p s = re_sub_empty p r.
Proof.
  intros E. pose proof (consuming _ _ E) as Hr.
  destruct s as [|c t]; [simpl in Hr; lia|].
  unfold re_sub_empty at 1. simpl. rewrite E.
  apply sub_from_enough. simpl in Hr. lia.
Qed.

Lemma re_sub_empty_skip (c : char) (t : str) :
  match_here p (c :: t) = None -> re_sub_empty p (c :: t) = c :: re_sub_empty p t.
Proof.
  intros E. unfold re_sub_empty at 1. simpl. by rewrite E.
Qed.

Lemma re_sub_empty_length (s : str) :
  (length (re_sub_empty p s) <= length s)%nat.
Proof. apply sub_from_length. Qed.

(** With no match anywhere the text is returned as it is. *)
Lemma re_sub_empty_no_match (s : str) :
  re_search p s = false -> re_sub_empty p s = s.
Proof.
  induction s as [|c t IH]; [reflexivity|]. simpl.
  destruct (match_here p (c :: t)) eqn:E; [discriminate|].
  intros H. rewrite re_sub_empty_skip by exact E. by rewrite IH.
Qed.

(** With a match somewhere the result is strictly shorter. *)
Lemma re_sub_empty_some_match (s : str) :
  re_search p s = true -> (length (re_sub_empty p s) < length s)%nat.
Proof.
  induction s as [|c t IH]; [discriminate|]. simpl.
  destruct (match_here p (c :: t)) as [r|] eqn:E.
  - intros _. rewrite (re_sub_empty_match _ _ E).
    pose proof (consuming _ _ E) as Hr.
    pose proof (re_sub_empty_length r). simpl in Hr. lia.
  - intros H. rewrite re_sub_empty_skip by exact E. simpl.
    specialize (IH H). lia.
Qed.

End Sub.

(** A text without the first literal of the pattern has no match. *)
Lemma re_search_no_head (c0 : char) (p : list item) (s : str) :
  c0 ∉ s -> re_search (Lit c0 :: p) s = false.
Proof.
  induction s as [|c t IH]; [reflexivity|]. intros Hn.
  change (re_search (Lit c0 :: p) (c :: t)) with
    (match match_here (Lit c0 :: p) (c :: t) with
     | Some _ => true
     | None => re_search (Lit c0 :: p) t
     end).
  destruct (match_here (Lit c0 :: p) (c :: t)) as [r|] eqn:E.
  - apply match_here_Lit_head in E as [t' [= -> _]].
    exfalso. apply Hn. left.
  - apply IH. intros Hin. apply Hn. by right.
Qed.

(** *** [strip] *)

Definition no_leading_space (s : str) : Prop :=
  match s with [] => True | c :: _ => isspace c = false end.

Lemma lstrip_no_leading_space (s : str) : no_leading_space (lstrip s).
Proof.
  induction s as [|c t IH]; simpl; [exact I|].
  destruct (isspace c) eqn:E; [exact IH|exact E].
Qed.

Lemma lstrip_id (s : str) : no_leading_space s -> lstrip s = s.
Proof. destruct s as [|c t]; simpl; [done|]. by intros ->. Qed.

Lemma rstrip_no_leading_space (s : str) :
  no_leading_space s -> no_leading_space (rstrip s).
Proof.
  destruct s as [|c t]; simpl; [done|]. intros E.
  destruct (rstrip t); simpl; by rewrite ?E.
Qed.

Lemma rstrip_idemp (s : str) : rstrip (rstrip s) = rstrip s.
Proof.
  induction s as [|c t IH]; [reflexivity|]. simpl.
  destruct (rstrip t) as [|x r] eqn:E.
  - destruct (isspace c) eqn:Ec; simpl; by rewrite ?Ec.
  - change (rstrip (c :: x :: r)) with
      (match rstrip (x :: r) with [] => if isspace c then [] else [c] | r' => c :: r' end).
    by rewrite IH.
Qed.

Lemma strip_idemp (s : str) : strip (strip s) = strip s.
Proof.
  unfold strip.
  rewrite (lstrip_id (rstrip (lstrip s))).
  - apply rstrip_idemp.
  - apply rstrip_no_leading_space, lstrip_no_leading_space.
Qed.

Lemma lstrip_length (s : str) : (length (lstrip s) <= length s)%nat.
Proof.
  induction s as [|c t IH]; simpl; [lia|].
  destruct (isspace c); simpl; lia.
Qed.

Lemma rstrip_length (s : str) : (length (rstrip s) <= length s)%nat.
Proof.
  induction s as [|c t IH]; simpl; [lia|].
  destruct (rstrip t); [destruct (isspace c)|]; simpl in *; lia.
Qed.

Lemma strip_length (s : str) : (length (strip s) <= length s)%nat.
Proof.
  unfold strip. pose proof (rstrip_length (lstrip s)).
  pose proof (lstrip_length s). lia.
Qed.

Lemma elem_of_lstrip (c : char) (s : str) : c ∈ lstrip s -> c ∈ s.
Proof.
  induction s as [|x t IH]; simpl; [done|].
  destruct (isspace x); [|done]. intros H. right. by apply IH.
Qed.

Lemma elem_of_rstrip (c : char) (s : str) : c ∈ rstrip s -> c ∈ s.
Proof.
  induction s as [|x t IH]; simpl; [done|].
  destruct (rstrip t) as [|y r].
  - destruct (isspace x); [by intros ?%elem_of_nil|].
    intros ->%list_elem_of_singleton. left.
  - intros [->|H]%elem_of_cons; [left|right; by apply IH].
Qed.

Lemma elem_of_strip (c : char) (s : str) : c ∈ strip s -> c ∈ s.
Proof. intros H. by apply elem_of_lstrip, elem_of_rstrip. Qed.

(** [strip] and the scan only delete. *)
Lemma sublist_lstrip (s : str) : sublist (lstrip s) s.
Proof.
  induction s as [|c t IH]; simpl; [constructor|].
  destruct (isspace c); [by apply sublist_cons|done].
Qed.

Lemma sublist_rstrip (s : str) : sublist (rstrip s) s.
Proof.
  induction s as [|c t IH]; simpl; [constructor|].
  destruct (rstrip t) as [|x r].
  - destruct (isspace c); [apply sublist_nil_l|].
    apply sublist_skip, sublist_nil_l.
  - by apply sublist_skip.
Qed.

Lemma sublist_strip (s : str) : sublist (strip s) s.
Proof.
  unfold strip. etrans; [apply sublist_rstrip|apply sublist_lstrip].
Qed.

Lemma sublist_sub_from (p : list item) (n : nat) (s : str) :
  sublist (sub_from n p s) s.
Proof.
  revert s. induction n as [|n IH]; intros s; simpl; [apply sublist_nil_l|].
  destruct s as [|c t]; [constructor|].
  destruct (match_here p (c :: t)) as [r|] eqn:E.
  - apply match_here_suffix in E as [m ->].
    etrans; [apply IH|]. apply sublist_inserts_l. done.
  - apply sublist_skip, IH.
Qed.

Lemma rstrip_last (s : str) (c : char) :
  last (rstrip s) = Some c -> isspace c = false.
Proof.
  induction s as [|x t IH]; simpl; [done|].
  destruct (rstrip t) as [|y r] eqn:E.
  - destruct (isspace x) eqn:Ex; simpl; [done|]. by intros [= <-].
  - rewrite last_cons. destruct (last (y :: r)) as [z|] eqn:El.
    + intros [= <-]. by apply IH.
    + by apply last_None in El.
Qed.

Lemma strip_head (s : str) (c : char) :
  head (strip s) = Some c -> isspace c = false.
Proof.
  intros H. unfold strip in H.
  pose proof (rstrip_no_leading_space _ (lstrip_no_leading_space s)) as Hn.
  destruct (rstrip (lstrip s)) as [|x r]; [done|]. simpl in *. congruence.
Qed.

End PyFacts.

(** ** [clean_text] *)
Module CleanTextSpec.
Import Py PyFacts CleanText.

Example clean_text_great_book :
  clean_text great_book = lit "Great book  for kids".
Proof. vm_compute. reflexivity. Qed.

(** Deleting the inner citation of [nested] joins what is left into a
    citation, which a second pass deletes. *)
Example clean_text_nested :
  clean_text nested
  = [LENTICULAR_L] ++ lit "1:4" ++ [DAGGER] ++ lit "source" ++ [LENTICULAR_R]
  /\ clean_text (clean_text nested) = [].
Proof. vm_compute. split; reflexivity. Qed.

Lemma citation_consuming (s r : str) :
  match_here citation s = Some r -> (length r < length s)%nat.
Proof. apply match_here_Lit_shorter. Qed.

Lemma citation_no_head (s : str) :
  LENTICULAR_L ∉ s -> re_search citation s = false.
Proof. apply re_search_no_head. Qed.

Lemma citation_head (s r : str) :
  match_here citation s = Some r -> exists t, s = LENTICULAR_L :: t.
Proof. apply match_here_Lit_head. Qed.

Local Opaque citation.

Lemma well_cited_suffix (m r : str) :
  well_cited (m ++ r) = true -> well_cited r = true.
Proof.
  induction m as [|c m IH]; [done|]. simpl.
  intros [_ H]%andb_prop. by apply IH.
Qed.

(** On a well-cited text the scan leaves no 【 behind. *)
Lemma well_cited_sub (s : str) :
  well_cited s = true -> LENTICULAR_L ∉ re_sub_empty citation s.
Proof.
  remember (length s) as k eqn:Hk. revert s Hk.
  induction k as [k IH] using lt_wf_ind. intros s -> Hw.
  destruct s as [|c t]; [by intros ?%elem_of_nil|].
  destruct (match_here citation (c :: t)) as [r|] eqn:E.
  - rewrite (re_sub_empty_match _ citation_consuming _ _ E).
    pose proof (citation_consuming _ _ E) as Hr.
    destruct (match_here_suffix _ _ _ E) as [m Hm].
    apply (IH (length r)); [lia|reflexivity|].
    rewrite Hm in Hw. by apply well_cited_suffix in Hw.
  - rewrite (re_sub_empty_skip _ _ _ E).
    simpl in Hw. rewrite E in Hw. apply andb_prop in Hw as [Hc Ht].
    intros [Heq|Hin]%elem_of_cons.
    + subst c. by rewrite N.eqb_refl in Hc.
    + revert Hin. apply (IH (length t)); [simpl; lia|reflexivity|exact Ht].
Qed.

(** A cleaned text is a fixed point of [clean_text] exactly when no
    citation is left in it. *)
Lemma clean_text_fixed_iff (t : str) :
  strip t = t ->
  clean_text t = t <-> re_search citation t = false.
Proof.
  intros Ht. unfold clean_text. split.
  - intros Heq. destruct (re_search citation t) eqn:E; [|reflexivity].
    apply (re_sub_empty_some_match _ citation_consuming) in E.
    pose proof (strip_length (re_sub_empty citation t)) as Hl.
    rewrite Heq in Hl. lia.
  - intros E. by rewrite (re_sub_empty_no_match _ _ E).
Qed.

(** C2 (as amended): [clean_text (clean_text s) = clean_text s] holds
    exactly when no citation is left in [clean_text s], which is the
    case whenever every 【 of [s] starts a citation; and
    "Great book 【3:1†source】 for kids" becomes "Great book  for kids". *)
Theorem clean_text_idempotent_iff :
  (forall s : str,
      clean_text (clean_text s) = clean_text s
      <-> re_search citation (clean_text s) = false)
  /\ (forall s : str,
      well_cited s = true -> clean_text (clean_text s) = clean_text s)
  /\ clean_text great_book = lit "Great book  for kids".
Proof.
  assert (Hiff : forall s : str,
             clean_text (clean_text s) = clean_text s
             <-> re_search citation (clean_text s) = false).
  { intros s. apply clean_text_fixed_iff. unfold clean_text. apply strip_idemp. }
  split; [exact Hiff|]. split; [|exact clean_text_great_book].
  intros s Hw. apply Hiff, citation_no_head.
  intros Hin. apply elem_of_strip in Hin. by apply well_cited_sub in Hin.
Qed.

Lemma clean_text_idempotent_iff_witness :
  well_cited great_book = true
  /\ clean_text (clean_text great_book) = clean_text great_book.
Proof.
  assert (H : well_cited great_book = true) by (vm_compute; reflexivity).
  split; [exact H|].
  exact (proj1 (proj2 clean_text_idempotent_iff) great_book H).
Defined.

(** C2 (as stated) fails: on "【1【2:3†source】:4†source】" a second
    application still changes the text. *)
Lemma clean_text_not_idempotent :
  clean_text (clean_text nested) <> clean_text nested.
Proof. vm_compute. discriminate. Qed.

(** [clean_text] only deletes: what it returns is the text with some of
    its code points left out, in the order they had; and the text it
    returns neither starts nor ends with white space. *)
Theorem clean_text_only_deletes (text : str) :
  sublist (clean_text text) text
  /\ (forall c, head (clean_text text) = Some c -> isspace c = false)
  /\ (forall c, last (clean_text text) = Some c -> isspace c = false).
Proof.
  unfold clean_text. split; [|split].
  - etrans; [apply sublist_strip|apply sublist_sub_from].
  - intros c. apply strip_head.
  - intros c. apply rstrip_last.
Qed.

(** A text without 【 holds no citation: [clean_text] strips it and
    changes nothing else. *)
Theorem clean_text_without_citation (text : str) :
  LENTICULAR_L ∉ text -> clean_text text = strip text.
Proof.
  intros H. unfold clean_text.
  by rewrite (re_sub_empty_no_match _ _ (citation_no_head _ H)).
Qed.

Lemma clean_text_without_citation_witness :
  clean_text (lit "  The Science of Space  ") = lit "The Science of Space".
Proof.
  rewrite (clean_text_without_citation (lit "  The Science of Space  ")).
  - vm_compute. reflexivity.
  - intros Hin. apply list_elem_of_In in Hin. vm_compute in Hin.
    repeat (destruct Hin as [Hin|Hin]; [discriminate Hin|]). exact Hin.
Defined.

End CleanTextSpec.

(** ** The assistant service *)
Module AssistantSpec.
Import Py PyFacts CleanText Assistant.

Lemma calls_of_app (l1 l2 : list event) :
  calls_of (l1 ++ l2) = calls_of l1 ++ calls_of l2.
Proof. apply omap_app. Qed.

Lemma printed_app (l1 l2 : list event) :
  printed (l1 ++ l2) = printed l1 ++ printed l2.
Proof. apply omap_app. Qed.

(** *** [delete_assistant] *)
Section Teardown.
Variable svc : service.
Hypothesis list_ordinary : forall vs, ordinary (vector_store_files_list svc vs).
Hypothesis file_ordinary : forall vs f, ordinary (vector_store_files_delete svc vs f).
Hypothesis store_ordinary : forall vs, ordinary (vector_stores_delete svc vs).

Lemma request_bind {A B} (c : call) (answer : outcome A) (f : A -> M event B) :
  request c answer ≫= f
  = match answer with
    | Return a => (Call c :: (f a).1, (f a).2)
    | Raise e => ([Call c], Raise e)
    | Hang => ([Call c], Hang)
    end.
Proof. unfold request. rewrite bind_assoc, emit_bind, lift_bind. by destruct answer. Qed.

Lemma request_eq {A} (c : call) (answer : outcome A) :
  request c answer = ([Call c], answer).
Proof. unfold request. rewrite emit_bind. by destruct answer. Qed.

Lemma print_bind {B} (m : message) (f : unit -> M event B) :
  print m ≫= f = (Print m :: (f tt).1, (f tt).2).
Proof. reflexivity. Qed.

(** The deletions of the [try] block of one store make the expected
    calls, print the expected lines and end by the first failure, which
    is an [Exception]. *)
Lemma delete_store_files_spec (vs : id) (files : list id) :
  calls_of (delete_store_files svc vs files).1 = file_calls svc vs files
  /\ printed (delete_store_files svc vs files).1 = file_lines svc vs files
  /\ (delete_store_files svc vs files).2
     = match files_failure svc vs files with
       | Some e => Raise e
       | None => Return tt
       end
  /\ (forall e, files_failure svc vs files = Some e -> is_Exception e = true).
Proof.
  unfold delete_store_files.
  induction files as [|f files IH].
  - simpl for_each. rewrite ret_bind, request_bind. simpl.
    specialize (store_ordinary vs).
    destruct (vector_stores_delete svc vs) as [[]|e|]; simpl in *; [done| |done].
    repeat split. by intros e' [= <-].
  - rewrite for_each_cons, !bind_assoc, request_bind.
    simpl file_calls. simpl file_lines. simpl files_failure.
    specialize (file_ordinary vs f).
    destruct (vector_store_files_delete svc vs f) as [[]|e|]; [| |done].
    + rewrite print_bind. simpl. destruct IH as (IH1 & IH2 & IH3 & IH4).
      split; [by rewrite <- IH1|]. split; [by rewrite <- IH2|].
      split; [by rewrite <- IH3|exact IH4].
    + simpl. repeat split. by intros e' [= <-].
Qed.

(** The clean-up of one store returns, whatever fails in it, and the
    failure is printed. *)
Lemma delete_vector_store_spec (vs : id) :
  (delete_vector_store svc vs).2 = Return tt
  /\ calls_of (delete_vector_store svc vs).1 = store_calls svc vs
  /\ printed (delete_vector_store svc vs).1 = store_lines svc vs.
Proof.
  unfold delete_vector_store, store_calls, store_lines, store_failure.
  rewrite request_bind.
  specialize (list_ordinary vs).
  destruct (vector_store_files_list svc vs) as [files|e|]; simpl in list_ordinary.
  - destruct (delete_store_files_spec vs files) as (H1 & H2 & H3 & H4).
    destruct (files_failure svc vs files) as [e|] eqn:Ef.
    + rewrite (try_except_caught _ _ e) by (simpl; auto). simpl.
      by rewrite calls_of_app, printed_app, H1, H2, app_nil_r.
    + rewrite (try_except_Return _ _ tt) by done. simpl.
      by rewrite H1, H2, app_nil_r.
  - by rewrite (try_except_caught _ _ e).
  - done.
Qed.

(** The loop over the stores cleans each of them, in order. *)
Lemma delete_vector_stores_spec (ids : list id) :
  (for_each ids (delete_vector_store svc)).2 = Return tt
  /\ calls_of (for_each ids (delete_vector_store svc)).1
     = concat (map (store_calls svc) ids)
  /\ printed (for_each ids (delete_vector_store svc)).1
     = concat (map (store_lines svc) ids).
Proof.
  induction ids as [|vs ids (IH1 & IH2 & IH3)]; [done|].
  rewrite for_each_cons.
  destruct (delete_vector_store_spec vs) as (H1 & H2 & H3).
  rewrite (bind_Return _ _ tt) by exact H1. simpl.
  by rewrite calls_of_app, printed_app, H2, H3, IH2, IH3.
Qed.

(** The teardown of an assistant bound to the stores [ids], by what the
    deletion of the assistant answers. *)
Lemma delete_assistant_bound (a : id) (asst : assistant) (ids : list id) :
  assistants_retrieve svc a = Return asst ->
  linked_vector_stores asst = Return (Some ids) ->
  ordinary (assistants_delete svc a) ->
  delete_assistant svc a
  = match assistants_delete svc a with
    | Return _ =>
        (Call (AssistantsRetrieve a) :: Print (MsgFoundStores (length ids) a ids)
         :: Call (AssistantsDelete a) :: Print (MsgAssistantDeleted a)
         :: (for_each ids (delete_vector_store svc)).1, Return tt)
    | Raise e =>
        ([Call (AssistantsRetrieve a); Print (MsgFoundStores (length ids) a ids);
          Call (AssistantsDelete a); Print (MsgDeleteError a e)], Return tt)
    | Hang => ([], Hang)
    end.
Proof.
  intros Ha Hids Hd. unfold delete_assistant.
  rewrite request_bind, Ha, lift_bind, Hids. simpl py_len.
  rewrite lift_bind, print_bind, request_bind.
  destruct (assistants_delete svc a) as [[]|e|]; simpl in Hd;
    [|by rewrite (try_except_caught _ _ e)|done].
  rewrite print_bind.
  destruct (delete_vector_stores_spec ids) as (H1 & _).
  rewrite (try_except_Return _ _ tt) by exact H1. simpl. by rewrite H1.
Qed.

Lemma elem_of_file_calls (vs : id) (files : list id) :
  (forall f, f ∈ files -> vector_store_files_delete svc vs f = Return tt) ->
  (forall f, f ∈ files -> VectorStoreFilesDelete vs f ∈ file_calls svc vs files)
  /\ VectorStoresDelete vs ∈ file_calls svc vs files.
Proof.
  induction files as [|f files IH]; intros Hok; simpl.
  - split; [by intros f ?%elem_of_nil|left].
  - rewrite (Hok f) by left.
    destruct IH as [IH1 IH2]; [intros g Hg; apply Hok; by right|].
    split; [|by right].
    intros g [->|Hg]%elem_of_cons; [left|right; by apply IH1].
Qed.

Lemma store_deleted_files_deleted (vs vs' : id) (files : list id) :
  VectorStoresDelete vs' ∈ file_calls svc vs files ->
  vs' = vs /\ forall f, f ∈ files -> vector_store_files_delete svc vs f = Return tt.
Proof.
  induction files as [|f files IH]; simpl.
  - intros [= ->]%list_elem_of_singleton. split; [done|by intros f ?%elem_of_nil].
  - intros [?|Hin]%elem_of_cons; [done|].
    destruct (vector_store_files_delete svc vs f) as [[]|e|] eqn:E;
      [|by apply elem_of_nil in Hin..].
    destruct (IH Hin) as [-> Hall]. split; [done|].
    intros g [->|Hg]%elem_of_cons; [done|by apply Hall].
Qed.

(** The line of a store that is deleted is printed only when nothing
    failed in its clean-up. *)
Lemma store_deleted_line (vs vs' : id) (files : list id) :
  MsgStoreDeleted vs' ∈ file_lines svc vs files ->
  vs' = vs /\ files_failure svc vs files = None.
Proof.
  induction files as [|f files IH]; simpl.
  - specialize (store_ordinary vs).
    destruct (vector_stores_delete svc vs) as [[]|e|];
      [|by intros ?%elem_of_nil..].
    by intros [= ->]%list_elem_of_singleton.
  - destruct (vector_store_files_delete svc vs f) as [[]|e|];
      [|by intros ?%elem_of_nil..].
    intros [?|Hin]%elem_of_cons; [done|]. by apply IH.
Qed.

End Teardown.

(** What [delete_assistant] lets out is no [Exception]. *)
Lemma delete_assistant_raises_no_Exception (svc : service) (a : id) (e : exn) :
  (delete_assistant svc a).2 = Raise e -> is_Exception e = false.
Proof.
  unfold delete_assistant.
  match goal with |- (try_except ?m ?h).2 = _ -> _ => generalize m end.
  intros [l [x|e0|]]; unfold try_except; simpl; [done| |done].
  destruct (is_Exception e0) eqn:He0; simpl; [done|]. by intros [= <-].
Qed.

(** A look-up that raises ends the teardown. *)
Lemma delete_assistant_lookup_raises (svc : service) (a : id) (e : exn) :
  assistants_retrieve svc a = Raise e -> is_Exception e = true ->
  delete_assistant svc a
  = ([Call (AssistantsRetrieve a); Print (MsgDeleteError a e)], Return tt).
Proof.
  intros Ha He. unfold delete_assistant. rewrite request_bind, Ha.
  by rewrite (try_except_caught _ _ e).
Qed.

(** So does an assistant whose stores cannot be looked up. *)
Lemma delete_assistant_unbound (svc : service) (a : id) (asst : assistant) :
  assistants_retrieve svc a = Return asst -> unbound asst ->
  exists e,
    delete_assistant svc a
    = ([Call (AssistantsRetrieve a); Print (MsgDeleteError a e)], Return tt).
Proof.
  intros Ha Hu. unfold delete_assistant. rewrite request_bind, Ha, lift_bind.
  destruct Hu as [Hn|(tr & fs & Htr & Hfs & Hids)]; unfold linked_vector_stores.
  - rewrite Hn. rewrite (try_except_caught _ _ AttributeError) by done.
    by exists AttributeError.
  - rewrite Htr, Hfs, Hids. cbn [py_len]. rewrite lift_bind.
    rewrite (try_except_caught _ _ TypeError) by done.
    by exists TypeError.
Qed.

(** C5 (as amended).  The teardown lets no [Exception] out, whatever
    the service answers.  When the service answers every call with a
    value or an [Exception], the teardown returns, and:
    - a look-up that fails (the retrieval raises, or the assistant has
      no vector stores to look up) is logged and is the only call;
    - for an assistant bound to the vector stores [ids], the stores are
      looked up, then the assistant is deleted; when that deletion
      fails, the failure is logged and no store is touched;
    - otherwise the stores are cleaned one after the other, each by
      listing its files, deleting each, then deleting the store; the
      first failure inside the clean-up of a store is logged and ends
      that clean-up alone: every store is still attempted, and a store
      whose listing and file deletions succeed is deleted after its
      files. *)
Theorem delete_assistant_teardown (svc : service) (a : id) :
  let run := delete_assistant svc a in
  let calls := calls_of run.1 in
  let lines := printed run.1 in
  (forall e, run.2 = Raise e -> is_Exception e = false)
  /\ ((forall vs, ordinary (vector_store_files_list svc vs)) ->
      (forall vs f, ordinary (vector_store_files_delete svc vs f)) ->
      (forall vs, ordinary (vector_stores_delete svc vs)) ->
      ordinary (assistants_retrieve svc a) ->
      ordinary (assistants_delete svc a) ->
      run.2 = Return tt
      /\ (forall e, assistants_retrieve svc a = Raise e ->
            calls = [AssistantsRetrieve a] /\ lines = [MsgDeleteError a e])
      /\ (forall asst, assistants_retrieve svc a = Return asst -> unbound asst ->
            calls = [AssistantsRetrieve a] /\ exists e, lines = [MsgDeleteError a e])
      /\ (forall asst ids,
            assistants_retrieve svc a = Return asst ->
            linked_vector_stores asst = Return (Some ids) ->
            (forall e, assistants_delete svc a = Raise e ->
               calls = [AssistantsRetrieve a; AssistantsDelete a]
               /\ lines = [MsgFoundStores (length ids) a ids; MsgDeleteError a e])
            /\ (assistants_delete svc a = Return tt ->
                calls = AssistantsRetrieve a :: AssistantsDelete a
                        :: concat (map (store_calls svc) ids)
                /\ lines = MsgFoundStores (length ids) a ids :: MsgAssistantDeleted a
                           :: concat (map (store_lines svc) ids)
                /\ (forall vs, vs ∈ ids ->
                      VectorStoreFilesList vs ∈ calls
                      /\ (forall e, store_failure svc vs = Some e ->
                            MsgStoreFailed vs e ∈ lines)
                      /\ forall files,
                           vector_store_files_list svc vs = Return files ->
                           (forall f, f ∈ files ->
                              vector_store_files_delete svc vs f = Return tt) ->
                           (forall f, f ∈ files -> VectorStoreFilesDelete vs f ∈ calls)
                           /\ VectorStoresDelete vs ∈ calls)
                /\ (forall vs, VectorStoresDelete vs ∈ calls ->
                      exists files,
                        vector_store_files_list svc vs = Return files
                        /\ forall f, f ∈ files ->
                             vector_store_files_delete svc vs f = Return tt)
                /\ (forall vs, MsgStoreDeleted vs ∈ lines ->
                      store_failure svc vs = None)))).
Proof.
  intros run calls lines.
  split; [intros e; apply delete_assistant_raises_no_Exception|].
  intros Hl Hf Hs Hr Hd.
  assert (Hret : run.2 = Return tt).
  { unfold run. destruct (assistants_retrieve svc a) as [asst|e|] eqn:Ha;
      simpl in Hr; [| |done].
    - destruct (linked_vector_stores asst) as [[ids|]|e|] eqn:El.
      + rewrite (delete_assistant_bound svc Hl Hf Hs a asst ids Ha El Hd).
        by destruct (assistants_delete svc a) as [[]|e|].
      + assert (Hu : unbound asst).
        { right. unfold linked_vector_stores in El.
          destruct (tool_resources asst) as [tr|]; [|done].
          destruct (file_search tr) as [fs|] eqn:Efs; [|done].
          injection El as El. by exists tr, fs. }
        destruct (delete_assistant_unbound svc a asst Ha Hu) as [e ->]. done.
      + assert (Hu : unbound asst).
        { left. unfold linked_vector_stores in El.
          destruct (tool_resources asst) as [tr|]; [|done].
          by destruct (file_search tr). }
        destruct (delete_assistant_unbound svc a asst Ha Hu) as [e' ->]. done.
      + unfold linked_vector_stores in El.
        destruct (tool_resources asst) as [tr|]; [|done].
        by destruct (file_search tr).
    - by rewrite (delete_assistant_lookup_raises svc a e Ha Hr). }
  split; [exact Hret|]. split; [|split].
  - intros e Ha. unfold calls, lines, run.
    rewrite Ha in Hr. simpl in Hr.
    by rewrite (delete_assistant_lookup_raises svc a e Ha Hr).
  - intros asst Ha Hu. unfold calls, lines, run.
    destruct (delete_assistant_unbound svc a asst Ha Hu) as [e ->].
    split; [done|]. by exists e.
  - intros asst ids Ha Hids.
    pose proof (delete_assistant_bound svc Hl Hf Hs a asst ids Ha Hids Hd) as Hrun.
    fold run in Hrun. split.
    + intros e He. unfold calls, lines. by rewrite Hrun, He.
    + intros Hok. rewrite Hok in Hrun.
      destruct (delete_vector_stores_spec svc Hl Hf Hs ids) as (_ & Hc & Hp).
      assert (Hcalls : calls = AssistantsRetrieve a :: AssistantsDelete a
                               :: concat (map (store_calls svc) ids)).
      { unfold calls. rewrite Hrun. simpl. by rewrite Hc. }
      assert (Hlines : lines = MsgFoundStores (length ids) a ids :: MsgAssistantDeleted a
                               :: concat (map (store_lines svc) ids)).
      { unfold lines. rewrite Hrun. simpl. by rewrite Hp. }
      split; [exact Hcalls|]. split; [exact Hlines|].
      assert (Hin : forall vs c, vs ∈ ids -> c ∈ store_calls svc vs -> c ∈ calls).
      { intros vs c Hvs Hc'. rewrite Hcalls. do 2 right.
        apply elem_of_concat. exists (store_calls svc vs).
        split; [exact Hc'|]. apply list_elem_of_fmap. by exists vs. }
      split; [|split].
      * intros vs Hvs. split; [apply (Hin vs); [done|left]|]. split.
        -- intros e He. rewrite Hlines. do 2 right.
           apply elem_of_concat. exists (store_lines svc vs).
           split; [|apply list_elem_of_fmap; by exists vs].
           unfold store_lines. rewrite He. apply elem_of_app. right. left.
        -- intros files Hfiles Hdel.
           destruct (elem_of_file_calls svc vs files Hdel) as [H1 H2].
           split; [intros f Hfin|]; apply (Hin vs); try done;
             unfold store_calls; rewrite Hfiles; right; auto.
      * intros vs. rewrite Hcalls.
        intros [?|[?|Hc']%elem_of_cons]%elem_of_cons; [done..|].
        apply elem_of_concat in Hc' as (l & Hc' & Hl').
        apply list_elem_of_fmap in Hl' as (vs' & -> & _).
        unfold store_calls in Hc'. apply elem_of_cons in Hc' as [?|Hc']; [done|].
        destruct (vector_store_files_list svc vs') as [files|e|] eqn:E;
          [|by apply elem_of_nil in Hc'..].
        apply store_deleted_files_deleted in Hc' as [-> Hall].
        exists files. by rewrite E.
      * intros vs. rewrite Hlines.
        intros [?|[?|Hc']%elem_of_cons]%elem_of_cons; [done..|].
        apply elem_of_concat in Hc' as (l & Hc' & Hl').
        apply list_elem_of_fmap in Hl' as (vs' & -> & _).
        unfold store_lines, store_failure in Hc'. unfold store_failure.
        destruct (vector_store_files_list svc vs') as [files|e|] eqn:E.
        -- apply elem_of_app in Hc' as [Hc'|Hc'].
           ++ apply (store_deleted_line svc Hs) in Hc' as [-> Hnone].
              by rewrite E.
           ++ destruct (files_failure svc vs' files);
                [by apply list_elem_of_singleton in Hc'|by apply elem_of_nil in Hc'].
        -- simpl in Hc'. by apply list_elem_of_singleton in Hc'.
        -- by apply elem_of_nil in Hc'.
Qed.

(** A service with two stores, the first of which refuses to give up
    its file: the failure is logged and the second store is cleaned
    all the same. *)
Lemma delete_assistant_teardown_witness :
  let svc := sample_service [lit "vs_1"; lit "vs_2"] (lit "vs_1") (Return tt) in
  (delete_assistant svc (lit "asst_1")).2 = Return tt
  /\ calls_of (delete_assistant svc (lit "asst_1")).1
     = [ AssistantsRetrieve (lit "asst_1"); AssistantsDelete (lit "asst_1");
         VectorStoreFilesList (lit "vs_1");
         VectorStoreFilesDelete (lit "vs_1") (lit "file_of_vs_1");
         VectorStoreFilesList (lit "vs_2");
         VectorStoreFilesDelete (lit "vs_2") (lit "file_of_vs_2");
         VectorStoresDelete (lit "vs_2") ]
  /\ printed (delete_assistant svc (lit "asst_1")).1
     = [ MsgFoundStores 2 (lit "asst_1") [lit "vs_1"; lit "vs_2"];
         MsgAssistantDeleted (lit "asst_1");
         MsgStoreFailed (lit "vs_1") ServiceError;
         MsgFileDeleted (lit "file_of_vs_2") (lit "vs_2");
         MsgStoreDeleted (lit "vs_2") ].
Proof.
  intros svc.
  destruct (delete_assistant_teardown svc (lit "asst_1")) as [_ H].
  destruct H as (Hret & _ & _ & Hbound).
  - intros vs. exact I.
  - intros vs f. simpl. by destruct (decide (vs = lit "vs_1")).
  - intros vs. exact I.
  - exact I.
  - exact I.
  - split; [exact Hret|].
    destruct (Hbound
                {| tool_resources :=
                     Some {| file_search :=
                               Some {| vector_store_ids :=
                                         Some [lit "vs_1"; lit "vs_2"] |} |} |}
                [lit "vs_1"; lit "vs_2"] eq_refl eq_refl) as [_ Hok].
    destruct (Hok eq_refl) as (Hcalls & Hlines & _).
    split; [rewrite Hcalls|rewrite Hlines]; vm_compute; reflexivity.
Defined.

(** C5 (as stated) fails.  With one store and no failure the assistant
    is deleted before the store, not after it; and when the deletion of
    the assistant fails, nothing of the store is cleaned. *)
Lemma delete_assistant_not_last :
  ~ stores_before_assistant
      (calls_of (delete_assistant
                   (sample_service [lit "vs_1"] [] (Return tt)) (lit "asst_1")).1)
  /\ calls_of (delete_assistant
                 (sample_service [lit "vs_1"] [] (Raise ServiceError)) (lit "asst_1")).1
     = [AssistantsRetrieve (lit "asst_1"); AssistantsDelete (lit "asst_1")].
Proof.
  split; [|vm_compute; reflexivity].
  intros H. specialize (H 1%nat 4%nat (lit "asst_1") (lit "vs_1")).
  assert (4 < 1)%nat; [|lia].
  apply H; vm_compute; reflexivity.
Qed.

(** *** The polling loop *)
Section Poll.
Context {S : Type}.
Variables (thread run : id) (h : tool_call -> S -> M event S).

(** The handler of the tool calls prints no status line. *)
Hypothesis h_quiet : forall tc acc st, MsgStatus st ∉ printed (h tc acc).1.

Lemma for_fold_quiet (tcs : list tool_call) (acc : S) (st : str) :
  MsgStatus st ∉ printed (for_fold tcs h acc).1.
Proof.
  revert acc. induction tcs as [|tc tcs IH]; intros acc; simpl.
  - by intros ?%elem_of_nil.
  - rewrite bind_unfold. pose proof (h_quiet tc acc st) as Hq.
    destruct (h tc acc) as [l [acc'|e|]]; simpl in *; [|done..].
    rewrite printed_app, elem_of_app. intros [?|?]; [done|]. by eapply IH.
Qed.

(** What one iteration does before it sleeps. *)
Definition act (rs : run_status) (acc : S) : M event S :=
  if decide (status rs = lit "requires_action") then
    match required_action rs with
    | Some tool_calls => for_fold tool_calls h acc
    | None => mret acc
    end
  else mret acc.

Lemma act_quiet (rs : run_status) (acc : S) (st : str) :
  MsgStatus st ∉ printed (act rs acc).1.
Proof.
  unfold act. destruct (decide _); [|by intros ?%elem_of_nil].
  destruct (required_action rs); [apply for_fold_quiet|by intros ?%elem_of_nil].
Qed.

Lemma poll_cons (answer : outcome run_status) (script : list (outcome run_status))
    (acc : S) :
  poll thread run h (answer :: script) acc
  = match answer with
    | Return rs =>
        if terminal (status rs)
        then ([Call (RunsRetrieve thread run); Print (MsgStatus (status rs))],
              Return (rs, acc))
        else
          match (act rs acc).2 with
          | Return acc' =>
              (Call (RunsRetrieve thread run) :: Print (MsgStatus (status rs))
               :: (act rs acc).1 ++ Sleep 2 :: (poll thread run h script acc').1,
               (poll thread run h script acc').2)
          | Raise e =>
              (Call (RunsRetrieve thread run) :: Print (MsgStatus (status rs))
               :: (act rs acc).1, Raise e)
          | Hang =>
              (Call (RunsRetrieve thread run) :: Print (MsgStatus (status rs))
               :: (act rs acc).1, Hang)
          end
    | Raise e => ([Call (RunsRetrieve thread run)], Raise e)
    | Hang => ([Call (RunsRetrieve thread run)], Hang)
    end.
Proof.
  cbn [poll]. rewrite request_bind. destruct answer as [rs|e|]; [|done..].
  rewrite print_bind. destruct (terminal (status rs)); [done|].
  fold (act rs acc). rewrite bind_unfold.
  by destruct (act rs acc) as [l [acc'|e|]].
Qed.

(** Once a terminal status is printed, the loop has ended on it. *)
Lemma poll_terminal_seen (script : list (outcome run_status)) (acc : S) (st : str) :
  terminal st = true ->
  MsgStatus st ∈ printed (poll thread run h script acc).1 ->
  exists rs acc', (poll thread run h script acc).2 = Return (rs, acc')
                  /\ status rs = st.
Proof.
  intros Hst. revert acc.
  induction script as [|answer script IH]; intros acc.
  - by intros ?%elem_of_nil.
  - rewrite poll_cons. destruct answer as [rs|e|]; [|by intros ?%elem_of_nil..].
    destruct (terminal (status rs)) eqn:Ht.
    + simpl. intros [= ->]%list_elem_of_singleton. by exists rs, acc.
    + pose proof (act_quiet rs acc st) as Hq.
      assert (Hne : MsgStatus st <> MsgStatus (status rs)) by congruence.
      destruct (act rs acc) as [l [acc'|e|]]; simpl in *.
      * rewrite printed_app. simpl.
        intros [?|[?|Hin]%elem_of_app]%elem_of_cons; [done..|]. by apply IH.
      * by intros [?|?]%elem_of_cons.
      * by intros [?|?]%elem_of_cons.
Qed.

(** A run that waits and then shows a terminal status: the loop
    returns it with the accumulator untouched. *)
Lemma poll_waiting (pre post : list (outcome run_status)) (rs : run_status) (acc : S) :
  Forall waiting pre -> terminal (status rs) = true ->
  (poll thread run h (pre ++ Return rs :: post) acc).2 = Return (rs, acc)
  /\ MsgStatus (status rs)
     ∈ printed (poll thread run h (pre ++ Return rs :: post) acc).1.
Proof.
  intros Hpre Hrs. induction Hpre as [|answer pre (rs' & -> & Ht & Hna) _ IH].
  - simpl app. rewrite poll_cons, Hrs. split; [done|]. simpl. left.
  - change ((Return rs' :: pre) ++ Return rs :: post)
      with (Return rs' :: (pre ++ Return rs :: post)).
    rewrite poll_cons, Ht. unfold act. rewrite decide_False by exact Hna.
    simpl. destruct IH as [IH1 IH2]. split; [exact IH1|]. by right.
Qed.

(** An invariant of the accumulator that every tool call of the script
    preserves holds of what the loop returns. *)
Lemma poll_invariant (P : S -> Prop) (script : list (outcome run_status))
    (acc : S) (rs : run_status) (acc' : S) :
  (forall rs' tcs tc a a',
      Return rs' ∈ script -> required_action rs' = Some tcs -> tc ∈ tcs ->
      P a -> (h tc a).2 = Return a' -> P a') ->
  P acc ->
  (poll thread run h script acc).2 = Return (rs, acc') ->
  P acc'.
Proof.
  revert acc. induction script as [|answer script IH]; intros acc Hh Hacc; [done|].
  rewrite poll_cons. destruct answer as [rs'|e|]; [|done..].
  destruct (terminal (status rs')); [by intros [= _ <-]|].
  assert (Hact : forall a', (act rs' acc).2 = Return a' -> P a').
  { unfold act. destruct (decide _); [|by intros a' [= <-]].
    destruct (required_action rs') as [tcs|] eqn:Etcs; [|by intros a' [= <-]].
    assert (Htcs : forall tc, tc ∈ tcs ->
              forall a a', P a -> (h tc a).2 = Return a' -> P a').
    { intros tc Htc a a'. apply (Hh rs' tcs tc); [left|done..]. }
    clear Etcs. revert acc Hacc Htcs.
    induction tcs as [|tc tcs IHt]; intros acc Hacc Htcs a'; [by intros [= <-]|].
    simpl. rewrite bind_unfold.
    destruct (h tc acc) as [l [a1|e'|]] eqn:E; simpl; [|done..].
    apply IHt.
    - apply (Htcs tc ltac:(left) acc a1 Hacc). by rewrite E.
    - intros tc' Htc'. apply Htcs. by right. }
  destruct (act rs' acc) as [l [a1|e'|]]; simpl in *; [|done..].
  apply IH; [|by apply Hact].
  intros rs'' tcs tc a a' Hin. apply Hh. by right.
Qed.

End Poll.

(** *** The two runs *)
Section Runs.
Variable json_loads : str -> outcome pyval.
Variables format_analysis_prompt format_recommendation_prompt : str -> outcome str.
Variable svc : service.

Lemma analysis_tool_call_quiet (thread run : id) (tc : tool_call) (acc : pyval)
    (st : str) :
  MsgStatus st ∉ printed (analysis_tool_call json_loads svc thread run tc acc).1.
Proof.
  unfold analysis_tool_call.
  destruct (tc_function tc) as [f|]; [|by intros ?%elem_of_nil].
  rewrite lift_bind.
  destruct (function_args_of json_loads f) as [args|e|]; [|by intros ?%elem_of_nil..].
  destruct (decide _) as [Hname|Hname]; [|by intros ?%elem_of_nil].
  rewrite lift_bind.
  destruct (py_get args _ _) as [v|e|]; [|by intros ?%elem_of_nil..].
  rewrite request_bind.
  destruct (submit_tool_outputs svc _ _ _ _) as [[]|e|]; simpl;
    [by intros [?|?%elem_of_nil]%elem_of_cons|by intros ?%elem_of_nil..].
Qed.

Lemma search_tool_call_quiet (thread run : id) (tc : tool_call) (acc : pyval)
    (st : str) :
  MsgStatus st ∉ printed (search_tool_call json_loads svc thread run tc acc).1.
Proof.
  unfold search_tool_call.
  destruct (tc_function tc) as [f|]; [|by intros ?%elem_of_nil].
  rewrite lift_bind.
  destruct (function_args_of json_loads f) as [args|e|]; [|by intros ?%elem_of_nil..].
  destruct (decide _) as [Hname|Hname]; [|by intros ?%elem_of_nil].
  rewrite lift_bind.
  destruct (py_get args _ _) as [v|e|]; [|by intros ?%elem_of_nil..].
  rewrite lift_bind.
  destruct (clean_books v) as [v'|e|]; [|by intros ?%elem_of_nil..].
  rewrite request_bind.
  destruct (submit_tool_outputs svc _ _ _ _) as [[]|e|]; simpl;
    [by intros [?|?%elem_of_nil]%elem_of_cons|by intros ?%elem_of_nil..].
Qed.

(** The end of both functions: what is returned for the last status. *)
Lemma analyze_user_interest_seen (a : id) (user_data st : str) :
  terminal st = true -> st <> lit "completed" ->
  MsgStatus st
    ∈ printed (analyze_user_interest json_loads format_analysis_prompt svc a user_data).1 ->
  (analyze_user_interest json_loads format_analysis_prompt svc a user_data).2
  = Return (PStr []).
Proof.
  intros Hst Hne. unfold analyze_user_interest.
  rewrite request_bind.
  destruct (threads_create svc) as [thread|e|]; [|by intros ?%elem_of_nil..].
  rewrite print_bind, lift_bind.
  destruct (format_analysis_prompt user_data) as [prompt|e|];
    [|by intros [?|?%elem_of_nil]%elem_of_cons..].
  rewrite print_bind, request_bind.
  destruct (messages_create svc thread prompt) as [[]|e|];
    [|by intros [?|[?|?%elem_of_nil]%elem_of_cons]%elem_of_cons..].
  rewrite request_bind.
  destruct (runs_create svc thread a false) as [run|e|];
    [|by intros [?|[?|?%elem_of_nil]%elem_of_cons]%elem_of_cons..].
  rewrite print_bind, bind_unfold.
  pose proof (poll_terminal_seen thread run _
                (analysis_tool_call_quiet thread run)
                (runs_retrieve svc thread run) (PStr []) st Hst) as Hp.
  destruct (poll thread run _ _ _) as [l [[rs acc]|e|]]; simpl in *.
  - rewrite !printed_app.
    intros [?|[?|[?|[Hin|Hin]%elem_of_app]%elem_of_cons]%elem_of_cons]%elem_of_cons;
      try done.
    + destruct (Hp Hin) as (rs' & acc' & [= <- <-] & Hs).
      rewrite decide_False by congruence. done.
    + destruct (decide _) as [Hc|Hc]; simpl in Hin;
        [by apply elem_of_nil in Hin|].
      by apply list_elem_of_singleton in Hin.
  - intros [?|[?|[?|Hin]%elem_of_cons]%elem_of_cons]%elem_of_cons; try done.
    by destruct (Hp Hin) as (? & ? & ? & _).
  - intros [?|[?|[?|Hin]%elem_of_cons]%elem_of_cons]%elem_of_cons; try done.
    by destruct (Hp Hin) as (? & ? & ? & _).
Qed.

Lemma search_books_by_interest_seen (a : id) (user_data st : str) :
  terminal st = true -> st <> lit "completed" ->
  MsgStatus st
    ∈ printed (search_books_by_interest json_loads format_recommendation_prompt
                 svc a user_data).1 ->
  (search_books_by_interest json_loads format_recommendation_prompt svc a user_data).2
  = Return (PList []).
Proof.
  intros Hst Hne. unfold search_books_by_interest.
  rewrite request_bind.
  destruct (threads_create svc) as [thread|e|]; [|by intros ?%elem_of_nil..].
  rewrite !print_bind, lift_bind.
  destruct (format_recommendation_prompt user_data) as [prompt|e|];
    [|by intros [?|[?|?%elem_of_nil]%elem_of_cons]%elem_of_cons..].
  rewrite request_bind.
  destruct (messages_create svc thread prompt) as [[]|e|];
    [|by intros [?|[?|?%elem_of_nil]%elem_of_cons]%elem_of_cons..].
  rewrite request_bind.
  destruct (runs_create svc thread a true) as [run|e|];
    [|by intros [?|[?|?%elem_of_nil]%elem_of_cons]%elem_of_cons..].
  rewrite bind_unfold.
  pose proof (poll_terminal_seen thread run _
                (search_tool_call_quiet thread run)
                (runs_retrieve svc thread run) (PList []) st Hst) as Hp.
  destruct (poll thread run _ _ _) as [l [[rs acc]|e|]]; simpl in *.
  - rewrite !printed_app.
    intros [?|[?|[Hin|Hin]%elem_of_app]%elem_of_cons]%elem_of_cons; try done.
    + destruct (Hp Hin) as (rs' & acc' & [= <- <-] & Hs).
      rewrite decide_False by congruence. done.
    + destruct (decide _) as [Hc|Hc]; simpl in Hin;
        [by apply elem_of_nil in Hin|].
      by apply list_elem_of_singleton in Hin.
  - intros [?|[?|Hin]%elem_of_cons]%elem_of_cons; try done.
    by destruct (Hp Hin) as (? & ? & ? & _).
  - intros [?|[?|Hin]%elem_of_cons]%elem_of_cons; try done.
    by destruct (Hp Hin) as (? & ? & ? & _).
Qed.

(** A run that only waits before its terminal status is driven to it. *)
Lemma analyze_user_interest_waits (a : id) (user_data : str) (thread run : id)
    (prompt : str) (pre post : list (outcome run_status)) (rs : run_status) :
  threads_create svc = Return thread ->
  format_analysis_prompt user_data = Return prompt ->
  messages_create svc thread prompt = Return tt ->
  runs_create svc thread a false = Return run ->
  runs_retrieve svc thread run = pre ++ Return rs :: post ->
  Forall waiting pre -> terminal (status rs) = true ->
  MsgStatus (status rs)
    ∈ printed (analyze_user_interest json_loads format_analysis_prompt svc a user_data).1.
Proof.
  intros Ht Hf Hm Hr Hs Hpre Hrs. unfold analyze_user_interest.
  rewrite request_bind, Ht, print_bind, lift_bind, Hf, print_bind, request_bind, Hm.
  rewrite request_bind, Hr, print_bind, bind_unfold, Hs.
  destruct (poll_waiting thread run (analysis_tool_call json_loads svc thread run)
              pre post rs (PStr []) Hpre Hrs) as [H1 H2].
  rewrite H1. simpl. do 3 right. rewrite printed_app. apply elem_of_app. by left.
Qed.

Lemma search_books_by_interest_waits (a : id) (user_data : str) (thread run : id)
    (prompt : str) (pre post : list (outcome run_status)) (rs : run_status) :
  threads_create svc = Return thread ->
  format_recommendation_prompt user_data = Return prompt ->
  messages_create svc thread prompt = Return tt ->
  runs_create svc thread a true = Return run ->
  runs_retrieve svc thread run = pre ++ Return rs :: post ->
  Forall waiting pre -> terminal (status rs) = true ->
  MsgStatus (status rs)
    ∈ printed (search_books_by_interest json_loads format_recommendation_prompt
                 svc a user_data).1.
Proof.
  intros Ht Hf Hm Hr Hs Hpre Hrs. unfold search_books_by_interest.
  rewrite request_bind, Ht, !print_bind, lift_bind, Hf, request_bind, Hm.
  rewrite request_bind, Hr, bind_unfold, Hs.
  destruct (poll_waiting thread run (search_tool_call json_loads svc thread run)
              pre post rs (PList []) Hpre Hrs) as [H1 H2].
  rewrite H1. simpl. do 2 right. rewrite printed_app. apply elem_of_app. by left.
Qed.

End Runs.

(** *** The books of a recommendation *)

Lemma clean_book_spec (book book' : pyval) :
  clean_book book = Return book' -> book_rewritten book book'.
Proof.
  unfold clean_book.
  destruct book as [| | | | |l|d]; try done. simpl.
  destruct (dict_lookup (lit "reason") d) as [reason|] eqn:Er; [|done].
  destruct reason as [| | | |r|l|d0]; try done. simpl.
  rewrite dict_lookup_store_ne by done.
  destruct (dict_lookup (lit "book_title") d) as [title|] eqn:Et; [|done].
  destruct title as [| | | |t|l|d0]; try done. simpl.
  intros [= <-]. do 4 eexists.
  split; [reflexivity|]. split; [reflexivity|].
  split.
  { erewrite !dict_store_keys; [done|exact Er|].
    rewrite dict_lookup_store_ne by done. exact Et. }
  split; [exact Er|].
  split; [by rewrite dict_lookup_store_ne, dict_lookup_store_eq|].
  split; [exact Et|].
  split; [by rewrite dict_lookup_store_eq|].
  split; [by rewrite !dict_lookup_store_ne|].
  intros k Hk1 Hk2. by rewrite !dict_lookup_store_ne.
Qed.

Lemma clean_each_spec (books books' : list pyval) :
  clean_each books = Return books' -> Forall2 book_rewritten books books'.
Proof.
  revert books'. induction books as [|book books IH]; intros books'; simpl.
  - intros [= <-]. constructor.
  - destruct (clean_book book) as [book1|e|] eqn:E; [|done..].
    destruct (clean_each books) as [rest|e|]; [|done..].
    intros [= <-]. constructor; [by apply clean_book_spec|by apply IH].
Qed.

(** The objects a value that is not a list yields are no dictionaries:
    the loop over them raises unless there is none. *)
Lemma clean_each_strings {A} (f : A -> str) (l : list A) (books' : list pyval) :
  clean_each (map (fun x => PStr (f x)) l) = Return books' -> l = [].
Proof. by destruct l. Qed.

Lemma clean_books_spec (supplied returned : pyval) :
  clean_books supplied = Return returned -> books_rewritten supplied returned.
Proof.
  unfold clean_books, books_rewritten.
  destruct supplied as [| | | |s0|l|d]; try done; simpl.
  - destruct (clean_each _) as [books'|e|]; [|done..]. by intros [= <-].
  - destruct (clean_each l) as [books'|e|] eqn:E; [|done..].
    intros [= <-]. exists books'. split; [done|by apply clean_each_spec].
  - destruct (clean_each _) as [books'|e|]; [|done..]. by intros [= <-].
Qed.

(** What [search_books_by_interest] holds in [recommended_books]: the
    initial empty list, or what a [recommend_books] call seen in
    [script] supplied, rewritten. *)
Definition from_tool_call (json_loads : str -> outcome pyval)
    (script : list (outcome run_status)) (v : pyval) : Prop :=
  v = PList []
  \/ exists rs tcs tc f args supplied,
       Return rs ∈ script /\ required_action rs = Some tcs /\ tc ∈ tcs
       /\ tc_function tc = Some f
       /\ fn_name f = Some (lit "recommend_books")
       /\ function_args_of json_loads f = Return args
       /\ py_get args (lit "recommended_books") (PList []) = Return supplied
       /\ books_rewritten supplied v.

Lemma search_tool_call_from (json_loads : str -> outcome pyval) (svc : service)
    (script : list (outcome run_status)) (thread run : id)
    (rs : run_status) (tcs : list tool_call) (tc : tool_call) (acc acc' : pyval) :
  Return rs ∈ script -> required_action rs = Some tcs -> tc ∈ tcs ->
  from_tool_call json_loads script acc ->
  (search_tool_call json_loads svc thread run tc acc).2 = Return acc' ->
  from_tool_call json_loads script acc'.
Proof.
  intros Hrs Htcs Htc Hacc. unfold search_tool_call.
  destruct (tc_function tc) as [f|] eqn:Ef; [|by intros [= <-]].
  rewrite lift_bind.
  destruct (function_args_of json_loads f) as [args|e|] eqn:Eargs; [|done..].
  destruct (decide _) as [Hname|Hname]; [|by intros [= <-]].
  rewrite lift_bind.
  destruct (py_get args _ _) as [supplied|e|] eqn:Eget; [|done..].
  rewrite lift_bind.
  destruct (clean_books supplied) as [cleaned|e|] eqn:Ec; [|done..].
  rewrite request_bind.
  destruct (submit_tool_outputs svc _ _ _ _) as [[]|e|]; [|done..].
  simpl. intros [= <-]. right.
  exists rs, tcs, tc, f, args, supplied.
  repeat (split; [done|]).
  split; [|split; [done|split; [done|by apply clean_books_spec]]].
  destruct (fn_name f) as [name|]; simpl in Hname; [by subst|done].
Qed.

(** C10: what [search_books_by_interest] returns is the empty list or
    the recommendation list that a [recommend_books] tool call of the
    run supplied, in which each book keeps its keys and every field
    but [reason] and [book_title], which are cleaned; its [book_id]
    is the one of the tool-call arguments. *)
Theorem search_keeps_book_id
    (json_loads : str -> outcome pyval)
    (format_recommendation_prompt : str -> outcome str)
    (svc : service) (a : id) (user_data : str) (returned : pyval) :
  (search_books_by_interest json_loads format_recommendation_prompt svc a user_data).2
  = Return returned ->
  returned = PList []
  \/ exists thread run rs tcs tc f args supplied,
       Return rs ∈ runs_retrieve svc thread run
       /\ required_action rs = Some tcs /\ tc ∈ tcs
       /\ tc_function tc = Some f
       /\ fn_name f = Some (lit "recommend_books")
       /\ function_args_of json_loads f = Return args
       /\ py_get args (lit "recommended_books") (PList []) = Return supplied
       /\ books_rewritten supplied returned.
Proof.
  unfold search_books_by_interest. rewrite request_bind.
  destruct (threads_create svc) as [thread|e|]; [|done..].
  rewrite !print_bind, lift_bind.
  destruct (format_recommendation_prompt user_data) as [prompt|e|]; [|done..].
  rewrite request_bind.
  destruct (messages_create svc thread prompt) as [[]|e|]; [|done..].
  rewrite request_bind.
  destruct (runs_create svc thread a true) as [run|e|]; [|done..].
  rewrite bind_unfold.
  destruct (poll thread run _ _ _) as [l [[rs acc]|e|]] eqn:Ep; simpl; [|done..].
  destruct (decide _) as [Hc|Hc]; simpl; [|intros [= <-]; by left].
  intros [= <-].
  assert (H : from_tool_call json_loads (runs_retrieve svc thread run) acc).
  { apply (poll_invariant thread run (search_tool_call json_loads svc thread run)
             (from_tool_call json_loads (runs_retrieve svc thread run))
             (runs_retrieve svc thread run) (PList []) rs acc).
    - intros rs' tcs tc x x'. apply search_tool_call_from.
    - by left.
    - by rewrite Ep. }
  destruct H as [->|(rs' & tcs & tc & f & args & supplied & H)]; [by left|].
  right. by exists thread, run, rs', tcs, tc, f, args, supplied.
Qed.

(** A run that completes after one [recommend_books] call. *)
Lemma search_keeps_book_id_witness :
  let returned :=
    PList [PDict [ (lit "book_id", PStr (lit "b-42"));
                   (lit "book_title", PStr (lit "Great book  for kids"));
                   (lit "reason", PStr (lit "about space")) ]] in
  (search_books_by_interest sample_json_loads Return
     (scripted_service completing_script) (lit "asst_1") (lit "history")).2
  = Return returned
  /\ (returned = PList []
      \/ exists thread run rs tcs tc f args supplied,
           Return rs ∈ runs_retrieve (scripted_service completing_script) thread run
           /\ required_action rs = Some tcs /\ tc ∈ tcs
           /\ tc_function tc = Some f
           /\ fn_name f = Some (lit "recommend_books")
           /\ function_args_of sample_json_loads f = Return args
           /\ py_get args (lit "recommended_books") (PList []) = Return supplied
           /\ books_rewritten supplied returned).
Proof.
  intros returned.
  assert (H : (search_books_by_interest sample_json_loads Return
                 (scripted_service completing_script) (lit "asst_1")
                 (lit "history")).2 = Return returned)
    by (vm_compute; reflexivity).
  split; [exact H|].
  exact (search_keeps_book_id sample_json_loads Return
           (scripted_service completing_script) (lit "asst_1") (lit "history")
           returned H).
Defined.

(** C6: when the status a run is seen to end on is [failed] or
    [cancelled], [analyze_user_interest] returns the empty string and
    [search_books_by_interest] the empty list; neither raises.  The
    status seen is the one the loop prints; it is seen, in particular,
    on every run that only waits before it fails (third part). *)
Theorem failed_run_returns_empty
    (json_loads : str -> outcome pyval)
    (format_analysis_prompt format_recommendation_prompt : str -> outcome str)
    (svc : service) (a : id) (user_data st : str) :
  st = lit "failed" \/ st = lit "cancelled" ->
  let analysis :=
    analyze_user_interest json_loads format_analysis_prompt svc a user_data in
  let search :=
    search_books_by_interest json_loads format_recommendation_prompt svc a user_data in
  (MsgStatus st ∈ printed analysis.1 -> analysis.2 = Return (PStr []))
  /\ (MsgStatus st ∈ printed search.1 -> search.2 = Return (PList []))
  /\ (forall thread run prompt pre post rs,
        threads_create svc = Return thread ->
        messages_create svc thread prompt = Return tt ->
        runs_retrieve svc thread run = pre ++ Return rs :: post ->
        Forall waiting pre -> status rs = st ->
        (format_analysis_prompt user_data = Return prompt ->
         runs_create svc thread a false = Return run ->
         analysis.2 = Return (PStr []))
        /\ (format_recommendation_prompt user_data = Return prompt ->
            runs_create svc thread a true = Return run ->
            search.2 = Return (PList []))).
Proof.
  intros Hst analysis search.
  assert (Ht : terminal st = true) by (by destruct Hst as [->| ->]).
  assert (Hne : st <> lit "completed") by (by destruct Hst as [->| ->]).
  assert (Ha : MsgStatus st ∈ printed analysis.1 -> analysis.2 = Return (PStr []))
    by (by apply analyze_user_interest_seen).
  assert (Hs : MsgStatus st ∈ printed search.1 -> search.2 = Return (PList []))
    by (by apply search_books_by_interest_seen).
  split; [exact Ha|]. split; [exact Hs|].
  intros thread run prompt pre post rs Hth Hm Hscript Hpre <-. split.
  - intros Hf Hr. apply Ha.
    by eapply analyze_user_interest_waits.
  - intros Hf Hr. apply Hs.
    by eapply search_books_by_interest_waits.
Qed.

(** A run that asks for the tool and then fails: both functions see
    [failed] and return their empty result. *)
Lemma failed_run_returns_empty_witness :
  let svc := scripted_service failing_script in
  (analyze_user_interest sample_json_loads Return svc (lit "asst_1") (lit "history")).2
  = Return (PStr [])
  /\ (search_books_by_interest sample_json_loads Return svc (lit "asst_1")
        (lit "history")).2
     = Return (PList []).
Proof.
  intros svc.
  destruct (failed_run_returns_empty sample_json_loads Return Return svc
              (lit "asst_1") (lit "history") (lit "failed")) as (Ha & Hs & _);
    [by left|].
  split; [apply Ha|apply Hs]; apply list_elem_of_In; vm_compute; tauto.
Defined.

(** *** What the two runs return and answer *)
Section PollTrace.
Context {S : Type}.
Variables (thread run : id) (h : tool_call -> S -> M event S).

(** The loop returns on a terminal status of the script only. *)
Lemma poll_returns_terminal (script : list (outcome run_status)) (acc : S)
    (rs : run_status) (acc' : S) :
  (poll thread run h script acc).2 = Return (rs, acc') ->
  Return rs ∈ script /\ terminal (status rs) = true
  /\ MsgStatus (status rs) ∈ printed (poll thread run h script acc).1.
Proof.
  revert acc. induction script as [|answer script IH]; intros acc; [done|].
  rewrite poll_cons. destruct answer as [rs'|e|]; [|done..].
  destruct (terminal (status rs')) eqn:Ht.
  - intros [= <- <-]. split; [left|]. split; [done|]. simpl. left.
  - destruct (act h rs' acc) as [l [a1|e|]]; simpl; [|done..].
    intros H. destruct (IH _ H) as (H1 & H2 & H3).
    split; [by right|]. split; [done|].
    right. rewrite printed_app. apply elem_of_app. right. simpl. exact H3.
Qed.


End PollTrace.

Section RunResults.
Variable json_loads : str -> outcome pyval.
Variables format_analysis_prompt format_recommendation_prompt : str -> outcome str.
Variable svc : service.




(** Neither function returns before it has seen the run in a terminal
    status: whatever it returns, some poll of the run it created
    answered [completed], [failed] or [cancelled], and anything but
    [completed] gives the empty result. *)
Theorem runs_return_on_terminal_status (a : id) (user_data : str) :
  (forall v,
      (analyze_user_interest json_loads format_analysis_prompt svc a user_data).2
      = Return v ->
      exists thread run rs,
        threads_create svc = Return thread
        /\ runs_create svc thread a false = Return run
        /\ Return rs ∈ runs_retrieve svc thread run
        /\ terminal (status rs) = true
        /\ (status rs <> lit "completed" -> v = PStr []))
  /\ (forall v,
      (search_books_by_interest json_loads format_recommendation_prompt svc a user_data).2
      = Return v ->
      exists thread run rs,
        threads_create svc = Return thread
        /\ runs_create svc thread a true = Return run
        /\ Return rs ∈ runs_retrieve svc thread run
        /\ terminal (status rs) = true
        /\ (status rs <> lit "completed" -> v = PList [])).
Proof.
  split; intros v.
  - unfold analyze_user_interest. rewrite request_bind.
    destruct (threads_create svc) as [thread|e|]; [|done..].
    rewrite print_bind, lift_bind.
    destruct (format_analysis_prompt user_data) as [prompt|e|]; [|done..].
    rewrite print_bind, request_bind.
    destruct (messages_create svc thread prompt) as [[]|e|]; [|done..].
    rewrite request_bind.
    destruct (runs_create svc thread a false) as [run|e|] eqn:Er; [|done..].
    rewrite print_bind, bind_unfold.
    destruct (poll thread run _ _ _) as [l [[rs acc]|e|]] eqn:Ep; simpl; [|done..].
    destruct (poll_returns_terminal thread run
                (analysis_tool_call json_loads svc thread run)
                (runs_retrieve svc thread run) (PStr []) rs acc)
      as (H1 & H2 & _); [by rewrite Ep|].
    intros Hv. exists thread, run, rs. repeat (split; [done|]).
    intros Hne. rewrite decide_False in Hv by exact Hne. simpl in Hv. congruence.
  - unfold search_books_by_interest. rewrite request_bind.
    destruct (threads_create svc) as [thread|e|]; [|done..].
    rewrite !print_bind, lift_bind.
    destruct (format_recommendation_prompt user_data) as [prompt|e|]; [|done..].
    rewrite request_bind.
    destruct (messages_create svc thread prompt) as [[]|e|]; [|done..].
    rewrite request_bind.
    destruct (runs_create svc thread a true) as [run|e|] eqn:Er; [|done..].
    rewrite bind_unfold.
    destruct (poll thread run _ _ _) as [l [[rs acc]|e|]] eqn:Ep; simpl; [|done..].
    destruct (poll_returns_terminal thread run
                (search_tool_call json_loads svc thread run)
                (runs_retrieve svc thread run) (PList []) rs acc)
      as (H1 & H2 & _); [by rewrite Ep|].
    intros Hv. exists thread, run, rs. repeat (split; [done|]).
    intros Hne. rewrite decide_False in Hv by exact Hne. simpl in Hv. congruence.
Qed.





End RunResults.


(** *** The books the loop accepts *)

(** The two assignments of the loop body, case by case. *)
Lemma clean_book_eq (book : pyval) :
  clean_book book
  = match book with
    | PDict d =>
        match dict_lookup (lit "reason") d with
        | Some (PStr reason) =>
            match dict_lookup (lit "book_title") d with
            | Some (PStr title) =>
                Return (PDict (dict_store (lit "book_title") (PStr (clean_text title))
                                 (dict_store (lit "reason") (PStr (clean_text reason)) d)))
            | Some _ => Raise TypeError
            | None => Raise KeyError
            end
        | Some _ => Raise TypeError
        | None => Raise KeyError
        end
    | _ => Raise TypeError
    end.
Proof.
  unfold clean_book. destruct book as [| | | | |l|d]; try done.
  cbn [py_getitem].
  destruct (dict_lookup (lit "reason") d) as [[| | | |r|l|d0]|] eqn:Er; try done.
  cbn [py_clean_text py_setitem py_getitem].
  rewrite dict_lookup_store_ne by done.
  by destruct (dict_lookup (lit "book_title") d) as [[| | | |t|l|d0]|].
Qed.

(** [clean_book book] returns exactly for a dictionary whose [reason]
    and [book_title] are strings; on anything else it raises, KeyError
    for a missing key and TypeError otherwise. *)
Theorem clean_book_returns_iff (book : pyval) :
  ((exists book', clean_book book = Return book')
   <-> exists d reason title,
         book = PDict d
         /\ dict_lookup (lit "reason") d = Some (PStr reason)
         /\ dict_lookup (lit "book_title") d = Some (PStr title))
  /\ (forall e, clean_book book = Raise e -> e = KeyError \/ e = TypeError)
  /\ clean_book book <> Hang.
Proof.
  rewrite clean_book_eq.
  assert (Hno : forall e : exn,
             (e = KeyError \/ e = TypeError) ->
             ((exists book' : pyval, Raise e = Return book') <-> False)
             /\ (forall e', @Raise pyval e = Raise e' -> e' = KeyError \/ e' = TypeError)
             /\ @Raise pyval e <> Hang).
  { intros e He. split; [split; [by intros [? ?]|done]|].
    split; [by intros e' [= <-]|done]. }
  destruct book as [| | | | |l|d];
    try (destruct (Hno TypeError ltac:(by right)) as (H1 & H2 & H3);
         split; [rewrite H1; split; [done|by intros (? & ? & ? & ? & _)]|done]).
  destruct (dict_lookup (lit "reason") d) as [[| | | |r|l|d0]|] eqn:Er;
    try (destruct (Hno TypeError ltac:(by right)) as (H1 & H2 & H3);
         split; [rewrite H1; split; [done|intros (? & ? & ? & [= <-] & ? & _); congruence]
                |done]).
  2:{ destruct (Hno KeyError ltac:(by left)) as (H1 & H2 & H3).
      split; [rewrite H1; split; [done|intros (? & ? & ? & [= <-] & ? & _); congruence]
             |done]. }
  destruct (dict_lookup (lit "book_title") d) as [[| | | |t|l|d0]|] eqn:Et;
    try (destruct (Hno TypeError ltac:(by right)) as (H1 & H2 & H3);
         split; [rewrite H1; split; [done|intros (? & ? & ? & [= <-] & ? & ?); congruence]
                |done]).
  2:{ destruct (Hno KeyError ltac:(by left)) as (H1 & H2 & H3).
      split; [rewrite H1; split; [done|intros (? & ? & ? & [= <-] & ? & ?); congruence]
             |done]. }
  split; [|done]. split; [|by eexists].
  intros _. by exists d, r, t.
Qed.

End AssistantSpec.

(** ** The job *)
Module RunTaskSpec.
Import Py PyFacts RunTask.

Example py_int_examples :
  py_int (lit "3") = Return 3%Z
  /\ py_int (lit " +1_000 ") = Return 1000%Z
  /\ py_int (lit "-0") = Return 0%Z
  /\ py_int [0x663] = Return 3%Z
  /\ py_int (lit "abc") = Raise ValueError
  /\ py_int (lit "1__0") = Raise ValueError
  /\ py_int (lit "") = Raise ValueError.
Proof. vm_compute. repeat split. Qed.

Section Job.
Variable env : callees.

Definition no_teardown (ev : event) : Prop := is_teardown ev = false.
Definition no_user_start (ev : event) : Prop := is_user_start ev = false.

Lemma Forall_request {A} (P : event -> Prop) (c : call) (answer : outcome A) :
  P (Call c) -> Forall P (request c answer).1.
Proof.
  intros Hc. unfold request. rewrite emit_bind. simpl.
  constructor; [done|]. destruct answer; constructor.
Qed.

Lemma Forall_lift {A} (P : event -> Prop) (o : outcome A) :
  Forall P (lift (E:=event) o).1.
Proof. constructor. Qed.

Lemma Forall_print (P : event -> Prop) (l : line) :
  P (Print l) -> Forall P (print l).1.
Proof. intros H. by constructor. Qed.

Lemma teardowns_none (l : list event) : Forall no_teardown l -> teardowns l = 0%nat.
Proof.
  unfold teardowns. induction 1 as [|ev l Hev _ IH]; [done|].
  rewrite filter_cons_False; [done|]. unfold no_teardown in Hev. congruence.
Qed.

Lemma users_processed_none (l : list event) :
  Forall no_user_start l -> users_processed l = 0%nat.
Proof.
  unfold users_processed. induction 1 as [|ev l Hev _ IH]; [done|].
  rewrite filter_cons_False; [done|]. unfold no_user_start in Hev. congruence.
Qed.

Lemma teardowns_app (l1 l2 : list event) :
  teardowns (l1 ++ l2) = (teardowns l1 + teardowns l2)%nat.
Proof. unfold teardowns. by rewrite filter_app, length_app. Qed.

Lemma users_processed_app (l1 l2 : list event) :
  users_processed (l1 ++ l2) = (users_processed l1 + users_processed l2)%nat.
Proof. unfold users_processed. by rewrite filter_app, length_app. Qed.

(** Events of the processing of one user, but for its first call. *)
Definition rest_of_user (a : id) (user_id : option str) (books : list DataSource.read_book)
    : M event unit :=
  print (LineUserBooks user_id (length books));;
  prompt_reading_history ← reading_history env books [];
  book_creation_instruction ←
    request (AnalyzeUserInterest a prompt_reading_history)
            (analyze_user_interest env a prompt_reading_history);
  debug ← lift (format_debug_output env user_id book_creation_instruction);
  print (LineDebug debug);;
  recommendations ←
    request (SearchBooksByInterest a prompt_reading_history)
            (search_books_by_interest env a prompt_reading_history);
  print LineMayLike;;
  books ← lift (py_iter recommendations);
  for_each books (print_recommendation).

Lemma Forall_reading_history (P : event -> Prop) books history :
  (forall b, P (Call (GetBookInfo b))) ->
  Forall P (reading_history env books history).1.
Proof.
  intros HP. revert history. induction books as [|book books IH]; intros history.
  - constructor.
  - simpl. apply Forall_bind; [by apply Forall_request|]. intros desc.
    apply Forall_bind; [apply Forall_lift|]. intros record. apply IH.
Qed.

Lemma Forall_print_recommendation (P : event -> Prop) (book : pyval) :
  (forall l, P (Print l)) -> Forall P (print_recommendation book).1.
Proof.
  intros HP. unfold print_recommendation.
  repeat (apply Forall_bind; [apply Forall_lift|]; intros ?).
  by apply Forall_print.
Qed.

Lemma Forall_rest_of_user (P : event -> Prop) a user_id books :
  (forall l, P (Print l)) ->
  (forall c, (forall u, c <> GetUserReadBooks u) -> (forall x, c <> DeleteAssistant x) ->
             P (Call c)) ->
  Forall P (rest_of_user a user_id books).1.
Proof.
  intros HP HC. unfold rest_of_user.
  apply Forall_bind; [by apply Forall_print|]. intros _.
  apply Forall_bind; [apply Forall_reading_history; intros; by apply HC|]. intros h.
  apply Forall_bind; [apply Forall_request; by apply HC|]. intros instr.
  apply Forall_bind; [apply Forall_lift|]. intros debug.
  apply Forall_bind; [by apply Forall_print|]. intros _.
  apply Forall_bind; [apply Forall_request; by apply HC|]. intros recs.
  apply Forall_bind; [by apply Forall_print|]. intros _.
  apply Forall_bind; [apply Forall_lift|]. intros bs.
  apply Forall_for_each. intros b. by apply Forall_print_recommendation.
Qed.

Lemma process_user_eq (a : id) (user_id : option str) :
  process_user env a user_id
  = request (GetUserReadBooks user_id) (get_user_read_books env user_id)
    ≫= rest_of_user a user_id.
Proof. reflexivity. Qed.

Lemma process_user_no_teardown a user_id :
  Forall no_teardown (process_user env a user_id).1.
Proof.
  rewrite process_user_eq. apply Forall_bind; [by apply Forall_request|].
  intros books. apply Forall_rest_of_user; [done|].
  intros c _ Hc. destruct c; try done. by destruct (Hc assistant_id).
Qed.

(** One user is processed by each run of the loop body, however it ends. *)
Lemma process_user_counts_one a user_id :
  users_processed (process_user env a user_id).1 = 1%nat.
Proof.
  assert (H : Forall no_user_start
                (lift (get_user_read_books env user_id) ≫= rest_of_user a user_id).1).
  { apply Forall_bind; [apply Forall_lift|]. intros books.
    apply Forall_rest_of_user; [done|]. intros c Hc _. destruct c; try done.
    by destruct (Hc user_id0). }
  rewrite process_user_eq. unfold request. rewrite bind_assoc, emit_bind.
  cbn [fst]. apply users_processed_none in H.
  change (?x :: ?l) with ([x] ++ l). rewrite users_processed_app, H. done.
Qed.

Lemma users_loop_no_teardown a users n :
  Forall no_teardown (users_loop env a users n).1.
Proof.
  revert n. induction users as [|u users IH]; intros n; simpl; [constructor|].
  apply Forall_bind; [apply process_user_no_teardown|]. intros _.
  destruct (decide _); [constructor|apply IH].
Qed.

Lemma per_user_processing_no_teardown a n :
  Forall no_teardown (per_user_processing env a n).1.
Proof.
  unfold per_user_processing. apply Forall_bind; [by apply Forall_request|].
  intros users. apply users_loop_no_teardown.
Qed.

(** With a positive [number_of_users] the loop stops after that many
    users at the latest. *)
Lemma users_loop_at_most a users (n : Z) :
  (1 <= n)%Z ->
  (Z.of_nat (users_processed (users_loop env a users n).1) <= n)%Z.
Proof.
  revert n. induction users as [|u users IH]; intros n Hn; simpl.
  - unfold users_processed. simpl. lia.
  - rewrite bind_unfold. pose proof (process_user_counts_one a u) as H1.
    destruct (process_user env a u) as [l [[]|e|]]; simpl in *; [|lia..].
    rewrite users_processed_app, H1.
    destruct (decide (n = 1%Z)) as [->|Hne].
    + unfold users_processed. simpl. lia.
    + specialize (IH (n - 1)%Z ltac:(lia)). lia.
Qed.

(** With a [number_of_users] below 1 the loop never stops by itself:
    when no call fails every user is processed. *)
Lemma users_loop_no_limit a users (n : Z) :
  (n <= 0)%Z ->
  (forall u, (process_user env a u).2 = Return tt) ->
  users_processed (users_loop env a users n).1 = length users.
Proof.
  intros Hn Hok. revert n Hn. induction users as [|u users IH]; intros n Hn; simpl.
  - done.
  - rewrite (bind_Return _ _ tt) by apply Hok. simpl.
    rewrite users_processed_app, process_user_counts_one.
    rewrite decide_False by lia. by rewrite IH by lia.
Qed.

End Job.

(** The job once the assistant is provisioned, the catalog file
    removed and the argument read. *)
Lemma run_task_provisioned (env : callees) (argv : list str)
    (file : str) (a : id) (n : Z) :
  fetch_all_production_books env = Return file ->
  ensure_assistant env file = Return a ->
  unlink env file = Return tt ->
  number_of_users_of argv = Return n ->
  run_task env argv
  = ([Call FetchAllProductionBooks; Print (LineLibraryFile file);
      Call (EnsureAssistant file); Call (Unlink file); Print (LineProcessing n)]
     ++ (try_finally (per_user_processing env a n) (cleaning_up env a)).1,
     (try_finally (per_user_processing env a n) (cleaning_up env a)).2).
Proof.
  intros Hf He Hu Hn. unfold run_task, request, print.
  rewrite !bind_assoc, emit_bind, Hf, lift_bind, emit_bind.
  rewrite bind_assoc, emit_bind, He, lift_bind.
  rewrite bind_assoc, emit_bind, Hu, lift_bind, Hn, lift_bind, emit_bind.
  reflexivity.
Qed.

Lemma cleaning_up_once (env : callees) (a : id) :
  teardowns (cleaning_up env a).1 = 1%nat
  /\ Call (DeleteAssistant a) ∈ (cleaning_up env a).1.
Proof.
  unfold cleaning_up, request, print. rewrite emit_bind, emit_bind. cbn [fst].
  destruct (delete_assistant env a) as [[]|e|]; simpl;
    (split; [done|right; left]).
Qed.

(** C1 (as amended): in a job run that reaches the per-user processing
    (the catalog is exported, the assistant provisioned, the catalog
    file removed and the argument read), [delete_assistant] is invoked
    exactly once, for the provisioned assistant, whenever that
    processing ends, be it by returning or by raising.  When no
    assistant is provisioned, it is not invoked. *)
Theorem teardown_once (env : callees) (argv : list str) :
  (forall file a n,
      fetch_all_production_books env = Return file ->
      ensure_assistant env file = Return a ->
      unlink env file = Return tt ->
      number_of_users_of argv = Return n ->
      (per_user_processing env a n).2 <> Hang ->
      teardowns (run_task env argv).1 = 1%nat
      /\ Call (DeleteAssistant a) ∈ (run_task env argv).1)
  /\ ((forall file a, fetch_all_production_books env = Return file ->
                      ensure_assistant env file <> Return a) ->
      teardowns (run_task env argv).1 = 0%nat).
Proof.
  split.
  - intros file a n Hf He Hu Hn Hend.
    rewrite (run_task_provisioned env argv file a n Hf He Hu Hn). cbn [fst].
    rewrite try_finally_events by exact Hend.
    destruct (cleaning_up_once env a) as [H1 H2].
    split.
    + rewrite !teardowns_app, H1.
      rewrite (teardowns_none (per_user_processing env a n).1)
        by apply per_user_processing_no_teardown.
      done.
    + rewrite !elem_of_app. by do 2 right.
  - intros Hno. unfold run_task, request, print.
    rewrite !bind_assoc, emit_bind, lift_bind.
    destruct (fetch_all_production_books env) as [file|e|] eqn:Hf; [|done..].
    rewrite emit_bind, bind_assoc, emit_bind, lift_bind.
    destruct (ensure_assistant env file) as [a|e|] eqn:He; [|done..].
    by destruct (Hno file a).
Qed.

(** The analysis of the first user raises: the teardown still runs,
    once. *)
Lemma teardown_once_witness :
  let run := run_task (failing_analysis three_users) [lit "run_task.py"; lit "3"] in
  run.2 = Raise ServiceError
  /\ teardowns run.1 = 1%nat
  /\ Call (DeleteAssistant (lit "asst_1")) ∈ run.1.
Proof.
  intros run. split; [vm_compute; reflexivity|].
  apply (proj1 (teardown_once (failing_analysis three_users)
                  [lit "run_task.py"; lit "3"])
           (lit "/tmp/library.json") (lit "asst_1") 3%Z);
    try reflexivity.
  vm_compute. discriminate.
Defined.

(** C1 (as stated) fails: when the warehouse refuses the catalog query
    the job ends by that exception and the teardown is not invoked. *)
Lemma teardown_not_on_every_exit :
  (run_task no_warehouse [lit "run_task.py"]).2 = Raise DatabaseError
  /\ teardowns (run_task no_warehouse [lit "run_task.py"]).1 <> 1%nat.
Proof. vm_compute. split; [reflexivity|discriminate]. Qed.

(** An argument that is no integer ends the job after the assistant is
    provisioned and before the [try] block is entered. *)
Example run_task_bad_argument :
  let run := run_task (quiet_callees three_users) [lit "run_task.py"; lit "abc"] in
  run.2 = Raise ValueError
  /\ provisioned (quiet_callees three_users) run.1
  /\ teardowns run.1 = 0%nat.
Proof.
  intros run. split; [vm_compute; reflexivity|]. split; [|vm_compute; reflexivity].
  exists (lit "/tmp/library.json"), (lit "asst_1"). split; [|reflexivity].
  apply list_elem_of_In. vm_compute. tauto.
Qed.

(** C4 on the code: with the argument 0 and three active users, all
    three are processed. *)
Theorem zero_processes_every_user :
  let argv := [lit "run_task.py"; lit "0"] in
  number_of_users_of argv = Return 0%Z
  /\ (run_task (quiet_callees three_users) argv).2 = Return tt
  /\ users_processed (run_task (quiet_callees three_users) argv).1 = 3%nat.
Proof. vm_compute. repeat split. Qed.

(** For an argument from 1 on, and for no argument, the claim holds. *)
Lemma run_task_at_most (env : callees) (argv : list str) (n : Z) :
  number_of_users_of argv = Return n -> (1 <= n)%Z ->
  (Z.of_nat (users_processed (run_task env argv).1) <= n)%Z.
Proof.
  intros Hn Hpos. unfold run_task, request, print.
  rewrite !bind_assoc, emit_bind, lift_bind.
  destruct (fetch_all_production_books env) as [file|e|];
    [|unfold users_processed; simpl; lia..].
  rewrite emit_bind, bind_assoc, emit_bind, lift_bind.
  destruct (ensure_assistant env file) as [a|e|];
    [|unfold users_processed; simpl; lia..].
  rewrite bind_assoc, emit_bind, lift_bind.
  destruct (unlink env file) as [[]|e|];
    [|unfold users_processed; simpl; lia..].
  rewrite Hn, lift_bind, emit_bind. cbn [fst].
  change (?a :: ?b :: ?c :: ?d :: ?e :: ?l) with ([a; b; c; d; e] ++ l).
  rewrite users_processed_app.
  assert (Hbody : (Z.of_nat (users_processed (per_user_processing env a n).1) <= n)%Z).
  { unfold per_user_processing, request. rewrite bind_assoc, emit_bind, lift_bind.
    destruct (get_active_users env 14 5) as [users|e|];
      [|unfold users_processed; simpl; lia..].
    cbn [fst]. change (?x :: ?l) with ([x] ++ l). rewrite users_processed_app.
    pose proof (users_loop_at_most env a users n Hpos). 
    unfold users_processed at 1. simpl. lia. }
  assert (Hfin : users_processed (cleaning_up env a).1 = 0%nat).
  { unfold cleaning_up, request, print. rewrite !emit_bind. cbn [fst].
    by destruct (delete_assistant env a) as [[]|e|]. }
  assert (H5 : users_processed
                 [Call FetchAllProductionBooks; Print (LineLibraryFile file);
                  Call (EnsureAssistant file); Call (Unlink file);
                  Print (LineProcessing n)] = 0%nat) by done.
  rewrite H5. clear H5.
  destruct ((per_user_processing env a n).2) as [[]|e|] eqn:E.
  - rewrite try_finally_events by congruence.
    rewrite users_processed_app, Hfin. lia.
  - rewrite try_finally_events by congruence.
    rewrite users_processed_app, Hfin. lia.
  - rewrite try_finally_Hang by exact E. lia.
Qed.

(** *** The users the job processes *)
Section Loop.
Variable env : callees.

(** The number of users the loop processes when none fails: all of
    them for a [number_of_users] below 1, and otherwise that many, or
    all when there are fewer. *)
Definition expected_users (n : Z) (users : list (option str)) : nat :=
  if decide (1 <= n)%Z then Nat.min (Z.to_nat n) (length users) else length users.

Lemma users_loop_count (a : id) (users : list (option str)) (n : Z) :
  (forall u, u ∈ users -> (process_user env a u).2 = Return tt) ->
  (users_loop env a users n).2 = Return tt
  /\ users_processed (users_loop env a users n).1 = expected_users n users.
Proof.
  revert n. induction users as [|u users IH]; intros n Hok.
  - split; [done|]. unfold expected_users. destruct (decide _); [|done].
    cbn [length]. by rewrite Nat.min_0_r.
  - cbn [users_loop]. rewrite (bind_Return _ _ tt) by (apply Hok; left).
    cbn [fst snd]. rewrite users_processed_app, process_user_counts_one.
    destruct (decide (n = 1%Z)) as [->|Hne].
    + split; [done|]. unfold expected_users. rewrite decide_True by lia.
      change (Z.to_nat 1) with 1%nat. cbn [length].
      rewrite <- Nat.succ_min_distr, Nat.min_0_l. reflexivity.
    + destruct (IH (n - 1)%Z) as [IH1 IH2]; [intros v Hv; apply Hok; by right|].
      split; [exact IH1|]. rewrite IH2. unfold expected_users.
      destruct (decide (1 <= n)%Z) as [Hn|Hn].
      * rewrite decide_True by lia. simpl length.
        replace (Z.to_nat n) with (S (Z.to_nat (n - 1))) by lia.
        rewrite <- Nat.succ_min_distr. reflexivity.
      * rewrite decide_False by lia. done.
Qed.

(** The loop stops at the first user whose processing raises. *)
Lemma users_loop_first_failure (a : id) (pre post : list (option str))
    (u : option str) (n : Z) (e : exn) :
  (forall v, v ∈ pre -> (process_user env a v).2 = Return tt) ->
  (process_user env a u).2 = Raise e ->
  (n <= 0 \/ Z.of_nat (length pre) < n)%Z ->
  (users_loop env a (pre ++ u :: post) n).2 = Raise e
  /\ users_processed (users_loop env a (pre ++ u :: post) n).1 = S (length pre).
Proof.
  intros Hpre Hu. revert n. induction pre as [|v pre IH]; intros n Hn.
  - cbn [app users_loop]. rewrite (bind_Raise _ _ e) by exact Hu.
    split; [done|]. cbn [fst length]. apply process_user_counts_one.
  - cbn [app users_loop]. rewrite (bind_Return _ _ tt) by (apply Hpre; left).
    cbn [fst snd]. rewrite users_processed_app, process_user_counts_one.
    simpl length in Hn. rewrite decide_False by lia.
    destruct (IH ltac:(intros w Hw; apply Hpre; by right) (n - 1)%Z ltac:(lia))
      as [IH1 IH2].
    split; [exact IH1|]. rewrite IH2. done.
Qed.

End Loop.

Lemma cleaning_up_outcome (env : callees) (a : id) :
  (cleaning_up env a).2 = delete_assistant env a
  /\ users_processed (cleaning_up env a).1 = 0%nat.
Proof.
  unfold cleaning_up, request, print. rewrite !emit_bind. cbn [fst snd].
  by destruct (delete_assistant env a) as [[]|e|].
Qed.

Lemma per_user_processing_eq (env : callees) (a : id) (n : Z) (users : list (option str)) :
  get_active_users env 14 5 = Return users ->
  per_user_processing env a n
  = (Call (GetActiveUsers 14 5) :: (users_loop env a users n).1,
     (users_loop env a users n).2).
Proof.
  intros Hu. unfold per_user_processing, request.
  by rewrite bind_assoc, emit_bind, Hu, lift_bind.
Qed.

(** When every call but the teardown answers, the job processes the
    active users in order and stops after [number_of_users] of them
    when that number is at least 1; below 1 it never stops by itself
    and processes them all.  The job then ends as the teardown does. *)
Theorem run_task_processes (env : callees) (argv : list str) (file : str) (a : id)
    (n : Z) (users : list (option str)) :
  fetch_all_production_books env = Return file ->
  ensure_assistant env file = Return a ->
  unlink env file = Return tt ->
  number_of_users_of argv = Return n ->
  get_active_users env 14 5 = Return users ->
  (forall u, u ∈ users -> (process_user env a u).2 = Return tt) ->
  users_processed (run_task env argv).1
  = (if decide (1 <= n)%Z then Nat.min (Z.to_nat n) (length users) else length users)
  /\ (run_task env argv).2 = delete_assistant env a.
Proof.
  intros Hf He Hul Hn Hu Hok.
  rewrite (run_task_provisioned env argv file a n Hf He Hul Hn). cbn [fst snd].
  destruct (users_loop_count env a users n Hok) as [Hret Hcount].
  destruct (cleaning_up_outcome env a) as [Hfin Hfin0].
  rewrite try_finally_outcome, Hfin.
  rewrite try_finally_events
    by (rewrite (per_user_processing_eq env a n users Hu); cbn [snd]; congruence).
  rewrite (per_user_processing_eq env a n users Hu). cbn [fst snd].
  rewrite Hret. split; [|by destruct (delete_assistant env a) as [[]|e|]].
  rewrite !users_processed_app, Hfin0.
  change (Call (GetActiveUsers 14 5) :: ?l) with ([Call (GetActiveUsers 14 5)] ++ l).
  rewrite users_processed_app, Hcount. unfold expected_users.
  unfold users_processed at 1 2. simpl. lia.
Qed.

(** Three active users and the argument 2. *)
Lemma run_task_processes_witness :
  let argv := [lit "run_task.py"; lit "2"] in
  users_processed (run_task (quiet_callees three_users) argv).1 = 2%nat
  /\ (run_task (quiet_callees three_users) argv).2 = Return tt.
Proof.
  intros argv.
  apply (run_task_processes (quiet_callees three_users) argv
           (lit "/tmp/library.json") (lit "asst_1") 2%Z three_users);
    reflexivity.
Defined.

(** The loop has no handler of its own: when the processing of a user
    raises, no later user is processed, the teardown runs, and the job
    ends by that exception, or by the one of the teardown when the
    teardown raises too. *)
Theorem first_failure_ends_job (env : callees) (argv : list str) (file : str) (a : id)
    (n : Z) (pre post : list (option str)) (u : option str) (e : exn) :
  fetch_all_production_books env = Return file ->
  ensure_assistant env file = Return a ->
  unlink env file = Return tt ->
  number_of_users_of argv = Return n ->
  get_active_users env 14 5 = Return (pre ++ u :: post) ->
  (forall v, v ∈ pre -> (process_user env a v).2 = Return tt) ->
  (process_user env a u).2 = Raise e ->
  (n <= 0 \/ Z.of_nat (length pre) < n)%Z ->
  users_processed (run_task env argv).1 = S (length pre)
  /\ (run_task env argv).2
     = match delete_assistant env a with
       | Return _ => Raise e
       | Raise e' => Raise e'
       | Hang => Hang
       end.
Proof.
  intros Hf He Hul Hn Hu Hpre Hfail Hlim.
  rewrite (run_task_provisioned env argv file a n Hf He Hul Hn). cbn [fst snd].
  destruct (users_loop_first_failure env a pre post u n e Hpre Hfail Hlim)
    as [Hraise Hcount].
  destruct (cleaning_up_outcome env a) as [Hfin Hfin0].
  rewrite try_finally_outcome, Hfin.
  rewrite try_finally_events
    by (rewrite (per_user_processing_eq env a n _ Hu); cbn [snd]; congruence).
  rewrite (per_user_processing_eq env a n _ Hu). cbn [fst snd].
  rewrite Hraise. split; [|done].
  rewrite !users_processed_app, Hfin0.
  change (Call (GetActiveUsers 14 5) :: ?l) with ([Call (GetActiveUsers 14 5)] ++ l).
  rewrite users_processed_app, Hcount.
  unfold users_processed at 1 2. simpl. lia.
Qed.

(** The analysis of the first of three users raises. *)
Lemma first_failure_ends_job_witness :
  let run := run_task (failing_analysis three_users) [lit "run_task.py"; lit "3"] in
  users_processed run.1 = 1%nat /\ run.2 = Raise ServiceError.
Proof.
  intros run.
  apply (first_failure_ends_job (failing_analysis three_users)
           [lit "run_task.py"; lit "3"] (lit "/tmp/library.json") (lit "asst_1") 3%Z
           [] [Some (lit "u2"); Some (lit "u3")] (Some (lit "u1")) ServiceError);
    try reflexivity.
  - intros v Hv. by apply elem_of_nil in Hv.
  - right. simpl. lia.
Defined.

(** The reading history of a user: one look-up of the description per
    book, in the order of the books, and the records of the books
    appended in that order. *)
Theorem reading_history_spec (env : callees) (books : list DataSource.read_book)
    (history : str) (desc : DataSource.read_book -> option str)
    (record : DataSource.read_book -> str) :
  (forall b, b ∈ books ->
     get_book_info env (DataSource.book_id b) = Return (desc b)
     /\ format_reading_history_record env (DataSource.event_time b)
          (DataSource.title b) (desc b) = Return (record b)) ->
  reading_history env books history
  = ((fun b => Call (GetBookInfo (DataSource.book_id b))) <$> books,
     Return (history ++ concat (record <$> books))).
Proof.
  revert history. induction books as [|b books IH]; intros history Hok.
  - simpl. by rewrite app_nil_r.
  - destruct (Hok b ltac:(left)) as [Hd Hr].
    cbn [reading_history]. unfold request.
    rewrite bind_assoc, emit_bind, Hd, lift_bind, Hr, lift_bind.
    rewrite IH by (intros b' Hb'; apply Hok; by right).
    cbn [fst snd fmap list_fmap concat]. by rewrite <- app_assoc.
Qed.

Lemma reading_history_spec_witness :
  reading_history echo_callees [sample_read_book "b2"; sample_read_book "b1"] []
  = ([Call (GetBookInfo (Some (lit "b2"))); Call (GetBookInfo (Some (lit "b1")))],
     Return (lit "b2;b1;")).
Proof.
  rewrite (reading_history_spec echo_callees
             [sample_read_book "b2"; sample_read_book "b1"] []
             DataSource.book_id (fun b => default [] (DataSource.title b) ++ lit ";")).
  - reflexivity.
  - intros b Hb. split; reflexivity.
Defined.

(** What happens before the [try] block is not undone: when the
    assistant cannot be provisioned the catalog file is left where it
    is, and when the argument is no integer the job ends with the
    assistant provisioned and never torn down. *)
Theorem failure_before_try (env : callees) (argv : list str) (file : str) (e : exn) :
  fetch_all_production_books env = Return file ->
  (ensure_assistant env file = Raise e ->
   run_task env argv
   = ([Call FetchAllProductionBooks; Print (LineLibraryFile file);
       Call (EnsureAssistant file)], Raise e))
  /\ (forall a,
        ensure_assistant env file = Return a ->
        unlink env file = Return tt ->
        number_of_users_of argv = Raise e ->
        run_task env argv
        = ([Call FetchAllProductionBooks; Print (LineLibraryFile file);
            Call (EnsureAssistant file); Call (Unlink file)], Raise e)).
Proof.
  intros Hf. unfold run_task, request, print.
  rewrite !bind_assoc, emit_bind, Hf, lift_bind, emit_bind, bind_assoc, emit_bind.
  cbn [fst snd]. split.
  - intros ->. by rewrite lift_bind.
  - intros a -> Hu Hn. rewrite lift_bind, bind_assoc, emit_bind, Hu, lift_bind, Hn.
    by rewrite lift_bind.
Qed.

(** An argument that is no integer. *)
Lemma failure_before_try_witness :
  run_task (quiet_callees three_users) [lit "run_task.py"; lit "abc"]
  = ([Call FetchAllProductionBooks; Print (LineLibraryFile (lit "/tmp/library.json"));
      Call (EnsureAssistant (lit "/tmp/library.json"));
      Call (Unlink (lit "/tmp/library.json"))], Raise ValueError).
Proof.
  apply (proj2 (failure_before_try (quiet_callees three_users)
                  [lit "run_task.py"; lit "abc"] (lit "/tmp/library.json") ValueError
                  eq_refl) (lit "asst_1")); reflexivity.
Defined.

End RunTaskSpec.

(** ** The warehouse *)
Module DataSourceSpec.
Import Py PyFacts DataSource.

(** *** Sorting *)

Lemma StronglySorted_fmap_on {A B} (R1 : relation A) (R2 : relation B)
    (f : A -> B) (P : A -> Prop) (l : list A) :
  Forall P l ->
  (forall x y, P x -> P y -> R1 x y -> R2 (f x) (f y)) ->
  StronglySorted R1 l -> StronglySorted R2 (f <$> l).
Proof.
  intros HP HR Hs. induction Hs as [|x l Hs IH Hx]; simpl; [constructor|].
  apply Forall_cons in HP as [Px Pl]. constructor; [by apply IH|].
  apply Forall_fmap. apply Forall_forall. intros y Hy. simpl.
  rewrite Forall_forall in Hx, Pl. apply HR; auto.
Qed.

Lemma StronglySorted_take {A} (R : relation A) (n : nat) (l : list A) :
  StronglySorted R l -> StronglySorted R (take n l).
Proof.
  intros Hs. rewrite <- (take_drop n l) in Hs.
  by apply StronglySorted_app_1_l in Hs.
Qed.

#[local] Instance count_desc_trans : Transitive count_desc.
Proof. intros x y z. unfold count_desc. lia. Qed.

#[local] Instance count_desc_total : Total count_desc.
Proof. intros x y. unfold count_desc. lia. Qed.

#[local] Instance time_desc_trans : Transitive time_desc.
Proof. intros x y z. unfold time_desc. lia. Qed.

#[local] Instance time_desc_total : Total time_desc.
Proof. intros x y. unfold time_desc. lia. Qed.

(** *** [get_active_users] *)

Lemma ACTIVITY_COUNT_in_window (w : warehouse) (days : N) (u : option str) :
  ACTIVITY_COUNT (recent_sessions w days) u = activity_in_window w (Z.of_N days) u.
Proof.
  unfold ACTIVITY_COUNT, recent_sessions, activity_in_window, DATEADD_DAY.
  induction (STUDENTS_READING_SESSIONS w) as [|s l IH]; [done|].
  rewrite !filter_cons.
  destruct (decide (CURRENT_TIMESTAMP w + - Z.of_N days * 86400 <= s_EVENT_TIME s)%Z)
    as [Ht|Ht].
  - rewrite filter_cons. destruct (decide (s_USER_ID s = u)) as [Hu|Hu].
    + rewrite decide_True by (split; [done|lia]). simpl. by rewrite IH.
    + rewrite decide_False by (intros [? _]; done). done.
  - rewrite decide_False by (intros [_ ?]; lia). done.
Qed.

(** When no event is dated after the query, the window is the trailing
    [days] days in the strict sense. *)
Lemma activity_in_window_between (w : warehouse) (days : Z) (u : option str) :
  Forall (fun s => (s_EVENT_TIME s <= CURRENT_TIMESTAMP w)%Z)
         (STUDENTS_READING_SESSIONS w) ->
  activity_in_window w days u = activity_between w days u.
Proof.
  unfold activity_in_window, activity_between.
  induction 1 as [|s l Hs _ IH]; [done|].
  rewrite !filter_cons.
  destruct (decide (s_USER_ID s = u
                    /\ (CURRENT_TIMESTAMP w - days * 86400 <= s_EVENT_TIME s)%Z))
    as [[Hu Ht]|Hn].
  - rewrite decide_True by (split; [done|lia]). simpl. by rewrite IH.
  - rewrite decide_False by (intros [? [? ?]]; apply Hn; done). done.
Qed.

Lemma ACTIVITY_COUNT_pos (sessions : list reading_session) (u : option str) :
  (0 < ACTIVITY_COUNT sessions u)%nat -> u ∈ s_USER_ID <$> sessions.
Proof.
  unfold ACTIVITY_COUNT. intros Hpos.
  destruct (filter _ sessions) as [|s l] eqn:E; [simpl in Hpos; lia|].
  assert (Hs : s ∈ filter (fun s => s_USER_ID s = u) sessions) by (rewrite E; left).
  apply list_elem_of_filter in Hs as [<- Hs]. by apply list_elem_of_fmap_2.
Qed.

(** The rows of the query before the ORDER BY. *)
Lemma having_rows (w : warehouse) (days : N) (min_activity_count : Z) :
  active_user_rows w days min_activity_count
  ≡ₚ filter (fun r => (min_activity_count <= Z.of_nat r.2)%Z)
       ((fun u => (u, ACTIVITY_COUNT (recent_sessions w days) u))
          <$> remove_dups (s_USER_ID <$> recent_sessions w days)).
Proof. apply merge_sort_Permutation. Qed.

Lemma active_user_rows_count (w : warehouse) (days : N) (m : Z) :
  Forall (fun r => r.2 = activity_in_window w (Z.of_N days) r.1)
         (active_user_rows w days m).
Proof.
  rewrite having_rows. apply Forall_forall. intros r Hr.
  apply list_elem_of_filter in Hr as [_ Hr].
  apply list_elem_of_fmap in Hr as (u & -> & _). simpl.
  apply ACTIVITY_COUNT_in_window.
Qed.

Lemma elem_of_active_users (w : warehouse) (days : N) (m : Z) (u : option str) :
  u ∈ (active_user_rows w days m).*1
  <-> (1 <= activity_in_window w (Z.of_N days) u)%nat
      /\ (m <= Z.of_nat (activity_in_window w (Z.of_N days) u))%Z.
Proof.
  rewrite having_rows.
  rewrite list_elem_of_fmap. split.
  - intros (r & -> & Hr). apply list_elem_of_filter in Hr as [Hge Hr].
    apply list_elem_of_fmap in Hr as (u & -> & Hu). simpl in *.
    rewrite <- ACTIVITY_COUNT_in_window. split; [|done].
    apply elem_of_remove_dups, list_elem_of_fmap in Hu as (s & -> & Hs).
    unfold ACTIVITY_COUNT.
    assert (Hin : s ∈ filter (fun s' => s_USER_ID s' = s_USER_ID s)
                            (recent_sessions w days))
      by (by apply list_elem_of_filter).
    destruct (filter _ (recent_sessions w days)); [by apply elem_of_nil in Hin|].
    simpl. lia.
  - intros [Hpos Hge]. rewrite <- ACTIVITY_COUNT_in_window in Hge, Hpos.
    exists (u, ACTIVITY_COUNT (recent_sessions w days) u). split; [done|].
    apply list_elem_of_filter. split; [done|].
    apply list_elem_of_fmap. exists u. split; [done|].
    apply elem_of_remove_dups, ACTIVITY_COUNT_pos. lia.
Qed.

Lemma NoDup_active_users (w : warehouse) (days : N) (m : Z) :
  NoDup (active_user_rows w days m).*1.
Proof.
  rewrite having_rows.
  apply NoDup_fmap_2_strong.
  - intros r1 r2 Hr1 Hr2 Heq.
    apply list_elem_of_filter in Hr1 as [_ Hr1], Hr2 as [_ Hr2].
    apply list_elem_of_fmap in Hr1 as (u1 & -> & _), Hr2 as (u2 & -> & _).
    simpl in Heq. by subst.
  - apply NoDup_filter, NoDup_fmap_2; [|apply NoDup_remove_dups].
    by intros u1 u2 [= ->].
Qed.

Lemma StronglySorted_active_users (w : warehouse) (days : N) (m : Z) :
  StronglySorted
    (fun u1 u2 => (activity_in_window w (Z.of_N days) u2
                   <= activity_in_window w (Z.of_N days) u1)%nat)
    (active_user_rows w days m).*1.
Proof.
  apply (StronglySorted_fmap_on count_desc _ fst
           (fun r => r.2 = activity_in_window w (Z.of_N days) r.1)).
  - apply active_user_rows_count.
  - intros r1 r2 H1 H2. unfold count_desc. by rewrite H1, H2.
  - apply StronglySorted_merge_sort; apply _.
Qed.

(** For a [days] that is not negative,
    [get_active_users(days, min_activity_count)] returns exactly the
    users with at least [min_activity_count] events, and at least one,
    from [days] days before the query on; each once (the users whose id
    is NULL count as one), in the order of descending event count.  For
    a negative [days] the query is refused and the call raises. *)
Theorem get_active_users_spec (w : warehouse) (days min_activity_count : Z) :
  ((0 <= days)%Z ->
   exists users,
     get_active_users w days min_activity_count = Return users
     /\ (forall u,
           u ∈ users
           <-> (1 <= activity_in_window w days u)%nat
               /\ (min_activity_count <= Z.of_nat (activity_in_window w days u))%Z)
     /\ NoDup users
     /\ StronglySorted
          (fun u1 u2 => (activity_in_window w days u2 <= activity_in_window w days u1)%nat)
          users)
  /\ ((days < 0)%Z ->
      get_active_users w days min_activity_count = Raise DatabaseError).
Proof.
  split.
  - intros Hdays.
    assert (Hn : exists n, days = Z.of_N n)
      by (exists (Z.to_N days); by rewrite Z2N.id).
    destruct Hn as [n ->].
    exists (active_user_rows w n min_activity_count).*1.
    split; [by destruct n|]. split; [|split].
    + intros u. apply elem_of_active_users.
    + apply NoDup_active_users.
    + apply StronglySorted_active_users.
  - intros Hdays. destruct days; [lia..|done].
Qed.

(** The sample warehouse, fourteen days back: the first user has four
    events and the second one. *)
Lemma get_active_users_spec_witness :
  get_active_users sample_warehouse 14 1 = Return [Some (lit "u1"); Some (lit "u2")]
  /\ get_active_users sample_warehouse 14 2 = Return [Some (lit "u1")]
  /\ get_active_users sample_warehouse (-3) 1 = Raise DatabaseError
  /\ exists users,
       get_active_users sample_warehouse 14 5 = Return users
       /\ (forall u,
             u ∈ users
             <-> (1 <= activity_in_window sample_warehouse 14 u)%nat
                 /\ (5 <= Z.of_nat (activity_in_window sample_warehouse 14 u))%Z)
       /\ NoDup users
       /\ StronglySorted
            (fun u1 u2 => (activity_in_window sample_warehouse 14 u2
                           <= activity_in_window sample_warehouse 14 u1)%nat)
            users.
Proof.
  split; [vm_compute; reflexivity|]. split; [vm_compute; reflexivity|].
  split; [reflexivity|].
  apply (proj1 (get_active_users_spec sample_warehouse 14 5)). lia.
Defined.

(** C8: [get_active_users(14, 5)] returns exactly the users with at
    least 5 events dated no earlier than 14 days before the query, each
    once, in descending order of that count.  The window has no upper
    end; when no event is dated after the query, these are the events
    of the trailing 14 days. *)
Theorem active_users_14_5 (w : warehouse) :
  exists users,
    get_active_users w 14 5 = Return users
    /\ (forall u, u ∈ users <-> (5 <= activity_in_window w 14 u)%nat)
    /\ NoDup users
    /\ StronglySorted
         (fun u1 u2 => (activity_in_window w 14 u2 <= activity_in_window w 14 u1)%nat)
         users
    /\ (Forall (fun s => (s_EVENT_TIME s <= CURRENT_TIMESTAMP w)%Z)
               (STUDENTS_READING_SESSIONS w) ->
        forall u, activity_in_window w 14 u = activity_between w 14 u).
Proof.
  exists (active_user_rows w 14 5).*1.
  split; [reflexivity|]. split; [|split; [|split]].
  - intros u. rewrite (elem_of_active_users w 14 5 u).
    change (Z.of_N 14) with 14%Z. lia.
  - apply NoDup_active_users.
  - apply (StronglySorted_active_users w 14 5).
  - intros Hpast u. by apply activity_in_window_between.
Qed.

(** An event dated after the query is counted although it is not in the
    trailing 14 days: queried at day 20, the user with five sessions
    dated day 21 is returned, with no session between day 6 and day
    20. *)
Lemma active_users_not_trailing :
  get_active_users postdated_warehouse 14 5 = Return [Some (lit "u3")]
  /\ activity_between postdated_warehouse 14 (Some (lit "u3")) = 0%nat
  /\ ~ (forall users,
          get_active_users postdated_warehouse 14 5 = Return users ->
          forall u, u ∈ users
                    <-> (5 <= activity_between postdated_warehouse 14 u)%nat).
Proof.
  assert (H1 : get_active_users postdated_warehouse 14 5 = Return [Some (lit "u3")])
    by reflexivity.
  assert (H2 : activity_between postdated_warehouse 14 (Some (lit "u3")) = 0%nat)
    by reflexivity.
  split; [exact H1|]. split; [exact H2|].
  intros H. specialize (H _ H1 (Some (lit "u3"))).
  rewrite H2 in H. destruct H as [H _].
  assert (Hin : Some (lit "u3") ∈ [Some (lit "u3")]) by left.
  apply H in Hin. lia.
Qed.

(** *** [get_user_read_books] *)

(** The partition of a joined row. *)
Definition partition_of (r : joined_row) : option str := b_PERMANENT_ID r.2.

(** The rows numbered 1. *)
Definition firsts (before rows : list joined_row) : list joined_row :=
  (filter (fun rn => rn.2 = 1%nat) (row_numbers before rows)).*1.

Lemma firsts_cons (before : list joined_row) (r : joined_row) (rest : list joined_row) :
  firsts before (r :: rest)
  = if decide (partition_of r ∈ (partition_of <$> before))
    then firsts (r :: before) rest
    else r :: firsts (r :: before) rest.
Proof.
  unfold firsts. simpl row_numbers. rewrite filter_cons. simpl.
  destruct (decide (partition_of r ∈ (partition_of <$> before))) as [Hin|Hin].
  - rewrite decide_False; [done|].
    apply list_elem_of_fmap in Hin as (r' & Hk & Hr').
    assert (H : r' ∈ filter (fun r' => b_PERMANENT_ID r'.2 = b_PERMANENT_ID r.2) before)
      by (apply list_elem_of_filter; split; [by symmetry|done]).
    destruct (filter _ before); [by apply elem_of_nil in H|]. simpl. lia.
  - rewrite decide_True; [done|].
    destruct (filter _ before) as [|r' l] eqn:E; [done|]. exfalso. apply Hin.
    assert (H : r' ∈ filter (fun r' => b_PERMANENT_ID r'.2 = b_PERMANENT_ID r.2) before)
      by (rewrite E; left).
    apply list_elem_of_filter in H as [Hk Hr'].
    apply list_elem_of_fmap. exists r'. split; [by symmetry|done].
Qed.

(** A row numbered 1 is the first of its partition. *)
Lemma firsts_spec (before rows : list joined_row) (r : joined_row) :
  r ∈ firsts before rows ->
  (partition_of r ∉ (partition_of <$> before))
  /\ exists l1 l2, rows = l1 ++ r :: l2 /\ (partition_of r ∉ (partition_of <$> l1)).
Proof.
  revert before. induction rows as [|x rest IH]; intros before.
  - by intros ?%elem_of_nil.
  - rewrite firsts_cons.
    assert (Hrest : r ∈ firsts (x :: before) rest ->
              (partition_of r ∉ (partition_of <$> before))
              /\ exists l1 l2, x :: rest = l1 ++ r :: l2
                               /\ (partition_of r ∉ (partition_of <$> l1))).
    { intros Hr. destruct (IH _ Hr) as (Hb & l1 & l2 & -> & Hl1).
      rewrite fmap_cons, not_elem_of_cons in Hb. destruct Hb as [Hne Hb].
      split; [done|]. exists (x :: l1), l2. split; [done|].
      rewrite fmap_cons, not_elem_of_cons. done. }
    destruct (decide (partition_of x ∈ (partition_of <$> before))) as [Hin|Hin];
      [exact Hrest|].
    intros [->|Hr]%elem_of_cons; [|by apply Hrest].
    split; [done|]. exists [], rest. split; [done|]. by intros ?%elem_of_nil.
Qed.

(** No two rows numbered 1 are of the same partition. *)
Lemma firsts_NoDup (before rows : list joined_row) :
  NoDup (partition_of <$> firsts before rows).
Proof.
  revert before. induction rows as [|x rest IH]; intros before.
  - constructor.
  - rewrite firsts_cons. destruct (decide _) as [Hin|Hin]; [apply IH|].
    rewrite fmap_cons. constructor; [|apply IH].
    intros (r & Hk & Hr)%list_elem_of_fmap.
    apply firsts_spec in Hr as [Hb _]. apply Hb. rewrite <- Hk. left.
Qed.

Lemma read_book_rows_eq (w : warehouse) (u : option str) (LIMIT : nat) :
  read_book_rows w u LIMIT
  = take LIMIT (merge_sort time_desc
                  (firsts [] (merge_sort time_desc (user_sessions w u)))).
Proof. reflexivity. Qed.

Lemma read_book_rows_NoDup (w : warehouse) (u : option str) (LIMIT : nat) :
  NoDup (partition_of <$> read_book_rows w u LIMIT).
Proof.
  rewrite read_book_rows_eq, fmap_take.
  eapply sublist_NoDup; [|apply sublist_take].
  rewrite merge_sort_Permutation. apply firsts_NoDup.
Qed.

Lemma read_book_rows_sorted (w : warehouse) (u : option str) (LIMIT : nat) :
  StronglySorted time_desc (read_book_rows w u LIMIT).
Proof.
  rewrite read_book_rows_eq. apply StronglySorted_take.
  apply StronglySorted_merge_sort; apply _.
Qed.

Lemma elem_of_user_sessions (w : warehouse) (u : option str) (r : joined_row) :
  r ∈ user_sessions w u
  <-> r.1 ∈ STUDENTS_READING_SESSIONS w /\ r.2 ∈ BOOKS_LIST w
      /\ s_USER_ID r.1 = Some (py_str u)
      /\ is_Some (b_PERMANENT_ID r.2)
      /\ s_BOOK_PERMANENT_ID r.1 = b_PERMANENT_ID r.2.
Proof.
  unfold user_sessions. rewrite list_elem_of_bind. split.
  - intros (s & Hr & Hs). apply list_elem_of_bind in Hr as (b & Hr & Hb).
    destruct (sql_eq (s_BOOK_PERMANENT_ID s) (b_PERMANENT_ID b)) eqn:E1;
      [|by apply elem_of_nil in Hr].
    destruct (sql_eq (s_USER_ID s) (Some (py_str u))) eqn:E2;
      [|by apply elem_of_nil in Hr].
    simpl in Hr. apply list_elem_of_singleton in Hr as ->. simpl.
    unfold sql_eq in E1, E2.
    destruct (s_BOOK_PERMANENT_ID s) as [k|], (b_PERMANENT_ID b) as [k'|]; try done.
    destruct (s_USER_ID s) as [x|]; [|done].
    apply bool_decide_eq_true in E1 as ->, E2 as ->. by repeat split.
  - intros (Hs & Hb & Hu & [k Hk] & Hj). destruct r as [s b]. simpl in *.
    exists s. split; [|done]. apply list_elem_of_bind. exists b. split; [|done].
    rewrite Hj, Hk, Hu. simpl. rewrite !bool_decide_eq_true_2 by done. left.
Qed.

(** A row of the result is a session of the user, and no session of
    the user on the same book is later. *)
Lemma read_book_rows_latest (w : warehouse) (u : option str) (LIMIT : nat)
    (r : joined_row) :
  r ∈ read_book_rows w u LIMIT ->
  r ∈ user_sessions w u
  /\ forall r', r' ∈ user_sessions w u -> partition_of r' = partition_of r ->
                (s_EVENT_TIME r'.1 <= s_EVENT_TIME r.1)%Z.
Proof.
  rewrite read_book_rows_eq. intros Hr%subseteq_take.
  rewrite merge_sort_Permutation in Hr.
  apply firsts_spec in Hr as (_ & l1 & l2 & Hrows & Hl1).
  assert (Hsorted : StronglySorted time_desc (l1 ++ r :: l2)).
  { rewrite <- Hrows. apply StronglySorted_merge_sort; apply _. }
  assert (Hperm : l1 ++ r :: l2 ≡ₚ user_sessions w u).
  { rewrite <- Hrows. apply merge_sort_Permutation. }
  split.
  - rewrite <- Hperm. apply elem_of_app. right. left.
  - intros r' Hr' Hk. rewrite <- Hperm in Hr'.
    apply elem_of_app in Hr' as [Hr'|Hr'].
    + exfalso. apply Hl1. rewrite <- Hk. by apply list_elem_of_fmap_2.
    + apply StronglySorted_app_1_r in Hsorted.
      apply elem_of_cons in Hr' as [->|Hr']; [done|].
      apply StronglySorted_inv in Hsorted as [_ Hall].
      rewrite Forall_forall in Hall. by apply Hall.
Qed.

Section ReadBooks.
Variable json_loads : str -> outcome pyval.

(** The dictionary of a row. *)
Definition book_of_row (row : joined_row) (book : read_book) : Prop :=
  event_time book = s_EVENT_TIME row.1
  /\ book_id book = b_PERMANENT_ID row.2
  /\ title book = b_TITLE row.2
  /\ loads_categories json_loads (b_DEFAULT_CATEGORIES row.2) = Return (categories book).

Lemma books_of_rows_spec (rows : list joined_row) (books : list read_book) :
  books_of_rows json_loads rows = Return books -> Forall2 book_of_row rows books.
Proof.
  revert books. induction rows as [|row rows IH]; intros books; simpl.
  - intros [= <-]. constructor.
  - destruct (loads_categories json_loads _) as [cats|e|] eqn:E; [|done..].
    destruct (books_of_rows json_loads rows) as [rest|e|]; [|done..].
    intros [= <-]. constructor; [|by apply IH]. by repeat split.
Qed.

Lemma books_of_rows_returns (rows : list joined_row) :
  (exists books, books_of_rows json_loads rows = Return books)
  <-> Forall (fun row => exists v,
                loads_categories json_loads (b_DEFAULT_CATEGORIES row.2) = Return v)
             rows.
Proof.
  induction rows as [|row rows IH]; simpl.
  - split; [constructor|by exists []].
  - rewrite Forall_cons, <- IH.
    destruct (loads_categories json_loads _) as [cats|e|];
      [|split; [by intros [? ?]|by intros [[? ?] _]]..].
    destruct (books_of_rows json_loads rows) as [rest|e|].
    + split; [intros _|by eexists]. split; by eexists.
    + split; [by intros [? ?]|by intros [_ [? ?]]].
    + split; [by intros [? ?]|by intros [_ [? ?]]].
Qed.

Lemma books_of_rows_sorted (rows : list joined_row) (books : list read_book) :
  Forall2 book_of_row rows books -> StronglySorted time_desc rows ->
  StronglySorted (fun b1 b2 => (event_time b2 <= event_time b1)%Z) books.
Proof.
  induction 1 as [|row b rows bs (Ht & _) Hb IH]; [constructor|].
  intros [Hs Hall]%StronglySorted_inv. constructor; [by apply IH|].
  clear IH Hs. induction Hb as [|row' b' rows' bs' (Ht' & _) _ IH];
    [constructor|].
  apply Forall_cons in Hall as [Hrow Hall]. constructor; [|by apply IH].
  unfold time_desc in Hrow. by rewrite Ht, Ht'.
Qed.

Lemma books_of_rows_ids (rows : list joined_row) (books : list read_book) :
  Forall2 book_of_row rows books -> book_id <$> books = partition_of <$> rows.
Proof.
  induction 1 as [|row b rows bs (_ & Hid & _) _ IH]; [done|].
  rewrite !fmap_cons, IH. by rewrite Hid.
Qed.

End ReadBooks.

(** [get_user_read_books(user_id, LIMIT)] returns exactly when the
    categories of every selected row decode; what it returns has at
    most [LIMIT] books, no two with the same [book_id], the most
    recently read first. *)
Theorem get_user_read_books_spec (json_loads : str -> outcome pyval)
    (w : warehouse) (user_id : option str) (LIMIT : nat) :
  plain_literal user_id = true ->
  ((exists books, get_user_read_books json_loads w user_id LIMIT = Return books)
   <-> Forall (fun row => exists v,
                 loads_categories json_loads (b_DEFAULT_CATEGORIES row.2) = Return v)
              (read_book_rows w user_id LIMIT))
  /\ forall books,
       get_user_read_books json_loads w user_id LIMIT = Return books ->
       (length books <= LIMIT)%nat
       /\ NoDup (book_id <$> books)
       /\ StronglySorted (fun b1 b2 => (event_time b2 <= event_time b1)%Z) books.
Proof.
  intros _. split; [apply books_of_rows_returns|].
  intros books Hb. apply books_of_rows_spec in Hb.
  split; [|split].
  - rewrite <- (Forall2_length _ _ _ Hb), read_book_rows_eq, length_take. lia.
  - rewrite (books_of_rows_ids _ _ _ Hb). apply read_book_rows_NoDup.
  - eapply books_of_rows_sorted; [exact Hb|apply read_book_rows_sorted].
Qed.

Lemma get_user_read_books_spec_witness :
  get_user_read_books loads_empty_list sample_warehouse (Some (lit "u1")) 2
  = Return [ {| event_time := 19 * 86400 + 60; title := Some (lit "Seas");
                author := None; isbn := None; language_code := Some (lit "en");
                genre := None; publisher := None; word_count := Some 120%Z;
                categories := PList []; book_id := Some (lit "b2") |};
             {| event_time := 19 * 86400; title := Some (lit "Space");
                author := None; isbn := None; language_code := Some (lit "en");
                genre := None; publisher := None; word_count := Some 120%Z;
                categories := PList []; book_id := Some (lit "b1") |} ]
  /\ (forall books,
        get_user_read_books loads_empty_list sample_warehouse (Some (lit "u1")) 2
        = Return books ->
        (length books <= 2)%nat
        /\ NoDup (book_id <$> books)
        /\ StronglySorted (fun b1 b2 => (event_time b2 <= event_time b1)%Z) books).
Proof.
  split; [vm_compute; reflexivity|].
  apply (get_user_read_books_spec loads_empty_list sample_warehouse
           (Some (lit "u1")) 2).
  vm_compute. reflexivity.
Defined.



(** Each book [get_user_read_books] returns is one the user has a
    session on, with the time of the latest of these sessions. *)
Theorem get_user_read_books_latest (json_loads : str -> outcome pyval)
    (w : warehouse) (user_id : option str) (LIMIT : nat)
    (books : list read_book) (book : read_book) :
  plain_literal user_id = true ->
  get_user_read_books json_loads w user_id LIMIT = Return books ->
  book ∈ books ->
  is_Some (book_id book)
  /\ (exists s b, s ∈ STUDENTS_READING_SESSIONS w /\ b ∈ BOOKS_LIST w
                  /\ s_USER_ID s = Some (py_str user_id)
                  /\ s_BOOK_PERMANENT_ID s = book_id book
                  /\ b_PERMANENT_ID b = book_id book
                  /\ event_time book = s_EVENT_TIME s
                  /\ title book = b_TITLE b)
  /\ (forall s, s ∈ STUDENTS_READING_SESSIONS w ->
                s_USER_ID s = Some (py_str user_id) ->
                s_BOOK_PERMANENT_ID s = book_id book ->
                (s_EVENT_TIME s <= event_time book)%Z).
Proof.
  intros _ Hb Hin. apply books_of_rows_spec in Hb.
  apply list_elem_of_lookup in Hin as [i Hi].
  destruct (Forall2_lookup_r _ _ _ _ _ Hb Hi) as (row & Hrow & Ht & Hid & Htitle & _).
  apply list_elem_of_lookup_2 in Hrow.
  apply read_book_rows_latest in Hrow as [Hrow Hlatest].
  pose proof Hrow as Hrow'.
  apply elem_of_user_sessions in Hrow' as (Hs & Hbk & Hu & Hsome & Hj).
  rewrite Hid. split; [done|]. split.
  - exists row.1, row.2. by rewrite Ht, Htitle.
  - intros s Hs' Hu' Hj'. rewrite Ht.
    apply (Hlatest (s, row.2)); [|done].
    apply elem_of_user_sessions. simpl. by repeat split.
Qed.

Lemma get_user_read_books_latest_witness :
  let book := {| event_time := 19 * 86400 + 60; title := Some (lit "Seas");
                 author := None; isbn := None; language_code := Some (lit "en");
                 genre := None; publisher := None; word_count := Some 120%Z;
                 categories := PList []; book_id := Some (lit "b2") |} in
  get_user_read_books loads_empty_list sample_warehouse (Some (lit "u1")) 2
  = Return [ book;
             {| event_time := 19 * 86400; title := Some (lit "Space");
                author := None; isbn := None; language_code := Some (lit "en");
                genre := None; publisher := None; word_count := Some 120%Z;
                categories := PList []; book_id := Some (lit "b1") |} ]
  /\ (s_EVENT_TIME (sample_session "u1" "b2" (18 * 86400)) <= event_time book)%Z.
Proof.
  intros book.
  assert (H : get_user_read_books loads_empty_list sample_warehouse
                (Some (lit "u1")) 2
              = Return [ book;
                         {| event_time := 19 * 86400; title := Some (lit "Space");
                            author := None; isbn := None;
                            language_code := Some (lit "en");
                            genre := None; publisher := None;
                            word_count := Some 120%Z;
                            categories := PList []; book_id := Some (lit "b1") |} ])
    by (vm_compute; reflexivity).
  split; [exact H|].
  apply (get_user_read_books_latest loads_empty_list sample_warehouse
           (Some (lit "u1")) 2 _ book ltac:(vm_compute; reflexivity) H ltac:(left)).
  - apply list_elem_of_In. vm_compute. tauto.
  - reflexivity.
  - reflexivity.
Defined.

(** *** The production catalog and [get_book_info] *)

Lemma elem_of_if {A} (b : bool) (x : A) (l : list A) :
  x ∈ (if b then l else []) <-> b = true /\ x ∈ l.
Proof.
  destruct b.
  - split; [by intros H|by intros [_ H]].
  - split; [by intros ?%elem_of_nil|by intros [? _]].
Qed.

Lemma elem_of_production_books (w : warehouse) (rb : regular_book) :
  rb ∈ production_books w
  <-> rb ∈ REGULAR_BOOK w
      /\ exists pb pbe e,
           pb ∈ PUBLISHED_BOOK w /\ pbe ∈ PUBLISHED_BOOK_ENVIRONMENTS w
           /\ e ∈ ENVIRONMENT w
           /\ sql_eq (pb_PUBLISHED_BOOK_ID pb) (rb_ID rb) = true
           /\ sql_eq (pbe_PUBLISHED_BOOK_ID pbe) (pb_ID pb) = true
           /\ sql_eq (e_ID e) (pbe_ENVIRONMENTS_ID pbe) = true
           /\ sql_eq (e_NAME e) (Some (lit "production")) = true.
Proof.
  unfold production_books. rewrite list_elem_of_bind. split.
  - intros (rb' & H & Hrb).
    apply list_elem_of_bind in H as (pb & H & Hpb).
    apply elem_of_if in H as [C1 H].
    apply list_elem_of_bind in H as (pbe & H & Hpbe).
    apply elem_of_if in H as [C2 H].
    apply list_elem_of_bind in H as (e & H & He).
    apply elem_of_if in H as [[C3 C4]%andb_true_iff H].
    apply list_elem_of_singleton in H as ->.
    split; [done|]. by exists pb, pbe, e.
  - intros (Hrb & pb & pbe & e & Hpb & Hpbe & He & C1 & C2 & C3 & C4).
    exists rb. split; [|done].
    apply list_elem_of_bind. exists pb. split; [|done].
    apply elem_of_if. split; [done|].
    apply list_elem_of_bind. exists pbe. split; [|done].
    apply elem_of_if. split; [done|].
    apply list_elem_of_bind. exists e. split; [|done].
    apply elem_of_if. split; [by rewrite C3, C4|left].
Qed.

Lemma elem_of_book_info_rows (w : warehouse) (book_id : option str)
    (row : option str * option str * option str) :
  row ∈ book_info_rows w book_id
  <-> exists rb bei,
        rb ∈ production_books w
        /\ rb_PERMANENT_ID rb = Some (py_str book_id)
        /\ bei ∈ BOOK_EXTENDED_INFO w
        /\ sql_eq (bei_BOOK_ID bei) (rb_ID rb) = true
        /\ row = (rb_PERMANENT_ID rb, rb_DESCRIPTION rb, bei_EXTENDED_BOOK_INFO bei).
Proof.
  unfold book_info_rows. rewrite elem_of_remove_dups, list_elem_of_bind. split.
  - intros (rb & H & Hrb).
    apply list_elem_of_bind in H as (pb & H & Hpb).
    apply elem_of_if in H as [C1 H].
    apply list_elem_of_bind in H as (pbe & H & Hpbe).
    apply elem_of_if in H as [C2 H].
    apply list_elem_of_bind in H as (e & H & He).
    apply elem_of_if in H as [C3 H].
    apply list_elem_of_bind in H as (bei & H & Hbei).
    apply elem_of_if in H as [[[C4 C5]%andb_true_iff C6]%andb_true_iff H].
    apply list_elem_of_singleton in H as ->.
    exists rb, bei. split.
    { apply elem_of_production_books. split; [done|]. by exists pb, pbe, e. }
    split; [|done].
    unfold sql_eq in C6. destruct (rb_PERMANENT_ID rb) as [k|]; [|done].
    by apply bool_decide_eq_true in C6 as ->.
  - intros (rb & bei & Hprod & Hid & Hbei & C4 & ->).
    apply elem_of_production_books in Hprod
      as (Hrb & pb & pbe & e & Hpb & Hpbe & He & C1 & C2 & C3 & C5).
    exists rb. split; [|done].
    apply list_elem_of_bind. exists pb. split; [|done].
    apply elem_of_if. split; [done|].
    apply list_elem_of_bind. exists pbe. split; [|done].
    apply elem_of_if. split; [done|].
    apply list_elem_of_bind. exists e. split; [|done].
    apply elem_of_if. split; [done|].
    apply list_elem_of_bind. exists bei. split; [|done].
    apply elem_of_if. split; [|left].
    rewrite C4, C5, Hid. simpl. by rewrite bool_decide_eq_true_2.
Qed.

(** [get_book_info(book_id)] returns the empty string when no book of
    the production catalog with extended information has this
    identifier; otherwise it returns the DESCRIPTION of such a book
    ([None] when that description is NULL). *)
Theorem get_book_info_spec (w : warehouse) (book_id : option str) :
  plain_literal book_id = true ->
  ((~ exists rb, catalog_entry w book_id rb) -> get_book_info w book_id = Some [])
  /\ ((exists rb, catalog_entry w book_id rb) ->
      exists rb, catalog_entry w book_id rb
                 /\ get_book_info w book_id = rb_DESCRIPTION rb).
Proof.
  intros _. unfold get_book_info.
  destruct (book_info_rows w book_id) as [|row rows] eqn:E.
  - split; [done|]. intros (rb & Hprod & Hid & bei & Hbei & C).
    assert (H : (rb_PERMANENT_ID rb, rb_DESCRIPTION rb, bei_EXTENDED_BOOK_INFO bei)
                ∈ book_info_rows w book_id).
    { apply elem_of_book_info_rows. by exists rb, bei. }
    rewrite E in H. by apply elem_of_nil in H.
  - assert (H : row ∈ book_info_rows w book_id) by (rewrite E; left).
    apply elem_of_book_info_rows in H as (rb & bei & Hprod & Hid & Hbei & C & ->).
    assert (Hentry : catalog_entry w book_id rb).
    { split; [done|]. split; [done|]. by exists bei. }
    split; [intros Hno; destruct Hno; by exists rb|].
    intros _. by exists rb.
Qed.

Lemma get_book_info_spec_witness :
  get_book_info sample_warehouse (Some (lit "b1")) = Some (lit "About the planets.")
  /\ get_book_info sample_warehouse (Some (lit "b3")) = Some []
  /\ (exists rb, catalog_entry sample_warehouse (Some (lit "b2")) rb
                 /\ get_book_info sample_warehouse (Some (lit "b2"))
                    = rb_DESCRIPTION rb).
Proof.
  split; [vm_compute; reflexivity|]. split; [vm_compute; reflexivity|].
  apply (get_book_info_spec sample_warehouse (Some (lit "b2")));
    [vm_compute; reflexivity|].
  exists {| rb_ID := Some 2%Z; rb_PERMANENT_ID := Some (lit "b2");
            rb_TITLE := Some (lit "Seas"); rb_DESCRIPTION := None |}.
  split; [|split; [reflexivity|]].
  - apply list_elem_of_In. vm_compute. tauto.
  - exists {| bei_BOOK_ID := Some 2%Z; bei_EXTENDED_BOOK_INFO := None |}.
    split; [|reflexivity]. apply list_elem_of_In. vm_compute. tauto.
Defined.



End DataSourceSpec.

(** ** The connection *)
Module ConnectionSpec.
Import Py Connection.

(** However the two functions are used, and whatever the client
    answers, a connection is made only while none is held and only the
    held connection is closed; the global [conn] is, after every use,
    the connection held open. *)
Theorem one_connection (ops : list op) (conn : state) :
  no_second_connection (uses ops conn).2 conn
  /\ held_after (uses ops conn).2 conn = (uses ops conn).1.
Proof.
  revert conn. induction ops as [|[connect|close] ops IH]; intros conn; [done|..].
  - cbn [uses]. destruct conn as [h|]; [apply IH|].
    destruct connect as [h|e|];
      cbn [get_db_connection fst snd app no_second_connection held_after].
    + destruct (IH (Some h)) as [H1 H2]. done.
    + destruct (IH None) as [H1 H2]. done.
    + destruct (IH None) as [H1 H2]. done.
  - cbn [uses]. destruct conn as [h|]; [|apply IH].
    destruct close as [[]|e|];
      cbn [close_db_connection fst snd app no_second_connection held_after].
    + destruct (IH None) as [H1 H2]. done.
    + destruct (IH (Some h)) as [H1 H2]. done.
    + destruct (IH (Some h)) as [H1 H2]. done.
Qed.

End ConnectionSpec.

(** ** The [json] fragment *)
Module JsonFacts.
Import Py Json.

Lemma hex_value_hex_digit (d : N) : d < 16 -> hex_value (hex_digit d) = Some d.
Proof.
  intros Hd. unfold hex_digit, hex_value.
  destruct (N.ltb_spec d 10) as [H|H].
  - rewrite (proj2 (N.leb_le _ _)) by lia. rewrite (proj2 (N.leb_le _ _)) by lia.
    simpl. f_equal. lia.
  - replace (0x30 <=? 0x61 + (d - 10)) with true by (symmetry; apply N.leb_le; lia).
    replace (0x61 + (d - 10) <=? 0x39) with false by (symmetry; apply N.leb_gt; lia).
    replace (0x61 <=? 0x61 + (d - 10)) with true by (symmetry; apply N.leb_le; lia).
    replace (0x61 + (d - 10) <=? 0x66) with true by (symmetry; apply N.leb_le; lia).
    simpl. f_equal. lia.
Qed.

Lemma hex4_value_hex4 (n : N) :
  n < 65536 ->
  hex4_value (hex_digit (n / 4096 mod 16)) (hex_digit (n / 256 mod 16))
             (hex_digit (n / 16 mod 16)) (hex_digit (n mod 16)) = Some n.
Proof.
  intros Hn. unfold hex4_value.
  rewrite !hex_value_hex_digit by (apply N.mod_lt; lia).
  f_equal. zify. Z.to_euclidean_division_equations. lia.
Qed.

(** A digit of an escape is a printable ASCII character. *)
Definition printable (c : char) : Prop := 0x20 <= c /\ c <= 0x7e.

Lemma hex_digit_printable (d : N) : d < 16 -> printable (hex_digit d).
Proof.
  intros Hd. unfold hex_digit, printable.
  destruct (N.ltb_spec d 10); lia.
Qed.

Lemma u_escape_printable (n : N) : Forall printable (u_escape n).
Proof.
  unfold u_escape, hex4.
  repeat (constructor; [first [by (unfold printable; lia)
                              |apply hex_digit_printable, N.mod_lt; lia]|]).
  constructor.
Qed.

Lemma escape_char_printable (c : char) : Forall printable (escape_char c).
Proof.
  unfold escape_char.
  repeat (destruct (_ =? _); [repeat constructor; unfold printable; lia|]).
  destruct (_ && _) eqn:E.
  { apply andb_true_iff in E as [H1%N.leb_le H2%N.leb_le]. by repeat constructor. }
  destruct (_ <? _); [apply u_escape_printable|].
  apply Forall_app. split; apply u_escape_printable.
Qed.

Lemma escape_printable (s : str) : Forall printable (escape s).
Proof.
  induction s as [|c s IH]; [constructor|].
  unfold escape. simpl. apply Forall_app. split; [apply escape_char_printable|exact IH].
Qed.

Lemma lit_printable_colon : Forall printable (lit ": ").
Proof. repeat constructor; unfold printable; simpl; lia. Qed.

Lemma dumps_str_printable (s : str) : Forall printable (dumps_str s).
Proof.
  unfold dumps_str. constructor; [unfold printable; lia|].
  apply Forall_app. split; [apply escape_printable|].
  repeat constructor; unfold printable; lia.
Qed.

Lemma dumps_value_printable (v : option str) : Forall printable (dumps_value v).
Proof.
  destruct v as [s|]; [apply dumps_str_printable|].
  repeat constructor; unfold printable; simpl; lia.
Qed.

Lemma dumps_member_printable (kv : str * option str) : Forall printable (dumps_member kv).
Proof.
  unfold dumps_member. rewrite !Forall_app.
  split; [apply dumps_str_printable|].
  split; [apply lit_printable_colon|apply dumps_value_printable].
Qed.

Lemma dumps_members_printable (fields : list (str * option str)) :
  Forall printable (dumps_members fields).
Proof.
  induction fields as [|kv [|kv' rest] IH]; [constructor|apply dumps_member_printable|].
  change (dumps_members (kv :: kv' :: rest))
    with (dumps_member kv ++ lit ", " ++ dumps_members (kv' :: rest)).
  rewrite !Forall_app. split; [apply dumps_member_printable|].
  split; [|exact IH]. repeat constructor; unfold printable; simpl; lia.
Qed.

(** [json.dumps] writes printable ASCII only. *)
Lemma dumps_printable (fields : list (str * option str)) :
  Forall printable (dumps fields).
Proof.
  unfold dumps. rewrite !Forall_app.
  split; [repeat constructor; unfold printable; simpl; lia|].
  split; [apply dumps_members_printable|].
  repeat constructor; unfold printable; simpl; lia.
Qed.

(** *** The scanner reads back what the encoder writes *)

Lemma lor_disjoint (a x k : N) : x < 2 ^ k -> N.lor (a * 2 ^ k) x = a * 2 ^ k + x.
Proof.
  intros Hx. rewrite <- N.lxor_lor, <- N.add_nocarry_lxor; try reflexivity.
  all: apply N.bits_inj; intros i; rewrite N.land_spec, N.bits_0.
  all: destruct (N.lt_ge_cases i k) as [Hi|Hi].
  all: try (rewrite N.mul_pow2_bits_low by exact Hi; reflexivity).
  all: destruct (N.eq_dec x 0) as [->|Hx0]; [rewrite N.bits_0; apply andb_false_r|].
  all: rewrite (N.bits_above_log2 x i), andb_false_r; [reflexivity|].
  all: apply N.lt_le_trans with k; [|exact Hi]; apply N.log2_lt_pow2; lia.
Qed.

(** The two halves of a code point beyond the basic plane. *)
Lemma high_half (v : N) :
  v < 0x100000 -> N.lor 0xd800 (N.land (N.shiftr v 10) 0x3ff) = 0xd800 + v / 1024.
Proof.
  intros Hv. change 0x3ff with (N.ones 10).
  rewrite N.land_ones, N.shiftr_div_pow2. change (2 ^ 10) with 1024.
  assert (H : v / 1024 < 1024) by (apply N.Div0.div_lt_upper_bound; lia).
  rewrite N.mod_small by exact H.
  change 0xd800 with (54 * 2 ^ 10). by apply lor_disjoint.
Qed.

Lemma low_half (v : N) : N.lor 0xdc00 (N.land v 0x3ff) = 0xdc00 + v mod 1024.
Proof.
  change 0x3ff with (N.ones 10). rewrite N.land_ones. change (2 ^ 10) with 1024.
  change 0xdc00 with (55 * 2 ^ 10). apply lor_disjoint.
  change (2 ^ 10) with 1024. apply N.mod_lt. lia.
Qed.

Lemma join_halves (v : N) :
  v < 0x100000 ->
  join_surrogates (0xd800 + v / 1024) (0xdc00 + v mod 1024) = 0x10000 + v.
Proof.
  intros Hv. unfold join_surrogates.
  assert (Hsub : forall a x : N, a + x - a = x) by (intros; lia).
  rewrite !Hsub.
  rewrite N.shiftl_mul_pow2, lor_disjoint
    by (change (2 ^ 10) with 1024; apply N.mod_lt; lia).
  change (2 ^ 10) with 1024. f_equal.
  pose proof (N.div_mod v 1024 ltac:(lia)) as Hdm.
  revert Hdm. generalize (v / 1024) (v mod 1024). intros q r Hdm. lia.
Qed.

Lemma scan_string_u (a b c d : char) (t : str) (n : N) :
  hex4_value a b c d = Some n -> is_high_surrogate n = false ->
  scan_string (0x5c :: 0x75 :: a :: b :: c :: d :: t) = prepend n (scan_string t).
Proof.
  intros Hh Hs. cbn [scan_string]. change (0x5c =? 0x22) with false.
  change (0x5c =? 0x5c) with true. change (0x75 =? 0x75) with true. cbv iota.
  rewrite Hh, Hs. cbn [andb].
  by destruct t as [|x1 [|x2 [|a2 [|b2 [|c2 [|d2 t3]]]]]].
Qed.

Lemma scan_string_pair (a b c d a2 b2 c2 d2 : char) (t : str) (n n2 : N) :
  hex4_value a b c d = Some n -> is_high_surrogate n = true ->
  hex4_value a2 b2 c2 d2 = Some n2 -> is_low_surrogate n2 = true ->
  scan_string (0x5c :: 0x75 :: a :: b :: c :: d
               :: 0x5c :: 0x75 :: a2 :: b2 :: c2 :: d2 :: t)
  = prepend (join_surrogates n n2) (scan_string t).
Proof.
  intros Hh Hs Hh2 Hs2. cbn [scan_string]. change (0x5c =? 0x22) with false.
  change (0x5c =? 0x5c) with true. change (0x75 =? 0x75) with true. cbv iota.
  rewrite Hh, Hs. cbn [andb]. by rewrite Hh2, Hs2.
Qed.

Lemma scan_string_plain (c : char) (t : str) :
  0x20 <= c -> c <> 0x22 -> c <> 0x5c ->
  scan_string (c :: t) = prepend c (scan_string t).
Proof.
  intros H1 H2 H3. cbn [scan_string].
  rewrite (proj2 (N.eqb_neq c 0x22)) by exact H2.
  rewrite (proj2 (N.eqb_neq c 0x5c)) by exact H3.
  by rewrite (proj2 (N.ltb_ge c 0x20)) by exact H1.
Qed.

Lemma scan_u_escape_pair (q r : N) (t : str) :
  q < 1024 -> r < 1024 ->
  scan_string (u_escape (0xd800 + q) ++ u_escape (0xdc00 + r) ++ t)
  = prepend (join_surrogates (0xd800 + q) (0xdc00 + r)) (scan_string t).
Proof.
  intros Hq Hr. unfold u_escape, hex4. cbn [app].
  apply scan_string_pair.
  - apply hex4_value_hex4. lia.
  - unfold is_high_surrogate.
    rewrite (proj2 (N.leb_le _ _)) by lia. rewrite (proj2 (N.leb_le _ _)) by lia.
    done.
  - apply hex4_value_hex4. lia.
  - unfold is_low_surrogate.
    rewrite (proj2 (N.leb_le _ _)) by lia. rewrite (proj2 (N.leb_le _ _)) by lia.
    done.
Qed.

Lemma scan_escape_char (c : char) (t : str) :
  scalar c -> scan_string (escape_char c ++ t) = prepend c (scan_string t).
Proof.
  intros Hc. unfold escape_char.
  destruct (N.eqb_spec c 0x22) as [->|N1]; [done|].
  destruct (N.eqb_spec c 0x5c) as [->|N2]; [done|].
  destruct (N.eqb_spec c 0x0a) as [->|N3]; [done|].
  destruct (N.eqb_spec c 0x0d) as [->|N4]; [done|].
  destruct (N.eqb_spec c 0x09) as [->|N5]; [done|].
  destruct (N.eqb_spec c 0x08) as [->|N6]; [done|].
  destruct (N.eqb_spec c 0x0c) as [->|N7]; [done|].
  destruct ((0x20 <=? c) && (c <=? 0x7e)) eqn:E.
  { apply andb_true_iff in E as [H1%N.leb_le H2%N.leb_le].
    by apply scan_string_plain. }
  destruct (N.ltb_spec c 0x10000) as [Hlt|Hge].
  - unfold u_escape, hex4. cbn [app]. apply scan_string_u.
    + by apply hex4_value_hex4.
    + unfold is_high_surrogate. destruct Hc as [Hc|[Hc _]].
      * rewrite (proj2 (N.leb_gt 0xd800 c)) by exact Hc. done.
      * rewrite (proj2 (N.leb_gt c 0xdbff)) by lia. apply andb_false_r.
  - assert (Hv : c - 0x10000 < 0x100000) by (destruct Hc as [Hc|[_ Hc]]; lia).
    cbv zeta. rewrite high_half, low_half by exact Hv.
    rewrite <- app_assoc, scan_u_escape_pair.
    + rewrite join_halves by exact Hv. f_equal. lia.
    + apply N.Div0.div_lt_upper_bound. lia.
    + apply N.mod_lt. lia.
Qed.

Lemma scan_escape (s rest : str) :
  Forall scalar s -> scan_string (escape s ++ 0x22 :: rest) = Some (s, rest).
Proof.
  induction 1 as [|c s Hc _ IH]; [done|].
  unfold escape. simpl flat_map. fold (escape s).
  rewrite <- app_assoc, scan_escape_char by exact Hc. by rewrite IH.
Qed.

(** *** Objects *)

Definition well_formed_field (kv : str * option str) : Prop :=
  Forall scalar kv.1 /\ Catalog.well_formed_cell kv.2.

Lemma parse_value_dumps (v : option str) (t : str) :
  Catalog.well_formed_cell v -> parse_value (dumps_value v ++ t) = Some (v, t).
Proof.
  destruct v as [s|]; intros Hs; [|reflexivity].
  unfold dumps_value, dumps_str.
  change ((0x22 :: escape s ++ [0x22]) ++ t) with (0x22 :: (escape s ++ [0x22]) ++ t).
  unfold parse_value. change (0x22 =? 0x22) with true. cbv iota.
  rewrite <- app_assoc. change ([0x22] ++ t) with (0x22 :: t).
  by rewrite scan_escape by exact Hs.
Qed.

Lemma skip_ws_dumps_value (v : option str) (t : str) :
  skip_ws (dumps_value v ++ t) = dumps_value v ++ t.
Proof. by destruct v. Qed.

Lemma skip_ws_dumps_members (kv : str * option str) (rest : list (str * option str))
    (t : str) :
  skip_ws (dumps_members (kv :: rest) ++ t) = dumps_members (kv :: rest) ++ t.
Proof. by destruct rest. Qed.

(** One step of the parser of members. *)
Lemma parse_members_S (fuel : nat) (s : str) :
  parse_members (S fuel) s
  = match expect 0x22 s with
    | None => None
    | Some s1 =>
        match scan_string s1 with
        | None => None
        | Some (key, s2) =>
            match expect 0x3a (skip_ws s2) with
            | None => None
            | Some s3 =>
                match parse_value (skip_ws s3) with
                | None => None
                | Some (v, s4) =>
                    match skip_ws s4 with
                    | c :: s5 =>
                        if c =? 0x7d then Some ([(key, v)], s5)
                        else if c =? 0x2c then
                          match parse_members fuel (skip_ws s5) with
                          | Some (rest, s6) => Some ((key, v) :: rest, s6)
                          | None => None
                          end
                        else None
                    | [] => None
                    end
                end
            end
        end
    end.
Proof. reflexivity. Qed.

Lemma dumps_member_eq (k : str) (v : option str) (X : str) :
  dumps_member (k, v) ++ X
  = 0x22 :: escape k ++ 0x22 :: 0x3a :: 0x20 :: dumps_value v ++ X.
Proof.
  unfold dumps_member, dumps_str. cbn [fst snd].
  change (lit ": ") with [0x3a; 0x20].
  rewrite <- !app_assoc. cbn [app]. rewrite <- app_assoc. reflexivity.
Qed.

(** One member, up to what follows it. *)
Lemma parse_members_member (fuel : nat) (kv : str * option str) (X : str) :
  well_formed_field kv ->
  parse_members (S fuel) (dumps_member kv ++ X)
  = match skip_ws X with
    | c :: s5 =>
        if c =? 0x7d then Some ([kv], s5)
        else if c =? 0x2c then
          match parse_members fuel (skip_ws s5) with
          | Some (rest, s6) => Some (kv :: rest, s6)
          | None => None
          end
        else None
    | [] => None
    end.
Proof.
  destruct kv as [k v]. intros [Hk Hv]. cbn [fst snd] in Hk, Hv.
  rewrite parse_members_S, dumps_member_eq.
  change (expect 0x22 (0x22 :: ?x)) with (Some x). cbv iota.
  rewrite scan_escape by exact Hk.
  change (skip_ws (0x3a :: ?x)) with (0x3a :: x).
  change (expect 0x3a (0x3a :: ?x)) with (Some x). cbv iota.
  change (skip_ws (0x20 :: ?x)) with (skip_ws x).
  rewrite skip_ws_dumps_value, parse_value_dumps by exact Hv.
  reflexivity.
Qed.

Lemma parse_members_dumps (fields : list (str * option str)) (fuel : nat) (t : str) :
  fields <> [] -> (length fields <= fuel)%nat ->
  Forall well_formed_field fields ->
  parse_members fuel (dumps_members fields ++ 0x7d :: t) = Some (fields, t).
Proof.
  revert fuel. induction fields as [|kv [|kv' rest] IH]; intros fuel Hne Hfuel Hwf;
    [done| |].
  - destruct fuel as [|fuel]; [simpl in Hfuel; lia|].
    apply Forall_cons in Hwf as [Hkv _]. cbn [dumps_members].
    by rewrite parse_members_member.
  - destruct fuel as [|fuel]; [simpl in Hfuel; lia|].
    apply Forall_cons in Hwf as [Hkv Hwf].
    change (dumps_members (kv :: kv' :: rest))
      with (dumps_member kv ++ lit ", " ++ dumps_members (kv' :: rest)).
    rewrite <- !app_assoc, parse_members_member by exact Hkv.
    change (lit ", " ++ ?x) with (0x2c :: 0x20 :: x).
    change (skip_ws (0x2c :: ?x)) with (0x2c :: x).
    change (0x2c =? 0x7d) with false. change (0x2c =? 0x2c) with true. cbv iota.
    change (skip_ws (0x20 :: ?x)) with (skip_ws x).
    rewrite skip_ws_dumps_members, IH; [done|done| |done].
    simpl in *. lia.
Qed.

Lemma length_dumps_members (fields : list (str * option str)) :
  (length fields <= length (dumps_members fields))%nat.
Proof.
  induction fields as [|kv [|kv' rest] IH]; [done| |].
  - unfold dumps_members, dumps_member, dumps_str. simpl. lia.
  - change (dumps_members (kv :: kv' :: rest))
      with (dumps_member kv ++ lit ", " ++ dumps_members (kv' :: rest)).
    rewrite !length_app. simpl in *. lia.
Qed.

(** [json.loads(json.dumps(d))] gives [d] back, pair by pair. *)
Lemma loads_pairs_dumps (fields : list (str * option str)) :
  Forall well_formed_field fields -> loads_pairs (dumps fields) = Some fields.
Proof.
  intros Hwf. unfold loads_pairs, dumps.
  change (lit "{" ++ ?x) with (0x7b :: x).
  change (skip_ws (0x7b :: ?x)) with (0x7b :: x).
  change (expect 0x7b (0x7b :: ?x)) with (Some x). cbv iota.
  destruct fields as [|kv rest]; [done|].
  rewrite skip_ws_dumps_members.
  destruct (dumps_members (kv :: rest) ++ lit "}") as [|c s2] eqn:E.
  { destruct rest; discriminate. }
  assert (Hc : c = 0x22) by (destruct rest; by injection E).
  rewrite Hc. change (0x22 =? 0x7d) with false. cbv iota.
  rewrite <- Hc, <- E.
  change (lit "}") with (0x7d :: []).
  rewrite parse_members_dumps; [done|done| |done].
  pose proof (length_dumps_members (kv :: rest)).
  cbn [length]. rewrite length_app. simpl in *. lia.
Qed.

(** *** Strings with surrogates *)

Lemma code_point_cases (c : char) :
  code_point c -> scalar c \/ (0xd800 <= c /\ c <= 0xdfff).
Proof. unfold code_point, scalar. lia. Qed.

(** The escape of a surrogate. *)
Lemma escape_char_surrogate (c : char) :
  0xd800 <= c -> c <= 0xdfff -> escape_char c = u_escape c.
Proof.
  intros H1 H2. unfold escape_char.
  repeat (rewrite (proj2 (N.eqb_neq c _)) by lia).
  replace ((0x20 <=? c) && (c <=? 0x7e)) with false
    by (symmetry; apply andb_false_iff; right; apply N.leb_gt; lia).
  by rewrite (proj2 (N.ltb_lt c 0x10000)) by lia.
Qed.

(** After the escape of a high surrogate the scanner looks at the text
    that follows: only the escape of a low surrogate is joined to it. *)
Lemma scan_string_high_alone (a b c d : char) (t : str) (n : N) :
  hex4_value a b c d = Some n ->
  (forall t', t <> 0x5c :: 0x75 :: t') ->
  scan_string (0x5c :: 0x75 :: a :: b :: c :: d :: t) = prepend n (scan_string t).
Proof.
  intros Hh Ht. cbn [scan_string]. change (0x5c =? 0x22) with false.
  change (0x5c =? 0x5c) with true. change (0x75 =? 0x75) with true. cbv iota.
  rewrite Hh.
  destruct t as [|x1 [|x2 [|a2 [|b2 [|c2 [|d2 t3]]]]]]; try reflexivity.
  destruct (is_high_surrogate n); [|reflexivity]. cbn [andb].
  destruct (N.eqb_spec x1 0x5c) as [->|]; [|reflexivity].
  destruct (N.eqb_spec x2 0x75) as [->|]; [|reflexivity].
  by destruct (Ht (a2 :: b2 :: c2 :: d2 :: t3)).
Qed.

Lemma scan_string_high_next (a b c d a2 b2 c2 d2 : char) (t : str) (n n2 : N) :
  hex4_value a b c d = Some n -> is_high_surrogate n = true ->
  hex4_value a2 b2 c2 d2 = Some n2 -> is_low_surrogate n2 = false ->
  scan_string (0x5c :: 0x75 :: a :: b :: c :: d
               :: 0x5c :: 0x75 :: a2 :: b2 :: c2 :: d2 :: t)
  = prepend n (scan_string (0x5c :: 0x75 :: a2 :: b2 :: c2 :: d2 :: t)).
Proof.
  intros Hh Hs Hh2 Hs2.
  change (scan_string (0x5c :: 0x75 :: a :: b :: c :: d
                       :: 0x5c :: 0x75 :: a2 :: b2 :: c2 :: d2 :: t))
    with (match hex4_value a b c d with
          | None => None
          | Some n =>
              if is_high_surrogate n && (0x5c =? 0x5c) && (0x75 =? 0x75) then
                match hex4_value a2 b2 c2 d2 with
                | None => None
                | Some n2 =>
                    if is_low_surrogate n2
                    then prepend (join_surrogates n n2) (scan_string t)
                    else prepend n (scan_string (0x5c :: 0x75 :: a2 :: b2 :: c2 :: d2 :: t))
                end
              else prepend n (scan_string (0x5c :: 0x75 :: a2 :: b2 :: c2 :: d2 :: t))
          end).
  by rewrite Hh, Hs, Hh2, Hs2.
Qed.

(** The first characters of an escape. *)
Lemma escape_char_head (c : char) :
  (exists x t, escape_char c = x :: t /\ x <> 0x5c)
  \/ (exists x t, escape_char c = 0x5c :: x :: t /\ x <> 0x75)
  \/ (c < 0x10000 /\ escape_char c = u_escape c)
  \/ (0x10000 <= c
      /\ escape_char c
         = u_escape (N.lor 0xd800 (N.land (N.shiftr (c - 0x10000) 10) 0x3ff))
           ++ u_escape (N.lor 0xdc00 (N.land (c - 0x10000) 0x3ff))).
Proof.
  unfold escape_char.
  destruct (N.eqb_spec c 0x22) as [->|N1]; [right; left; by eexists _, _|].
  destruct (N.eqb_spec c 0x5c) as [->|N2]; [right; left; by eexists _, _|].
  destruct (N.eqb_spec c 0x0a) as [->|N3]; [right; left; by eexists _, _|].
  destruct (N.eqb_spec c 0x0d) as [->|N4]; [right; left; by eexists _, _|].
  destruct (N.eqb_spec c 0x09) as [->|N5]; [right; left; by eexists _, _|].
  destruct (N.eqb_spec c 0x08) as [->|N6]; [right; left; by eexists _, _|].
  destruct (N.eqb_spec c 0x0c) as [->|N7]; [right; left; by eexists _, _|].
  destruct ((0x20 <=? c) && (c <=? 0x7e)) eqn:E; [left; by eexists _, _|].
  destruct (N.ltb_spec c 0x10000) as [Hlt|Hge].
  - right; right; left. done.
  - right; right; right. done.
Qed.

Lemma prepend_Some (c : char) (r : option (str * str)) (s' rest : str) :
  r = Some (s', rest) -> prepend c r = Some (c :: s', rest).
Proof. by intros ->. Qed.

Lemma escape_cons (c : char) (s : str) : escape (c :: s) = escape_char c ++ escape s.
Proof. reflexivity. Qed.

(** The scanner reads every string the encoder writes, up to its
    closing quote.  (What it reads is the string itself unless the
    string holds a high surrogate next to a low one, which are read as
    one code point.) *)
Lemma scan_escape_any (s rest : str) :
  Forall code_point s ->
  exists s', scan_string (escape s ++ 0x22 :: rest) = Some (s', rest).
Proof.
  remember (length s) as k eqn:Hk. revert s Hk.
  induction k as [k IH] using lt_wf_ind. intros s -> Hs.
  destruct s as [|c s1]; [by exists []|].
  apply Forall_cons in Hs as [Hc Hs1].
  assert (IH1 : exists s', scan_string (escape s1 ++ 0x22 :: rest) = Some (s', rest))
    by (apply (IH (length s1)); [simpl; lia|done|done]).
  rewrite escape_cons, <- app_assoc.
  destruct (code_point_cases c Hc) as [Hsc|[Hlo Hhi]].
  { rewrite scan_escape_char by exact Hsc. destruct IH1 as [s' ->]. by eexists. }
  rewrite escape_char_surrogate by done.
  assert (Hhex : hex4_value (hex_digit (c / 4096 mod 16)) (hex_digit (c / 256 mod 16))
                   (hex_digit (c / 16 mod 16)) (hex_digit (c mod 16)) = Some c)
    by (apply hex4_value_hex4; lia).
  unfold u_escape at 1. unfold hex4 at 1. cbn [app].
  destruct (is_high_surrogate c) eqn:Eh.
  2:{ rewrite (scan_string_u _ _ _ _ _ c Hhex Eh).
      destruct IH1 as [s' ->]. by eexists. }
  destruct s1 as [|c2 s2].
  { rewrite (scan_string_high_alone _ _ _ _ _ c Hhex); [by eexists|].
    intros t'. simpl. congruence. }
  apply Forall_cons in Hs1 as [Hc2 Hs2].
  assert (IH2 : exists s', scan_string (escape s2 ++ 0x22 :: rest) = Some (s', rest))
    by (apply (IH (length s2)); [simpl; lia|done|done]).
  destruct IH1 as [s1' IH1].
  rewrite escape_cons, <- app_assoc in IH1 |- *.
  destruct (escape_char_head c2) as [(x & t0 & E & Hx)|[(x & t0 & E & Hx)|[[Hlt E]|[Hge E]]]].
  - rewrite (scan_string_high_alone _ _ _ _ _ c Hhex).
    + eexists. apply prepend_Some. exact IH1.
    + intros t'. rewrite E. simpl. congruence.
  - rewrite (scan_string_high_alone _ _ _ _ _ c Hhex).
    + eexists. apply prepend_Some. exact IH1.
    + intros t'. rewrite E. simpl. congruence.
  - assert (Hhex2 : hex4_value (hex_digit (c2 / 4096 mod 16))
                      (hex_digit (c2 / 256 mod 16)) (hex_digit (c2 / 16 mod 16))
                      (hex_digit (c2 mod 16)) = Some c2)
      by (apply hex4_value_hex4; lia).
    rewrite E in IH1 |- *. unfold u_escape, hex4 in IH1 |- *. cbn [app] in IH1 |- *.
    destruct (is_low_surrogate c2) eqn:El.
    + rewrite (scan_string_pair _ _ _ _ _ _ _ _ _ c c2 Hhex Eh Hhex2 El).
      destruct IH2 as [s2' IH2]. eexists. apply prepend_Some. exact IH2.
    + rewrite (scan_string_high_next _ _ _ _ _ _ _ _ _ c c2 Hhex Eh Hhex2 El).
      eexists. apply prepend_Some. exact IH1.
  - assert (Hv : c2 - 0x10000 < 0x100000) by (unfold code_point in Hc2; lia).
    rewrite E in IH1 |- *. rewrite high_half in IH1 |- * by exact Hv.
    set (hi := 0xd800 + (c2 - 0x10000) / 1024) in *.
    assert (Hhi' : hi < 0xdc00).
    { unfold hi. assert ((c2 - 0x10000) / 1024 < 1024)
        by (apply N.Div0.div_lt_upper_bound; lia). lia. }
    assert (Hhex2 : hex4_value (hex_digit (hi / 4096 mod 16))
                      (hex_digit (hi / 256 mod 16)) (hex_digit (hi / 16 mod 16))
                      (hex_digit (hi mod 16)) = Some hi)
      by (apply hex4_value_hex4; lia).
    assert (El : is_low_surrogate hi = false).
    { unfold is_low_surrogate. rewrite (proj2 (N.leb_gt 0xdc00 hi)) by lia. done. }
    rewrite <- app_assoc in IH1 |- *.
    unfold u_escape at 1, hex4 at 1 in IH1. unfold u_escape at 1, hex4 at 1.
    cbn [app] in IH1 |- *.
    rewrite (scan_string_high_next _ _ _ _ _ _ _ _ _ c hi Hhex Eh Hhex2 El).
    eexists. apply prepend_Some. exact IH1.
Qed.

Definition python_field (kv : str * option str) : Prop :=
  Forall scalar kv.1 /\ Catalog.python_cell kv.2.

Lemma parse_value_dumps_any (v : option str) (t : str) :
  Catalog.python_cell v -> exists v', parse_value (dumps_value v ++ t) = Some (v', t).
Proof.
  destruct v as [s|]; intros Hs; [|by exists None].
  unfold dumps_value, dumps_str.
  change ((0x22 :: escape s ++ [0x22]) ++ t) with (0x22 :: (escape s ++ [0x22]) ++ t).
  unfold parse_value. change (0x22 =? 0x22) with true. cbv iota.
  rewrite <- app_assoc. change ([0x22] ++ t) with (0x22 :: t).
  destruct (scan_escape_any s t Hs) as [s' ->]. by exists (Some s').
Qed.

Lemma parse_members_member_any (fuel : nat) (kv : str * option str) (X : str) :
  python_field kv ->
  exists v',
    parse_members (S fuel) (dumps_member kv ++ X)
    = match skip_ws X with
      | c :: s5 =>
          if c =? 0x7d then Some ([(kv.1, v')], s5)
          else if c =? 0x2c then
            match parse_members fuel (skip_ws s5) with
            | Some (rest, s6) => Some ((kv.1, v') :: rest, s6)
            | None => None
            end
          else None
      | [] => None
      end.
Proof.
  destruct kv as [k v]. intros [Hk Hv]. cbn [fst snd] in Hk, Hv |- *.
  destruct (parse_value_dumps_any v X Hv) as [v' Hv'].
  exists v'.
  rewrite parse_members_S, dumps_member_eq.
  change (expect 0x22 (0x22 :: ?x)) with (Some x). cbv iota.
  rewrite scan_escape by exact Hk.
  change (skip_ws (0x3a :: ?x)) with (0x3a :: x).
  change (expect 0x3a (0x3a :: ?x)) with (Some x). cbv iota.
  change (skip_ws (0x20 :: ?x)) with (skip_ws x).
  by rewrite skip_ws_dumps_value, Hv'.
Qed.

Lemma parse_members_dumps_any (fields : list (str * option str)) (fuel : nat) (t : str) :
  fields <> [] -> (length fields <= fuel)%nat ->
  Forall python_field fields ->
  exists fields',
    parse_members fuel (dumps_members fields ++ 0x7d :: t) = Some (fields', t)
    /\ fields'.*1 = fields.*1.
Proof.
  revert fuel. induction fields as [|kv [|kv' rest] IH]; intros fuel Hne Hfuel Hwf;
    [done| |].
  - destruct fuel as [|fuel]; [simpl in Hfuel; lia|].
    apply Forall_cons in Hwf as [Hkv _]. cbn [dumps_members].
    destruct (parse_members_member_any fuel kv (0x7d :: t) Hkv) as [v' ->].
    by eexists.
  - destruct fuel as [|fuel]; [simpl in Hfuel; lia|].
    apply Forall_cons in Hwf as [Hkv Hwf].
    change (dumps_members (kv :: kv' :: rest))
      with (dumps_member kv ++ lit ", " ++ dumps_members (kv' :: rest)).
    rewrite <- !app_assoc.
    destruct (parse_members_member_any fuel kv
                (lit ", " ++ dumps_members (kv' :: rest) ++ 0x7d :: t) Hkv) as [v' ->].
    change (lit ", " ++ ?x) with (0x2c :: 0x20 :: x).
    change (skip_ws (0x2c :: ?x)) with (0x2c :: x).
    change (0x2c =? 0x7d) with false. change (0x2c =? 0x2c) with true. cbv iota.
    change (skip_ws (0x20 :: ?x)) with (skip_ws x).
    rewrite skip_ws_dumps_members.
    destruct (IH fuel) as (fields' & -> & Hkeys); [done| |done|].
    { simpl in *. lia. }
    eexists. split; [done|]. cbn [fmap list_fmap fst]. f_equal. exact Hkeys.
Qed.

(** [json.loads] accepts what [json.dumps] writes for a dictionary, and
    finds the keys of the dictionary, in their order. *)
Lemma loads_pairs_dumps_any (fields : list (str * option str)) :
  Forall python_field fields ->
  exists fields', loads_pairs (dumps fields) = Some fields' /\ fields'.*1 = fields.*1.
Proof.
  intros Hwf. unfold loads_pairs, dumps.
  change (lit "{" ++ ?x) with (0x7b :: x).
  change (skip_ws (0x7b :: ?x)) with (0x7b :: x).
  change (expect 0x7b (0x7b :: ?x)) with (Some x). cbv iota.
  destruct fields as [|kv rest]; [by exists []|].
  rewrite skip_ws_dumps_members.
  destruct (dumps_members (kv :: rest) ++ lit "}") as [|c s2] eqn:E.
  { destruct rest; discriminate. }
  assert (Hc : c = 0x22) by (destruct rest; by injection E).
  rewrite Hc. change (0x22 =? 0x7d) with false. cbv iota.
  rewrite <- Hc, <- E.
  change (lit "}") with (0x7d :: []).
  assert (Hlen : Nat.le (length (kv :: rest))
                        (length (0x7b :: dumps_members (kv :: rest) ++ [0x7d]))).
  { pose proof (length_dumps_members (kv :: rest)).
    cbn [length]. rewrite length_app. simpl in *. lia. }
  destruct (parse_members_dumps_any (kv :: rest) _ [] ltac:(done) Hlen Hwf)
    as (fields' & Hp & Hkeys).
  exists fields'. split; [|exact Hkeys].
  match goal with
  | |- context [parse_members ?fuel ?x] =>
      change (parse_members fuel x = Some (fields', [])) in Hp
  end.
  by rewrite Hp.
Qed.

(** *** Lines *)

Lemma lines_from_line (current l rest : str) :
  0x0a ∉ l ->
  lines_from current (l ++ 0x0a :: rest) = (current ++ l) :: lines_from [] rest.
Proof.
  revert current. induction l as [|c l IH]; intros current Hl.
  - cbn [app lines_from]. change (0x0a =? 0x0a) with true. by rewrite app_nil_r.
  - apply not_elem_of_cons in Hl as [Hc Hl]. cbn [app lines_from].
    rewrite (proj2 (N.eqb_neq c 0x0a)) by congruence.
    rewrite IH by exact Hl. by rewrite <- app_assoc.
Qed.

End JsonFacts.

(** ** The catalog file *)
Module CatalogSpec.
Import Py PyFacts DataSource Json JsonFacts Catalog.

Example dumps_tricky_row :
  dumps (json_data tricky_row)
  = lit "{" ++ [0x22] ++ lit "book_id" ++ [0x22] ++ lit ": " ++ [0x22] ++ lit "b-1"
    ++ [0x22] ++ lit ", " ++ [0x22] ++ lit "book_title" ++ [0x22] ++ lit ": null, "
    ++ [0x22] ++ lit "book_Description" ++ [0x22] ++ lit ": " ++ [0x22]
    ++ lit "say " ++ [0x5c; 0x22] ++ lit "hi" ++ [0x5c; 0x22; 0x5c] ++ lit "n"
    ++ [0x5c] ++ lit "u00e9" ++ [0x5c] ++ lit "ud83d" ++ [0x5c] ++ lit "ude00"
    ++ [0x22] ++ lit "}".
Proof. vm_compute. reflexivity. Qed.

Example loads_tricky_row :
  loads_pairs (dumps (json_data tricky_row)) = Some (json_data tricky_row).
Proof. vm_compute. reflexivity. Qed.

Lemma printable_not_line_feed (l : str) : Forall printable l -> 0x0a ∉ l.
Proof.
  intros Hl Hin. rewrite Forall_forall in Hl. apply Hl in Hin.
  unfold printable in Hin. lia.
Qed.

Lemma lines_library_data (rows : list catalog_row) :
  lines (library_data rows) = (fun row => dumps (json_data row)) <$> rows.
Proof.
  unfold lines. induction rows as [|row rows IH]; [done|].
  cbn [library_data fmap list_fmap]. change ([0x0a] ++ ?x) with (0x0a :: x).
  rewrite lines_from_line by apply printable_not_line_feed, dumps_printable.
  by rewrite IH.
Qed.

Lemma well_formed_json_data (row : catalog_row) :
  well_formed_row row -> Forall well_formed_field (json_data row).
Proof.
  intros (H1 & H2 & H3). unfold json_data.
  repeat (constructor; [split; [|done]|]); [..|constructor].
  all: cbn [fst]; apply Forall_forall; intros c Hc; left.
  all: apply list_elem_of_In in Hc; vm_compute in Hc.
  all: repeat (destruct Hc as [<-|Hc]; [done|]); done.
Qed.

Lemma elem_of_catalog_rows (w : warehouse) (row : catalog_row) :
  row ∈ catalog_rows w
  <-> exists rb, rb ∈ production_books w
                 /\ row = (rb_PERMANENT_ID rb, rb_TITLE rb, rb_DESCRIPTION rb).
Proof.
  unfold catalog_rows. rewrite elem_of_remove_dups, list_elem_of_fmap.
  split; intros (rb & H1 & H2); by exists rb.
Qed.

(** The file [fetch_all_production_books] writes has one line per
    distinct row of the query, in the order of the rows: the JSON text
    of the row's dictionary.  A line feed inside a title or a
    description never splits a line, since [json.dumps] escapes it. *)
Theorem catalog_file_lines (w : warehouse) :
  lines (fetch_all_production_books w)
  = (fun row => dumps (json_data row)) <$> catalog_rows w.
Proof. apply lines_library_data. Qed.

(** The file holds printable ASCII and line feeds only, whatever the
    catalog holds. *)
Theorem catalog_file_ascii (w : warehouse) :
  Forall (fun c => printable c \/ c = 0x0a) (fetch_all_production_books w).
Proof.
  unfold fetch_all_production_books.
  induction (catalog_rows w) as [|row rows IH]; [constructor|].
  cbn [library_data]. rewrite !Forall_app. split; [|split; [|exact IH]].
  - eapply Forall_impl; [apply dumps_printable|]. intros c Hc. by left.
  - constructor; [by right|constructor].
Qed.

(** Reading the file back: [json.loads] of each line gives the
    dictionary of its row, with the keys [book_id], [book_title] and
    [book_Description] in this order and the values of the row, when
    no text of the catalog holds a lone surrogate. *)
Theorem catalog_file_round_trip (w : warehouse) :
  Forall well_formed_row (catalog_rows w) ->
  loads_pairs <$> lines (fetch_all_production_books w)
  = (fun row => Some (json_data row)) <$> catalog_rows w.
Proof.
  intros Hwf. unfold fetch_all_production_books.
  rewrite lines_library_data, <- list_fmap_compose.
  apply Forall_fmap_ext_1. eapply Forall_impl; [exact Hwf|].
  intros row Hrow. cbn [compose].
  by apply loads_pairs_dumps, well_formed_json_data.
Qed.

(** Two rows with the same line are the same row. *)
Lemma dumps_json_data_inj (r1 r2 : catalog_row) :
  well_formed_row r1 -> well_formed_row r2 ->
  dumps (json_data r1) = dumps (json_data r2) -> r1 = r2.
Proof.
  intros H1 H2 E.
  assert (H : Some (json_data r1) = Some (json_data r2)).
  { rewrite <- !loads_pairs_dumps by by apply well_formed_json_data. by rewrite E. }
  destruct r1 as [[a1 b1] c1], r2 as [[a2 b2] c2]. unfold json_data in H.
  cbn [fst snd] in H. congruence.
Qed.

(** The books of the file are the books of the production catalog:
    no line is written twice, every line decodes to the identifier,
    title and description of a production book, and every production
    book has its line. *)
Theorem catalog_file_books (w : warehouse) :
  Forall well_formed_row (catalog_rows w) ->
  let file_lines := lines (fetch_all_production_books w) in
  NoDup file_lines
  /\ (forall l, l ∈ file_lines ->
        exists rb, rb ∈ production_books w /\ loads_pairs l = Some (book_fields rb))
  /\ (forall rb, rb ∈ production_books w ->
        exists l, l ∈ file_lines /\ loads_pairs l = Some (book_fields rb)).
Proof.
  intros Hwf file_lines. unfold file_lines, fetch_all_production_books.
  rewrite lines_library_data. rewrite Forall_forall in Hwf.
  split; [|split].
  - apply NoDup_fmap_2_strong; [|apply NoDup_remove_dups].
    intros r1 r2 H1 H2. apply dumps_json_data_inj; by apply Hwf.
  - intros l (row & -> & Hrow)%list_elem_of_fmap.
    pose proof (Hwf row Hrow) as Hr.
    apply elem_of_catalog_rows in Hrow as (rb & Hrb & ->).
    exists rb. split; [done|].
    by apply loads_pairs_dumps, (well_formed_json_data _ Hr).
  - intros rb Hrb.
    set (row := (rb_PERMANENT_ID rb, rb_TITLE rb, rb_DESCRIPTION rb)).
    assert (Hrow : row ∈ catalog_rows w) by (apply elem_of_catalog_rows; by exists rb).
    exists (dumps (json_data row)). split.
    + apply list_elem_of_fmap. by exists row.
    + change (book_fields rb) with (json_data row).
      by apply loads_pairs_dumps, well_formed_json_data, Hwf.
Qed.

(** The sample warehouse: two production books, one with a NULL
    description. *)
Lemma sample_catalog_well_formed : Forall well_formed_row (catalog_rows sample_warehouse).
Proof.
  apply Forall_forall. intros row Hrow. apply list_elem_of_In in Hrow.
  vm_compute in Hrow.
  repeat (destruct Hrow as [<-|Hrow];
          [repeat split; apply Forall_forall; intros c Hc; left;
           apply list_elem_of_In in Hc; vm_compute in Hc;
           repeat (destruct Hc as [<-|Hc]; [done|]); done|]).
  done.
Defined.

Lemma catalog_file_round_trip_witness :
  loads_pairs <$> lines (fetch_all_production_books sample_warehouse)
  = [ Some [ (lit "book_id", Some (lit "b1")); (lit "book_title", Some (lit "Space"));
             (lit "book_Description", Some (lit "About the planets.")) ];
      Some [ (lit "book_id", Some (lit "b2")); (lit "book_title", Some (lit "Seas"));
             (lit "book_Description", None) ] ].
Proof.
  rewrite (catalog_file_round_trip sample_warehouse sample_catalog_well_formed).
  vm_compute. reflexivity.
Defined.

Lemma catalog_file_books_witness :
  let file_lines := lines (fetch_all_production_books sample_warehouse) in
  NoDup file_lines
  /\ (forall l, l ∈ file_lines ->
        exists rb, rb ∈ production_books sample_warehouse
                   /\ loads_pairs l = Some (book_fields rb))
  /\ (forall rb, rb ∈ production_books sample_warehouse ->
        exists l, l ∈ file_lines /\ loads_pairs l = Some (book_fields rb)).
Proof.
  exact (catalog_file_books sample_warehouse sample_catalog_well_formed).
Defined.

Lemma python_json_data (row : catalog_row) :
  python_row row -> Forall python_field (json_data row).
Proof.
  intros (H1 & H2 & H3). unfold json_data.
  repeat (constructor; [split; [|done]|]); [..|constructor].
  all: cbn [fst]; apply Forall_forall; intros c Hc; left.
  all: apply list_elem_of_In in Hc; vm_compute in Hc.
  all: repeat (destruct Hc as [<-|Hc]; [done|]); done.
Qed.

Lemma scalar_code_point (c : char) : scalar c -> code_point c.
Proof. unfold scalar, code_point. lia. Qed.

Lemma well_formed_python_row (row : catalog_row) : well_formed_row row -> python_row row.
Proof.
  assert (H : forall x, well_formed_cell x -> python_cell x).
  { intros [s|]; [|done]. simpl. intros Hs.
    eapply Forall_impl; [exact Hs|apply scalar_code_point]. }
  intros (H1 & H2 & H3). repeat split; by apply H.
Qed.

(** C3 (as amended): the file [fetch_all_production_books] writes has
    one line for each distinct row of the catalog query, and every
    line is a JSON object with exactly the keys [book_id], [book_title]
    and [book_Description], in this order. *)
Theorem catalog_lines_are_objects (w : warehouse) :
  Forall python_row (catalog_rows w) ->
  let file_lines := lines (fetch_all_production_books w) in
  length file_lines = length (catalog_rows w)
  /\ Forall (object_with_keys [lit "book_id"; lit "book_title"; lit "book_Description"])
            file_lines.
Proof.
  intros Hrows file_lines. unfold file_lines, fetch_all_production_books.
  rewrite lines_library_data. split; [apply length_fmap|].
  apply Forall_fmap. eapply Forall_impl; [exact Hrows|].
  intros row Hrow. cbn [compose].
  destruct (loads_pairs_dumps_any (json_data row) (python_json_data row Hrow))
    as (fields & Hl & Hk).
  exists fields. split; [exact Hl|]. by rewrite Hk.
Qed.

Lemma catalog_lines_are_objects_witness :
  let file_lines := lines (fetch_all_production_books sample_warehouse) in
  length file_lines = 2%nat
  /\ Forall (object_with_keys [lit "book_id"; lit "book_title"; lit "book_Description"])
            file_lines.
Proof.
  apply (catalog_lines_are_objects sample_warehouse).
  eapply Forall_impl; [apply sample_catalog_well_formed|].
  apply well_formed_python_row.
Defined.

(** C3 (as stated) fails: the keys of the lines are not [book_id],
    [title] and [description]. *)
Lemma catalog_keys_not_as_claimed :
  ~ Forall (object_with_keys [lit "book_id"; lit "title"; lit "description"])
           (lines (fetch_all_production_books sample_warehouse)).
Proof.
  unfold fetch_all_production_books. rewrite lines_library_data.
  rewrite Forall_fmap, Forall_forall. intros H.
  set (row := (Some (lit "b1"), Some (lit "Space"), Some (lit "About the planets."))
              : catalog_row).
  assert (Hrow : row ∈ catalog_rows sample_warehouse)
    by (apply list_elem_of_In; vm_compute; by left).
  destruct (H row Hrow) as (fields & Hl & Hk). cbn [compose] in Hl.
  assert (Hf : loads_pairs (dumps (json_data row)) = Some (json_data row))
    by (vm_compute; reflexivity).
  rewrite Hf in Hl. injection Hl as <-. vm_compute in Hk. discriminate Hk.
Qed.

End CatalogSpec.
